(** * You vs Everyone: the session integrity engine

    A shallow embedding of the engine of [app.js]: the deterministic day
    seed, the leave-rule monitor, the three session state machines and the
    streak ledger, with the properties the specification states about them.

    The repository carries two builds of the same script.  The local build
    ([src/app.js]) keys everything on the viewer's local calendar date; the
    UTC build (the second copy, with the remote mirror) keys everything on
    the UTC date.  The engine code is otherwise close, so the embedding
    takes the build as a parameter wherever the two differ.

    Conventions of the embedding:
    - Numbers are integers of [Z]; within the safe integers the script's
      arithmetic on them is exact in double precision (the comments at
      [floorScaled], [healMs] and [diffDays] say why), and 32-bit
      operations have their wrap-around written out.
    - The [Date] built-in is modelled after ECMA-262, with the host's time
      zone as data; [localStorage] is the record of the keys of the
      script's table [LS], and its writes succeed.
    - A handler is a function from the state of the page to a result and
      a new state; one that can throw ends by returning or by throwing.
      Toasts and the remote mirror are left out, and of the rendering all
      but the read of today's run that it makes.  In the UTC build a
      handler that awaits the remote mirror is divided at the [await]:
      what follows is a step of its own in the event loop.
    - Each build is modelled as it is shipped.  The local build calls
      [loadJSON] and [saveJSON] and declares neither, so its handlers throw
      where they reach such a call. *)

From Stdlib Require Import ZArith Lia Bool List Ascii String QArith DecimalString.
From Stdlib Require Import DecimalPos DecimalZ Qround.
From stdpp Require Import base option gmap strings.
Import ListNotations.

Local Open Scope string_scope.
Local Open Scope Z_scope.

(** ** Numbers as the script uses them *)

Module JS.

(** [ToInt32] and [ToUint32] of an integral Number. *)
Definition two32 : Z := 4294967296.
Definition two31 : Z := 2147483648.

Definition ToUint32 (x : Z) : Z := x mod two32.
Definition ToInt32 (x : Z) : Z := (x + two31) mod two32 - two31.

(** [x >>> n], [x | y], [x ^ y] and [Math.imul(x, y)]. *)
Definition ushr (x n : Z) : Z := Z.shiftr (ToUint32 x) (n mod 32).
Definition bor (x y : Z) : Z := ToInt32 (Z.lor (ToInt32 x) (ToInt32 y)).
Definition bxor (x y : Z) : Z := ToInt32 (Z.lxor (ToInt32 x) (ToInt32 y)).
Definition imul (x y : Z) : Z := ToInt32 (ToUint32 x * ToUint32 y).

(** [Number.isSafeInteger(n)]: the integers on which the script's double
    arithmetic and [String(n)] are exact. *)
Definition safeInteger (n : Z) : Prop := - 2 ^ 53 < n < 2 ^ 53.

(** A string as its sequence of code units ([charCodeAt]). *)
Definition charCode (c : ascii) : Z := Z.of_N (N_of_ascii c).
Definition charCodes (s : string) : list Z := List.map charCode (list_ascii_of_string s).

End JS.

(** ** DeterministicDaySeed: [hash32] and [mulberry32] *)

(** [hash32]: the loop body, then the loop over the code units, then the
    final [h >>> 0]. *)
Definition hash32_step (h c : Z) : Z := JS.imul (JS.bxor h c) 16777619.

Definition hash32_units (cs : list Z) : Z :=
  JS.ushr (List.fold_left hash32_step cs (JS.ushr 2166136261 0)) 0.

Definition hash32 (str : string) : Z := hash32_units (JS.charCodes str).

(** [mulberry32(seed)] returns a closure over the variable [a].  The closure
    is modelled by its captured state: [mulberry32 seed] is the initial
    value of [a], and [mulberry32_next a] is one call, giving the new value
    of [a] and the numerator of the returned float (the call returns
    numerator / 4294967296). *)
Definition mulberry32 (seed : Z) : Z := JS.ushr seed 0.

Definition mulberry32_next (a : Z) : Z * Z :=
  let a := JS.bor a 0 in
  let a := JS.bor (a + 1831565813) 0 in
  let t := JS.imul (JS.bxor a (JS.ushr a 15)) (JS.bor 1 a) in
  let t := JS.bxor t (t + JS.imul (JS.bxor t (JS.ushr t 7)) (JS.bor 61 t)) in
  (a, JS.ushr (JS.bxor t (JS.ushr t 14)) 0).

(** The float a call returns, as an exact rational. *)
Definition rnd_value (numer : Z) : Q := Qmake numer 4294967296.

(** The first [n] values a fresh generator yields (their numerators). *)
Fixpoint mulberry32_run (n : nat) (a : Z) : list Z :=
  match n with
  | O => []
  | S n' => let '(a', k) := mulberry32_next a in k :: mulberry32_run n' a'
  end.

Definition mulberry32_stream (seed : Z) (n : nat) : list Z :=
  mulberry32_run n (mulberry32 seed).

(** ** The [Date] built-in, as far as the engine uses it

    Time values are integral milliseconds since the epoch.  The calendar
    functions follow ECMA-262 (Day, DayFromYear, YearFromTime,
    MonthFromTime, DateFromTime, MakeDay, LocalTime, UTC).  Months are
    numbered from 0, as [getMonth] does. *)

Module Date.

Definition msPerDay : Z := 86400000.

Definition Day (t : Z) : Z := t / msPerDay.
Definition TimeWithinDay (t : Z) : Z := t mod msPerDay.

Definition isLeap (y : Z) : bool :=
  (y mod 4 =? 0) && (negb (y mod 100 =? 0) || (y mod 400 =? 0)).
Definition DaysInYear (y : Z) : Z := if isLeap y then 366 else 365.

Definition DayFromYear (y : Z) : Z :=
  365 * (y - 1970) + (y - 1969) / 4 - (y - 1901) / 100 + (y - 1601) / 400.

(** The largest [y] with [DayFromYear y <= d]: an estimate from the mean
    year length, corrected by at most one (see [YearFromDay_spec]). *)
Definition YearFromDay (d : Z) : Z :=
  let y := 1970 + (400 * d) / 146097 in
  if d <? DayFromYear y then y - 1
  else if DayFromYear (y + 1) <=? d then y + 1
  else y.

Definition YearFromTime (t : Z) : Z := YearFromDay (Day t).
Definition InLeapYear (t : Z) : Z := if isLeap (YearFromTime t) then 1 else 0.
Definition DayWithinYear (t : Z) : Z := Day t - DayFromYear (YearFromTime t).

(** Day within the year on which month [m] starts. *)
Definition monthStart (leap m : Z) : Z :=
  match m with
  | 0 => 0 | 1 => 31 | 2 => 59 + leap | 3 => 90 + leap
  | 4 => 120 + leap | 5 => 151 + leap | 6 => 181 + leap | 7 => 212 + leap
  | 8 => 243 + leap | 9 => 273 + leap | 10 => 304 + leap | 11 => 334 + leap
  | _ => 365 + leap
  end.

Definition monthOfDayWithinYear (leap dwy : Z) : Z :=
  if dwy <? 31 then 0
  else if dwy <? 59 + leap then 1
  else if dwy <? 90 + leap then 2
  else if dwy <? 120 + leap then 3
  else if dwy <? 151 + leap then 4
  else if dwy <? 181 + leap then 5
  else if dwy <? 212 + leap then 6
  else if dwy <? 243 + leap then 7
  else if dwy <? 273 + leap then 8
  else if dwy <? 304 + leap then 9
  else if dwy <? 334 + leap then 10
  else 11.

Definition MonthFromTime (t : Z) : Z :=
  monthOfDayWithinYear (InLeapYear t) (DayWithinYear t).
Definition DateFromTime (t : Z) : Z :=
  DayWithinYear t - monthStart (InLeapYear t) (MonthFromTime t) + 1.

Definition HourFromTime (t : Z) : Z := (t / 3600000) mod 24.
Definition MinFromTime (t : Z) : Z := (t / 60000) mod 60.
Definition SecFromTime (t : Z) : Z := (t / 1000) mod 60.
Definition msFromTime (t : Z) : Z := t mod 1000.

Definition DaysInMonth (y m : Z) : Z :=
  let leap := if isLeap y then 1 else 0 in
  monthStart leap (m + 1) - monthStart leap m.

Definition MakeDay (year month date : Z) : Z :=
  let ym := year + month / 12 in
  let mn := month mod 12 in
  DayFromYear ym + monthStart (if isLeap ym then 1 else 0) mn + date - 1.
Definition MakeTime (hour min sec ms : Z) : Z :=
  hour * 3600000 + min * 60000 + sec * 1000 + ms.
Definition MakeDate (day time : Z) : Z := day * msPerDay + time.

(** The host's time zone: [LocalTZA tz t true] is the offset (ms) in force
    at the UTC instant [t], [LocalTZA tz t false] the offset that applies
    to the local time value [t]. *)
Record TimeZone := { LocalTZA : Z -> bool -> Z }.

Definition LocalTime (tz : TimeZone) (t : Z) : Z := t + LocalTZA tz t true.
Definition UTC (tz : TimeZone) (t : Z) : Z := t - LocalTZA tz t false.

Definition getFullYear (tz : TimeZone) (t : Z) : Z := YearFromTime (LocalTime tz t).
Definition getMonth (tz : TimeZone) (t : Z) : Z := MonthFromTime (LocalTime tz t).
Definition getDate (tz : TimeZone) (t : Z) : Z := DateFromTime (LocalTime tz t).

(** A zone with one offset all year, and the zone of New York during 2024
    (UTC-5, and UTC-4 from 2024-03-10 07:00Z to 2024-11-03 06:00Z; a local
    time skipped or repeated by a transition is read with the offset in
    force before it). *)
Definition fixedZone (offsetMs : Z) : TimeZone := {| LocalTZA := fun _ _ => offsetMs |}.
Definition utcZone : TimeZone := fixedZone 0.

Definition newYork2024 : TimeZone :=
  {| LocalTZA := fun t isUTC =>
       if isUTC
       then if (1710054000000 <=? t) && (t <? 1730613600000) then -14400000 else -18000000
       else if (1710039600000 <=? t) && (t <? 1730599200000) then -14400000 else -18000000 |}.

(** Instants of the years 0000 to 9999, whose ISO timestamps open with a
    four-digit year. *)
Definition fourDigitYear (t : Z) : Prop :=
  -62167219200000 <= t < 253402300800000.

End Date.

(** ** Strings of numbers: [String(n)], [padStart], [parseInt(s, 10)] *)

Module Str.

(** [String(n)] for a safe integer [n]: its decimal numeral.  (Beyond the
    safe integers the script's numbers are doubles, and from 10^21 on
    [String] writes an exponent; the statements that depend on the digits
    of a number carry the bound, [JS.safeInteger] or a narrower one.) *)
Definition ofNumber (n : Z) : string := NilZero.string_of_int (Z.to_int n).

Fixpoint repeatChar (n : nat) (c : ascii) : string :=
  match n with
  | O => EmptyString
  | S n' => String c (repeatChar n' c)
  end.

(** [s.padStart(len, c)] with a one-character filler. *)
Definition padStart (len : nat) (c : ascii) (s : string) : string :=
  String.append (repeatChar (len - String.length s) c) s.

Definition digitVal (c : ascii) : option Z :=
  let n := JS.charCode c in
  if (48 <=? n) && (n <=? 57) then Some (n - 48) else None.

Definition isWhite (c : ascii) : bool :=
  let n := JS.charCode c in
  (n =? 32) || ((9 <=? n) && (n <=? 13)) || (n =? 160).

Fixpoint trimStart (s : string) : string :=
  match s with
  | String c r => if isWhite c then trimStart r else s
  | EmptyString => EmptyString
  end.

(** The longest prefix of decimal digits. *)
Fixpoint digitPrefix (s : string) : string :=
  match s with
  | String c r =>
      match digitVal c with
      | Some _ => String c (digitPrefix r)
      | None => EmptyString
      end
  | EmptyString => EmptyString
  end.

Definition digitsValue (s : string) : option Z :=
  match s with
  | EmptyString => None
  | _ => option_map Z.of_uint (NilEmpty.uint_of_string s)
  end.

(** [parseInt(s, 10)]; [None] is NaN. *)
Definition parseInt (s : string) : option Z :=
  match trimStart s with
  | String "-" r => option_map Z.opp (digitsValue (digitPrefix r))
  | String "+" r => digitsValue (digitPrefix r)
  | r => digitsValue (digitPrefix r)
  end.

(** [s.trim()]: white space is dropped at both ends. *)
Fixpoint trimEnd (s : string) : string :=
  match s with
  | EmptyString => EmptyString
  | String c r =>
      match trimEnd r with
      | EmptyString => if isWhite c then EmptyString else String c EmptyString
      | r' => String c r'
      end
  end.

Definition trim (s : string) : string := trimEnd (trimStart s).

(** Truthiness of a value that is a string or [null]. *)
Definition truthy (o : option string) : bool :=
  match o with
  | Some (String _ _) => true
  | _ => false
  end.

End Str.

(** ** Day keys *)

Definition pad2 (n : Z) : string := Str.padStart 2 "0" (Str.ofNumber n).

(** The fixed-width decimal fields of the ISO format: a number of at most
    two, three, four or six digits, written with exactly that many. *)
Definition digitChar (k : Z) : ascii := ascii_of_N (Z.to_N (48 + k)).

Definition fmt2 (n : Z) : string :=
  String (digitChar (n / 10)) (String (digitChar (n mod 10)) EmptyString).

Definition fmt3 (n : Z) : string := String (digitChar (n / 100)) (fmt2 (n mod 100)).

Definition fmt4 (n : Z) : string :=
  String (digitChar (n / 1000)) (String (digitChar (n / 100 mod 10))
    (String (digitChar (n / 10 mod 10)) (String (digitChar (n mod 10)) EmptyString))).

Definition fmt6 (n : Z) : string := String.append (fmt2 (n / 10000)) (fmt4 (n mod 10000)).

Module DateStr.
Import Date.

Definition yearString (y : Z) : string :=
  if (0 <=? y) && (y <=? 9999) then fmt4 y
  else String.append (if y <? 0 then "-" else "+") (fmt6 (Z.abs y)).

(** [d.toISOString()] of a valid time value: YYYY-MM-DDTHH:mm:ss.sssZ, the
    year with a sign and six digits outside 0000 to 9999. *)
Definition toISOString (t : Z) : string :=
  String.concat ""
    [ yearString (YearFromTime t); "-"; fmt2 (MonthFromTime t + 1); "-";
      fmt2 (DateFromTime t); "T"; fmt2 (HourFromTime t); ":";
      fmt2 (MinFromTime t); ":"; fmt2 (SecFromTime t); ".";
      fmt3 (msFromTime t); "Z" ].

Definition num2 (a b : ascii) : option Z :=
  match Str.digitVal a, Str.digitVal b with
  | Some x, Some y => Some (10 * x + y)
  | _, _ => None
  end.

Definition num4 (a b c d : ascii) : option Z :=
  match num2 a b, num2 c d with
  | Some x, Some y => Some (100 * x + y)
  | _, _ => None
  end.

(** The date part of the ISO format: YYYY, YYYY-MM or YYYY-MM-DD, giving
    year, month (from 1), day and the rest of the string. *)
Definition parseDatePart (s : string) : option (Z * Z * Z * string) :=
  match s with
  | String y1 (String y2 (String y3 (String y4 r))) =>
      match num4 y1 y2 y3 y4 with
      | None => None
      | Some y =>
          match r with
          | String "-" (String m1 (String m2 r')) =>
              match num2 m1 m2 with
              | None => None
              | Some m =>
                  match r' with
                  | String "-" (String d1 (String d2 r'')) =>
                      match num2 d1 d2 with
                      | None => None
                      | Some d => Some (y, m, d, r'')
                      end
                  | _ => Some (y, m, 1, r')
                  end
              end
          | _ => Some (y, 1, 1, r)
          end
      end
  | _ => None
  end.

(** The time part THH:mm:ss with an optional Z; the flag tells whether the
    Z is there. *)
Definition parseTimePart (s : string) : option (Z * Z * Z * bool) :=
  match s with
  | String "T" (String h1 (String h2 (String ":" (String n1 (String n2
      (String ":" (String s1 (String s2 r)))))))) =>
      match num2 h1 h2, num2 n1 n2, num2 s1 s2 with
      | Some h, Some n, Some sec =>
          match r with
          | EmptyString => Some (h, n, sec, false)
          | String "Z" EmptyString => Some (h, n, sec, true)
          | _ => None
          end
      | _, _, _ => None
      end
  | _ => None
  end.

Definition validFields (y m d h n sec : Z) : bool :=
  (1 <=? m) && (m <=? 12) && (1 <=? d) && (d <=? DaysInMonth y (m - 1))
  && ((h <=? 23) && (n <=? 59) && (sec <=? 59)
      || (h =? 24) && (n =? 0) && (sec =? 0)).

(** [new Date(s).getTime()] for a date-time string in the ISO format with
    seconds, and a Z or no offset at all (then the fields are local
    time); [None] is NaN.  ECMA-262 leaves every other string to the
    implementation; the engine only ever parses a stored day key followed
    by T00:00:00 or T00:00:00Z, and a string that is not of that shape is
    read as NaN here. *)
Definition parse (tz : TimeZone) (s : string) : option Z :=
  match parseDatePart s with
  | None => None
  | Some (y, m, d, r) =>
      match parseTimePart r with
      | None => None
      | Some (h, n, sec, isZ) =>
          if validFields y m d h n sec
          then let tv := MakeDate (MakeDay y (m - 1) d) (MakeTime h n sec 0) in
               Some (if isZ then tv else UTC tz tv)
          else None
      end
  end.

End DateStr.

(** The two builds of the script. *)
Inductive Build := LocalBuild | UtcBuild.

(** [localDayKey(d)] of the local build and [utcDayKey(d)] of the UTC build. *)
Definition localDayKey (tz : Date.TimeZone) (d : Z) : string :=
  String.concat ""
    [ Str.ofNumber (Date.getFullYear tz d); "-"; pad2 (Date.getMonth tz d + 1); "-";
      pad2 (Date.getDate tz d) ].

Definition utcDayKey (d : Z) : string := String.substring 0 10 (DateStr.toISOString d).

(** What the clock and the host look like to the script: the instant
    [new Date()] and [Date.now()] return, and the host's time zone. *)
Record Clock := { now : Z; zone : Date.TimeZone }.

(** The day key each build computes from [new Date()]. *)
Definition dayKey (b : Build) (c : Clock) : string :=
  match b with
  | LocalBuild => localDayKey (zone c) (now c)
  | UtcBuild => utcDayKey (now c)
  end.

(** [todaySeed(salt)]. *)
Definition todaySeed (b : Build) (c : Clock) (salt : string) : Z :=
  hash32 (String.concat "" ["yve:"; dayKey b c; ":"; salt]).

(** ** ContentSelector *)

(** The titles of [DAILY_CHALLENGES], in catalog order (the descriptions
    play no part in the selection). *)
Definition DAILY_CHALLENGES : list string :=
  [ "Two-Minute Start"; "Inbox Guillotine"; "Desk Reset"; "One Ugly Draft";
    "Phone Exile"; "Micro-Workout"; "File Graveyard"; "The 1-Task List";
    "Noise Cut"; "Tomorrow Trap"; "No-Zero Move"; "The Hard Part First" ].

(** [Math.floor(rnd() * n)] for the numerator [k] of [rnd()]: both the
    quotient k / 2^32 and its product with a small integer are exact in
    double precision, so the floor is the integer quotient. *)
Definition floorScaled (k n : Z) : Z := (k * n) / JS.two32.

(** [getTodaysChallenge().id]. *)
Definition getTodaysChallengeId (b : Build) (c : Clock) : Z :=
  let seed := todaySeed b c "challenge" in
  let '(_, k) := mulberry32_next (mulberry32 seed) in
  floorScaled k (Z.of_nat (List.length DAILY_CHALLENGES)).

(** [getTodaysCrowdNumber()], before [toLocaleString]. *)
Definition getTodaysCrowdNumber (b : Build) (c : Clock) : Z :=
  let seed := todaySeed b c "crowd" in
  let '(a1, k1) := mulberry32_next (mulberry32 seed) in
  let '(_, k2) := mulberry32_next a1 in
  (8000 + floorScaled k1 24000) + floorScaled k2 1800.

(** ** PersistenceStore and the engine's state *)

(** Values of the fields of a stored object. *)
Inductive JsVal :=
| VNull
| VBool (b : bool)
| VNum (n : Z)
| VStr (s : string).

#[global] Instance JsVal_eq_dec : EqDecision JsVal.
Proof. solve_decision. Defined.

(** What [JSON.parse] gives: a primitive, an object, or an array (whose
    contents the engine never looks at under [LS.todayState], nor inside a
    history list). *)
Inductive Json :=
| JPrim (v : JsVal)
| JObj (o : gmap string JsVal)
| JArr.

(** The text under [LS.todayState], by what [JSON.parse] makes of it:
    [Unparsable] is a text it throws on (or the empty string, which
    [loadJSON] does not even parse), [Parses j] a text denoting [j]. *)
Inductive Raw :=
| Unparsable
| Parses (j : Json).

(** The text under a history key, by what [loadJSON(key, [])] makes of it:
    nothing usable (no item, the empty string, or a text [JSON.parse]
    throws on), an array, or a value that is not an array. *)
Inductive HistoryItem (A : Type) :=
| NoHistory
| HistoryArray (l : list A)
| NotAnArray.

Arguments NoHistory {A}.
Arguments HistoryArray {A} l.
Arguments NotAnArray {A}.

(** The keys of [localStorage] the script owns, its table [LS]. *)
Record LocalStorage := {
  yve_theme : option string;
  yve_user_mode : option string;
  yve_streak : option string;
  yve_streak_last_day : option string;
  yve_today_state : option Raw;
  yve_boss_history : HistoryItem Json;
  yve_arena_history : HistoryItem Json;
  yve_arena_badges : option string
}.

(** [localStorage.setItem] under each key the engine writes. *)
Definition setItem_streak (v : string) (ls : LocalStorage) : LocalStorage :=
  {| yve_theme := yve_theme ls; yve_user_mode := yve_user_mode ls;
     yve_streak := Some v; yve_streak_last_day := yve_streak_last_day ls;
     yve_today_state := yve_today_state ls; yve_boss_history := yve_boss_history ls;
     yve_arena_history := yve_arena_history ls; yve_arena_badges := yve_arena_badges ls |}.

Definition setItem_streak_last_day (v : string) (ls : LocalStorage) : LocalStorage :=
  {| yve_theme := yve_theme ls; yve_user_mode := yve_user_mode ls;
     yve_streak := yve_streak ls; yve_streak_last_day := Some v;
     yve_today_state := yve_today_state ls; yve_boss_history := yve_boss_history ls;
     yve_arena_history := yve_arena_history ls; yve_arena_badges := yve_arena_badges ls |}.

Definition setItem_today_state (v : Raw) (ls : LocalStorage) : LocalStorage :=
  {| yve_theme := yve_theme ls; yve_user_mode := yve_user_mode ls;
     yve_streak := yve_streak ls; yve_streak_last_day := yve_streak_last_day ls;
     yve_today_state := Some v; yve_boss_history := yve_boss_history ls;
     yve_arena_history := yve_arena_history ls; yve_arena_badges := yve_arena_badges ls |}.

Definition setItem_boss_history (v : HistoryItem Json) (ls : LocalStorage) : LocalStorage :=
  {| yve_theme := yve_theme ls; yve_user_mode := yve_user_mode ls;
     yve_streak := yve_streak ls; yve_streak_last_day := yve_streak_last_day ls;
     yve_today_state := yve_today_state ls; yve_boss_history := v;
     yve_arena_history := yve_arena_history ls; yve_arena_badges := yve_arena_badges ls |}.

Definition setItem_arena_history (v : HistoryItem Json) (ls : LocalStorage) : LocalStorage :=
  {| yve_theme := yve_theme ls; yve_user_mode := yve_user_mode ls;
     yve_streak := yve_streak ls; yve_streak_last_day := yve_streak_last_day ls;
     yve_today_state := yve_today_state ls; yve_boss_history := yve_boss_history ls;
     yve_arena_history := v; yve_arena_badges := yve_arena_badges ls |}.

Definition setItem_arena_badges (v : option string) (ls : LocalStorage) : LocalStorage :=
  {| yve_theme := yve_theme ls; yve_user_mode := yve_user_mode ls;
     yve_streak := yve_streak ls; yve_streak_last_day := yve_streak_last_day ls;
     yve_today_state := yve_today_state ls; yve_boss_history := yve_boss_history ls;
     yve_arena_history := yve_arena_history ls; yve_arena_badges := v |}.

Inductive RuleType := challenge24 | bossFight | focusArena.

(** [Visibility.activeRule].  The [onTrigger] closure a rule carries is
    fixed by its [type]: each session installs its own (see [onTrigger]). *)
Record LeaveRule := {
  type : RuleType;
  thresholdMs : Z;
  awayStart : option Z
}.

(** The [Boss] and [Arena] objects (the fields the engine computes with). *)
Record Timer := {
  running : bool;
  totalMs : Z;
  remainingMs : Z;
  selectedMin : Z
}.

Record World := {
  localStorage : LocalStorage;
  activeRule : option LeaveRule;
  Boss : Timer;
  bossTask : string;
  Arena : Timer
}.

(** Field updates. *)
Definition setStorage (ls : LocalStorage) (w : World) : World :=
  {| localStorage := ls; activeRule := activeRule w; Boss := Boss w;
     bossTask := bossTask w; Arena := Arena w |}.
Definition setActiveRule (r : option LeaveRule) (w : World) : World :=
  {| localStorage := localStorage w; activeRule := r; Boss := Boss w;
     bossTask := bossTask w; Arena := Arena w |}.
Definition setBoss (t : Timer) (w : World) : World :=
  {| localStorage := localStorage w; activeRule := activeRule w; Boss := t;
     bossTask := bossTask w; Arena := Arena w |}.
Definition setBossTask (s : string) (w : World) : World :=
  {| localStorage := localStorage w; activeRule := activeRule w; Boss := Boss w;
     bossTask := s; Arena := Arena w |}.
Definition setArena (t : Timer) (w : World) : World :=
  {| localStorage := localStorage w; activeRule := activeRule w; Boss := Boss w;
     bossTask := bossTask w; Arena := t |}.

Definition setRunning (r : bool) (t : Timer) : Timer :=
  {| running := r; totalMs := totalMs t; remainingMs := remainingMs t;
     selectedMin := selectedMin t |}.
Definition setRemainingMs (ms : Z) (t : Timer) : Timer :=
  {| running := running t; totalMs := totalMs t; remainingMs := ms;
     selectedMin := selectedMin t |}.
Definition setAwayStart (a : option Z) (r : LeaveRule) : LeaveRule :=
  {| type := type r; thresholdMs := thresholdMs r; awayStart := a |}.

(** Handlers run to completion one after the other; each is a function
    from the state before to a result and the state after. *)
Definition Handler (A : Type) : Type := World -> A * World.

Definition ret {A} (x : A) : Handler A := fun w => (x, w).
Definition bind {A B} (m : Handler A) (k : A -> Handler B) : Handler B :=
  fun w => let '(x, w') := m w in k x w'.
Definition exec {A} (m : Handler A) (w : World) : World := snd (m w).
Definition eval {A} (m : Handler A) (w : World) : A := fst (m w).

Notation "'let*' x ':=' m 'in' k" := (bind m (fun x => k))
  (at level 10, x pattern, m at level 100, k at level 200).
Notation "m ';;' k" := (bind m (fun _ => k))
  (at level 100, k at level 200, right associativity).

(** Code that can throw.  An [Action] ends by returning or by throwing; the
    state it leaves is the state at that point, and what it wrote before a
    throw stays written. *)
Inductive JsError :=
| ReferenceError (name : string)
| TypeError.

Inductive Outcome (A : Type) :=
| Returns (x : A)
| Throws (e : JsError).

Arguments Returns {A} x.
Arguments Throws {A} e.

Definition Action (A : Type) : Type := Handler (Outcome A).

Definition retA {A} (x : A) : Action A := ret (Returns x).
Definition throw {A} (e : JsError) : Action A := ret (Throws e).
Definition lift {A} (m : Handler A) : Action A :=
  fun w => let '(x, w') := m w in (Returns x, w').
Definition bindA {A B} (m : Action A) (k : A -> Action B) : Action B :=
  fun w =>
    match m w with
    | (Returns x, w') => k x w'
    | (Throws e, w') => (Throws e, w')
    end.

Notation "'let!' x ':=' m 'in' k" := (bindA m (fun x => k))
  (at level 10, x pattern, m at level 100, k at level 200).
Notation "m ';;!' k" := (bindA m (fun _ => k))
  (at level 100, k at level 200, right associativity).

(** *** Storage primitives *)

Definition getStorage : Handler LocalStorage := fun w => (localStorage w, w).
Definition putStorage (ls : LocalStorage) : Handler unit := fun w => (tt, setStorage ls w).

(** [loadJSON] and [saveJSON] are declared in the UTC build only.  The
    local build calls them and declares neither (its script is one strict
    function, so no other script can supply them): there every call throws
    a [ReferenceError] before anything is read or written. *)

(** [loadJSON(LS.todayState, fallback)]: the fallback when there is no text,
    when the text is empty, or when [JSON.parse] throws. *)
Definition loadJSON_todayState (b : Build) (fallback : Json) : Action Json :=
  match b with
  | LocalBuild => throw (ReferenceError "loadJSON")
  | UtcBuild =>
      let! ls := lift getStorage in
      retA (match yve_today_state ls with
            | Some (Parses j) => j
            | Some Unparsable | None => fallback
            end)
  end.

(** [saveJSON(LS.todayState, val)]. *)
Definition saveJSON_todayState (b : Build) (val : gmap string JsVal) : Action unit :=
  match b with
  | LocalBuild => throw (ReferenceError "saveJSON")
  | UtcBuild =>
      let! ls := lift getStorage in
      lift (putStorage (setItem_today_state (Parses (JObj val)) ls))
  end.

(** [loadJSON(key, [])] and [saveJSON(key, list)] under a history key. *)
Inductive HistoryKey := bossHistory | arenaHistory.

Definition historyOf (key : HistoryKey) (ls : LocalStorage) : HistoryItem Json :=
  match key with
  | bossHistory => yve_boss_history ls
  | arenaHistory => yve_arena_history ls
  end.

Definition setItem_history (key : HistoryKey) (v : HistoryItem Json) (ls : LocalStorage)
  : LocalStorage :=
  match key with
  | bossHistory => setItem_boss_history v ls
  | arenaHistory => setItem_arena_history v ls
  end.

Definition loadJSON_history (b : Build) (key : HistoryKey) : Action (HistoryItem Json) :=
  match b with
  | LocalBuild => throw (ReferenceError "loadJSON")
  | UtcBuild =>
      let! ls := lift getStorage in
      retA (historyOf key ls)
  end.

Definition saveJSON_history (b : Build) (key : HistoryKey) (list : list Json)
  : Action unit :=
  match b with
  | LocalBuild => throw (ReferenceError "saveJSON")
  | UtcBuild =>
      let! ls := lift getStorage in
      lift (putStorage (setItem_history key (HistoryArray list) ls))
  end.

(** [getStreak()]: [parseInt(getItem(LS.streak) || "0", 10)], and 0 when
    that is NaN. *)
Definition getStreak : Handler Z :=
  let* ls := getStorage in
  let text := if Str.truthy (yve_streak ls) then default "0" (yve_streak ls) else "0" in
  ret (default 0 (Str.parseInt text)).

(** [setStreak(n)]. *)
Definition setStreak (n : Z) : Handler unit :=
  let* ls := getStorage in
  putStorage (setItem_streak (Str.ofNumber (Z.max 0 n)) ls).

Definition getLastStreakDay : Handler (option string) :=
  let* ls := getStorage in ret (yve_streak_last_day ls).

Definition setLastStreakDay (day : string) : Handler unit :=
  let* ls := getStorage in
  putStorage (setItem_streak_last_day day ls).

(** *** The leave rule slot *)

Definition startLeaveRule (ty : RuleType) (threshold : Z) : Handler unit :=
  fun w => (tt, setActiveRule (Some {| type := ty; thresholdMs := threshold;
                                       awayStart := None |}) w).

Definition stopLeaveRule : Handler unit :=
  fun w => (tt, setActiveRule None w).

(** Truthiness of [rule.awayStart], a number or [null]. *)
Definition awayStartSet (r : LeaveRule) : bool :=
  match awayStart r with
  | Some t => negb (t =? 0)
  | None => false
  end.

(** *** The engine, for one build and one reading of the clock

    A handler reads the clock once: the instants a single handler sees
    through [new Date()] and [Date.now()] are taken to be the same. *)

(** [o[k] === s] for a string [s]. *)
Definition fieldIs (o : gmap string JsVal) (k s : string) : bool :=
  bool_decide (o !! k = Some (VStr s)).

Section Engine.

Variable b : Build.
Variable c : Clock.

(** The object [getTodayChallengeState] creates on a new day. *)
Definition freshState : gmap string JsVal :=
  let base : gmap string JsVal :=
    <["dayKey" := VStr (dayKey b c)]>
    (<["state" := VStr "not_started"]>
    (<["startedAt" := VNull]>
    (<["resultAt" := VNull]>
    (<["challengeId" := VNum (getTodaysChallengeId b c)]> ∅)))) in
  match b with
  | LocalBuild => <["awaySeconds" := VNum 0]> base
  | UtcBuild => base
  end.

(** [!s || s.dayKey !== dayKey] on what [loadJSON] returned: the stored
    value is kept only when it is an object whose [dayKey] is the current
    day key. *)
Definition currentObject (s : Json) : option (gmap string JsVal) :=
  match s with
  | JObj o => if fieldIs o "dayKey" (dayKey b c) then Some o else None
  | JPrim _ | JArr => None
  end.

Definition getTodayChallengeState : Action (gmap string JsVal) :=
  let! s := loadJSON_todayState b (JPrim VNull) in
  match currentObject s with
  | None =>
      let fresh := freshState in
      saveJSON_todayState b fresh ;;!
      retA fresh
  | Some o => retA o
  end.

(** [{ ...cur, ...patch }]: the fields of the patch win. *)
Definition setTodayChallengeState (patch : gmap string JsVal)
  : Action (gmap string JsVal) :=
  let! cur := getTodayChallengeState in
  let next := patch ∪ cur in
  saveJSON_todayState b next ;;!
  retA next.

(** [new Date(key + "T00:00:00")] in the local build and
    [new Date(key + "T00:00:00Z")] in the UTC build. *)
Definition midnightOf (key : string) : option Z :=
  match b with
  | LocalBuild => DateStr.parse (zone c) (String.append key "T00:00:00")
  | UtcBuild => DateStr.parse (zone c) (String.append key "T00:00:00Z")
  end.

(** [Math.floor((todayDate - lastDate) / (24 * 3600 * 1000))]; [None] is
    NaN.  The difference is a whole number of minutes, so the double
    quotient is never within rounding of an integer it does not reach. *)
Definition diffDays (last today : string) : option Z :=
  match midnightOf last, midnightOf today with
  | Some lastDate, Some todayDate => Some ((todayDate - lastDate) / (24 * 3600 * 1000))
  | _, _ => None
  end.

(** [reconcileStreakForNewDay()], which reads and writes the store directly
    and runs in both builds. *)
Definition reconcileStreakForNewDay : Handler unit :=
  let today := dayKey b c in
  let* last := getLastStreakDay in
  if negb (Str.truthy last) then ret tt
  else
    match diffDays (default "" last) today with
    | Some d => if 2 <=? d then setStreak 0 else ret tt
    | None => ret tt
    end.

(** What [renderHub()] and [renderChallenge24()] do to the state: they read
    today's run, which resets a stale record.  (The interval
    [renderChallenge24] starts for the reset countdown is not an event of
    the model.) *)
Definition renderHub : Action unit := getTodayChallengeState ;;! retA tt.
Definition renderChallenge24 : Action unit := getTodayChallengeState ;;! retA tt.

(** The end of [completeChallenge] and [failChallenge], and of the join
    handler: both views are rendered. *)
Definition challengeRendered : Action unit := renderChallenge24 ;;! renderHub.

(** The patch [joinChallenge]'s confirm button saves.  The challenge is
    picked when the dialog opens; the dialog is taken to be confirmed on
    the day key on which it was opened. *)
Definition joinPatch : gmap string JsVal :=
  <["state" := VStr "in_progress"]>
  (<["startedAt" := VNum (now c)]>
  (<["challengeId" := VNum (getTodaysChallengeId b c)]>
  (<["resultAt" := VNull]> ∅))).

(** [joinChallenge]'s confirm button.  In the UTC build the handler saves
    the state and then awaits the remote mirror: what follows the [await]
    ([joinChallengeResume]) is a step of its own, run within the same task
    when the mirror has nothing to send and after its reply otherwise.  In
    the local build the handler is one piece. *)
Definition joinChallengeResume : Action unit :=
  lift (startLeaveRule challenge24 15000) ;;! challengeRendered.

Definition joinChallengeConfirm : Action unit :=
  setTodayChallengeState joinPatch ;;!
  match b with
  | LocalBuild => joinChallengeResume
  | UtcBuild => retA tt
  end.

(** [completeChallenge()].  In the UTC build the part modelled ends where
    the handler awaits the remote mirror; the rendering behind the [await]
    is the step [challengeRendered]. *)
Definition completeChallenge : Action unit :=
  let! st := getTodayChallengeState in
  if negb (fieldIs st "state" "in_progress") then retA tt
  else
    lift stopLeaveRule ;;!
    let today := dayKey b c in
    let! last := lift getLastStreakDay in
    let! streak := lift getStreak in
    (if bool_decide (last = Some today) then retA tt
     else
       let streak' :=
         if Str.truthy last then
           match diffDays (default "" last) today with
           | Some 1 => streak + 1
           | _ => 1
           end
         else 1 in
       lift (setStreak streak') ;;!
       lift (setLastStreakDay today)) ;;!
    setTodayChallengeState
      (<["state" := VStr "completed"]> (<["resultAt" := VNum (now c)]> ∅)) ;;!
    match b with
    | LocalBuild => challengeRendered
    | UtcBuild => retA tt
    end.

(** [failChallenge(reason)], with the same division. *)
Definition failChallenge : Action unit :=
  let! st := getTodayChallengeState in
  if negb (fieldIs st "state" "in_progress") then retA tt
  else
    lift stopLeaveRule ;;!
    setTodayChallengeState
      (<["state" := VStr "failed"]> (<["resultAt" := VNum (now c)]> ∅)) ;;!
    match b with
    | LocalBuild => challengeRendered
    | UtcBuild => retA tt
    end.

End Engine.

(** ** Badges and history lists *)

(** [getArenaBadges()] and [setArenaBadges(n)] on the text under
    [LS.arenaBadges]. *)
Definition getArenaBadges (item : option string) : Z :=
  let text := if Str.truthy item then default "0" item else "0" in
  default 0 (Str.parseInt text).

Definition setArenaBadges (n : Z) : option string := Some (Str.ofNumber (Z.max 0 n)).

(** The badge step of [arenaVictory()]: the new text, and whether the
    "Badge earned" toast is shown. *)
Definition arenaVictoryBadges (item : option string) : option string * bool :=
  let b := getArenaBadges item + 1 in
  (setArenaBadges b, Z.rem b 3 =? 0).

(** [renderArenaBadges()]: the progress shown, out of 3. *)
Definition renderArenaBadges (item : option string) : Z := Z.rem (getArenaBadges item) 3.

(** The history step of [bossVictory()], [arenaVictory()] and
    [arenaFail()]: [list.unshift(entry)], then [saveJSON] of
    [list.slice(0, limit)].  On a value that is not an array [unshift] is
    not a function and the handler throws before it saves: [None]. *)
Definition recordHistory {A} (limit : nat) (entry : A) (item : HistoryItem A)
  : option (HistoryItem A) :=
  match item with
  | NoHistory => Some (HistoryArray (List.firstn limit [entry]))
  | HistoryArray l => Some (HistoryArray (List.firstn limit (entry :: l)))
  | NotAnArray => None
  end.

Definition bossHistoryLimit : nat := 20.
Definition arenaHistoryLimit : nat := 30.

(** What [renderBossHistory()] and [renderArenaHistory()] list of a stored
    array. *)
Definition shownHistory {A} (l : list A) : list A := List.firstn 10 l.

(** A sequence of recordings, oldest first; it stops at the first that
    throws. *)
Fixpoint recordAll {A} (limit : nat) (entries : list A) (item : HistoryItem A)
  : option (HistoryItem A) :=
  match entries with
  | [] => Some item
  | e :: es =>
      match recordHistory limit e item with
      | Some item' => recordAll limit es item'
      | None => None
      end
  end.

(** The history step on the store: [loadJSON(key, [])],
    [list.unshift(entry)], [saveJSON(key, list.slice(0, limit))].  On a
    stored value that is not an array [unshift] is not a function. *)
Definition limitOf (key : HistoryKey) : nat :=
  match key with
  | bossHistory => bossHistoryLimit
  | arenaHistory => arenaHistoryLimit
  end.

Definition saveHistory (b : Build) (key : HistoryKey) (entry : Json) : Action unit :=
  let! list := loadJSON_history b key in
  match list with
  | NoHistory => saveJSON_history b key (List.firstn (limitOf key) [entry])
  | HistoryArray l => saveJSON_history b key (List.firstn (limitOf key) (entry :: l))
  | NotAnArray => throw TypeError
  end.

(** ** Timed sessions: Boss and Arena *)

Definition minutesToMs (m : Z) : Z := m * 60 * 1000.

(** The [Boss] and [Arena] objects as the script declares them. *)
Definition Timer0 : Timer :=
  {| running := false; totalMs := minutesToMs 25; remainingMs := minutesToMs 25;
     selectedMin := 25 |}.

(** [bossSetDuration(min)] and [arenaSetDuration(min)] on the object. *)
Definition setDuration (min : Z) (t : Timer) : Timer :=
  {| running := running t; totalMs := minutesToMs min;
     remainingMs := minutesToMs min; selectedMin := min |}.

(** [Math.floor(Boss.totalMs * 0.20)].  The double nearest to 0.20 is
    0.2 (1 + 2^-54), so for an integral total below 2^52 the product rounds
    to within a quarter of total/5 and its floor is the floor of total/5. *)
Definition healMs (total : Z) : Z := (total * 20) / 100.

(** The body of the boss fight's [onTrigger]. *)
Definition bossHeal (t : Timer) : Timer :=
  setRemainingMs (Z.min (totalMs t) (remainingMs t + healMs (totalMs t))) t.

(** The countdown of one interval callback: decrement, clamp at zero. *)
Definition countdown (t : Timer) : Timer :=
  let r := remainingMs t - 1000 in
  setRemainingMs (if r <? 0 then 0 else r) t.

Definition getBoss : Handler Timer := fun w => (Boss w, w).
Definition putBoss (t : Timer) : Handler unit := fun w => (tt, setBoss t w).
Definition getArena : Handler Timer := fun w => (Arena w, w).
Definition putArena (t : Timer) : Handler unit := fun w => (tt, setArena t w).
Definition getBossTask : Handler string := fun w => (bossTask w, w).

(** [bossStop(reason)] and [arenaStop(reason)].  In the UTC build a stop
    with time left ends by awaiting the remote mirror; nothing of theirs
    follows the [await]. *)
Definition bossStop : Handler unit :=
  let* t := getBoss in
  if negb (running t) then ret tt
  else putBoss (setRunning false t) ;; stopLeaveRule.

Definition arenaStop : Handler unit :=
  let* t := getArena in
  if negb (running t) then ret tt
  else putArena (setRunning false t) ;; stopLeaveRule.

Section Sessions.

Variable b : Build.
Variable c : Clock.

(** The entries the history lists receive. *)
Definition bossEntry (task : string) (minutes : Z) : Json :=
  JObj (<["dayKey" := VStr (dayKey b c)]>
        (<["task" := VStr task]>
        (<["minutes" := VNum minutes]>
        (<["ts" := VNum (now c)]> ∅)))).

Definition arenaEntry (minutes : Z) (result : string) : Json :=
  JObj (<["dayKey" := VStr (dayKey b c)]>
        (<["minutes" := VNum minutes]>
        (<["ts" := VNum (now c)]>
        (<["result" := VStr result]> ∅)))).

(** [bossVictory()]: the stop, then the history step.  The interval
    callback calls it when the remaining time is 0, so in the UTC build its
    [await bossStop(...)] has no mirror call to wait for and resumes within
    the task; what follows the history step only mirrors and renders. *)
Definition bossVictory : Action unit :=
  lift bossStop ;;!
  let! task := lift getBossTask in
  let! t := lift getBoss in
  saveHistory b bossHistory (bossEntry task (selectedMin t)).

(** The badge step of [arenaVictory()] on the store. *)
Definition arenaBadgeStep : Handler unit :=
  let* ls := getStorage in
  putStorage (setItem_arena_badges (fst (arenaVictoryBadges (yve_arena_badges ls))) ls).

(** [arenaVictory()]: the stop, the badge step, the history step; called,
    like [bossVictory()], when the remaining time is 0. *)
Definition arenaVictory : Action unit :=
  lift arenaStop ;;!
  lift arenaBadgeStep ;;!
  let! t := lift getArena in
  saveHistory b arenaHistory (arenaEntry (selectedMin t) "cleared").

(** What follows the stop in [arenaFail(reason)]: the history step. *)
Definition arenaFailResume : Action unit :=
  let! t := lift getArena in
  saveHistory b arenaHistory (arenaEntry (selectedMin t) "failed").

(** [arenaFail(reason)].  In the UTC build the stop awaits the remote
    mirror when time is left, and the history step is then a step of its
    own ([arenaFailResume]); with no time left, and in the local build, it
    follows at once. *)
Definition arenaFail : Action unit :=
  let! t := lift getArena in
  if negb (running t) then retA tt
  else
    lift arenaStop ;;!
    match b with
    | LocalBuild => arenaFailResume
    | UtcBuild => if 0 <? remainingMs t then retA tt else arenaFailResume
    end.

(** The callbacks given to [setInterval]. *)
Definition bossTick : Action unit :=
  let! t := lift getBoss in
  if negb (running t) then retA tt
  else
    let t' := countdown t in
    lift (putBoss t') ;;!
    if remainingMs t' =? 0 then bossVictory else retA tt.

Definition arenaTick : Action unit :=
  let! t := lift getArena in
  if negb (running t) then retA tt
  else
    let t' := countdown t in
    lift (putArena t') ;;!
    if remainingMs t' =? 0 then arenaVictory else retA tt.

End Sessions.

(** [bossStart()] with its confirm button, for the text in the task field:
    the text is trimmed, and a blank task is turned down before the dialog
    opens. *)
Definition bossStart (value : string) : Handler unit :=
  match Str.trim value with
  | EmptyString => ret tt
  | task =>
      (fun w => (tt, setBossTask task w)) ;;
      (let* t := getBoss in putBoss (setRunning true t)) ;;
      startLeaveRule bossFight 15000
  end.

(** The confirm button of [arenaStart()]. *)
Definition arenaStart : Handler unit :=
  (let* t := getArena in putArena (setRunning true t)) ;;
  startLeaveRule focusArena 15000.

(** The preset buttons, which refuse to act while the session runs. *)
Definition bossPreset (min : Z) : Handler unit :=
  let* t := getBoss in
  if running t then ret tt else putBoss (setDuration min t).

Definition arenaPreset (min : Z) : Handler unit :=
  let* t := getArena in
  if running t then ret tt else putArena (setDuration min t).

(** ** LeaveRuleMonitor *)

(** The hide path of [visibilitychange] and the [blur] handler. *)
Definition hideRule (nowMs : Z) (r : LeaveRule) : LeaveRule :=
  setAwayStart (Some nowMs) r.

Definition blurRule (nowMs : Z) (r : LeaveRule) : LeaveRule :=
  if awayStartSet r then r else setAwayStart (Some nowMs) r.

Section Watcher.

Variable b : Build.
Variable c : Clock.

(** The [onTrigger] closure each session passes to [startLeaveRule]. *)
Definition onTrigger (ty : RuleType) (awayMs : Z) : Action unit :=
  match ty with
  | challenge24 => failChallenge b c
  | bossFight => lift (let* t := getBoss in putBoss (bossHeal t))
  | focusArena => arenaFail b c
  end.

(** The handlers [initVisibilityWatcher] installs.  Each returns the
    payloads [onTrigger] was called with, in order; a callback that throws
    ends there, with the state it has reached.  [checkBack] is the return
    path (the [focus] handler, and the visible branch of
    [visibilitychange], which the local build writes out in place). *)
Definition checkBack : Handler (list Z) :=
  fun w =>
    match activeRule w with
    | None => ([], w)
    | Some r =>
        if negb (awayStartSet r) then ([], w)
        else
          let awayMs := now c - default 0 (awayStart r) in
          let w' := setActiveRule (Some (setAwayStart None r)) w in
          if thresholdMs r <=? awayMs
          then ([awayMs], exec (onTrigger (type r) awayMs) w')
          else ([], w')
    end.

Definition onVisibilityChange (hidden : bool) : Handler (list Z) :=
  fun w =>
    match activeRule w with
    | None => ([], w)
    | Some r =>
        if hidden then ([], setActiveRule (Some (hideRule (now c) r)) w)
        else checkBack w
    end.

Definition onBlur : Handler (list Z) :=
  fun w =>
    match activeRule w with
    | None => ([], w)
    | Some r => ([], setActiveRule (Some (blurRule (now c) r)) w)
    end.

Definition onFocus : Handler (list Z) := checkBack.

End Watcher.

(** ** The event loop *)

(** The callbacks of the page, and the steps that resume a handler of the
    UTC build behind its [await] of the remote mirror. *)
Inductive Event :=
| VisibilityChange (hidden : bool)
| Blur
| Focus
| BossTick
| ArenaTick
| BossPreset (min : Z)
| ArenaPreset (min : Z)
| BossStart (task : string)
| BossStop
| ArenaStart
| ArenaStop
| JoinConfirm
| JoinResume
| Complete
| Fail
| CompleteResume
| FailResume
| ArenaFailResume.

(** A callback that calls no trigger; one that throws ends there. *)
Definition silently {A} (m : Handler A) : Handler (list Z) := m ;; ret [].

(** A step behind an [await]: the local build has none. *)
Definition resumed {A} (b : Build) (m : Handler A) : Handler (list Z) :=
  match b with
  | UtcBuild => silently m
  | LocalBuild => ret []
  end.

(** One event, handled at one reading of the clock; the result lists the
    [onTrigger] calls it made. *)
Definition handle (b : Build) (c : Clock) (e : Event) : Handler (list Z) :=
  match e with
  | VisibilityChange hidden => onVisibilityChange b c hidden
  | Blur => onBlur c
  | Focus => onFocus b c
  | BossTick => silently (bossTick b c)
  | ArenaTick => silently (arenaTick b c)
  | BossPreset min => silently (bossPreset min)
  | ArenaPreset min => silently (arenaPreset min)
  | BossStart task => silently (bossStart task)
  | BossStop => silently bossStop
  | ArenaStart => silently arenaStart
  | ArenaStop => silently arenaStop
  | JoinConfirm => silently (joinChallengeConfirm b c)
  | JoinResume => resumed b (joinChallengeResume b c)
  | Complete => silently (completeChallenge b c)
  | Fail => silently (failChallenge b c)
  | CompleteResume => resumed b (challengeRendered b c)
  | FailResume => resumed b (challengeRendered b c)
  | ArenaFailResume => resumed b (arenaFailResume b c)
  end.

(** A run: events with the clock reading at which each is delivered. *)
Fixpoint run (b : Build) (es : list (Clock * Event)) : Handler (list Z) :=
  match es with
  | [] => ret []
  | (c, e) :: es' =>
      let* fired := handle b c e in
      let* fired' := run b es' in
      ret (fired ++ fired')%list
  end.

(** [boot()], as far as it touches the state: the streak is reconciled,
    [initDefaults] selects 25 minutes for both timers, and [renderHub]
    reads today's run.  The local build's boot ends there, on the
    [ReferenceError] of that read; its handlers are installed by then. *)
Definition boot (b : Build) (c : Clock) : Action unit :=
  lift (reconcileStreakForNewDay b c) ;;!
  lift (let* t := getBoss in putBoss (setDuration 25 t)) ;;!
  lift (let* t := getArena in putArena (setDuration 25 t)) ;;!
  renderHub b c.

(** The state of a freshly loaded page over a given store. *)
Definition loaded (ls : LocalStorage) : World :=
  {| localStorage := ls; activeRule := None; Boss := Timer0; bossTask := "";
     Arena := Timer0 |}.
(** ** Vocabulary of the statements *)

(** The key of a calendar date, written out character by character. *)
Definition isoDate (y m d : Z) : string :=
  String.append (fmt4 y) (String "-" (String.append (fmt2 m) (String "-" (fmt2 d)))).

(** The decimal numeral with one more leading digit. *)
Definition dcons (k : Z) (u : Decimal.uint) : Decimal.uint :=
  match k with
  | 0 => Decimal.D0 u | 1 => Decimal.D1 u | 2 => Decimal.D2 u | 3 => Decimal.D3 u
  | 4 => Decimal.D4 u | 5 => Decimal.D5 u | 6 => Decimal.D6 u | 7 => Decimal.D7 u
  | 8 => Decimal.D8 u | _ => Decimal.D9 u
  end.

(** A check of every integer from 0 up to, not including, [n]. *)
Definition allBelow (n : Z) (P : Z -> bool) : bool :=
  List.forallb (fun i => P (Z.of_nat i)) (List.seq 0 (Z.to_nat n)).

(** What [loadJSON] finds under [LS.todayState]. *)
Definition todayJson (w : World) : Json :=
  match yve_today_state (localStorage w) with
  | Some (Parses j) => j
  | Some Unparsable | None => JPrim VNull
  end.

Definition withTodayState (o : gmap string JsVal) (w : World) : World :=
  setStorage (setItem_today_state (Parses (JObj o)) (localStorage w)) w.

(** The stored record is an object of the current day in state
    [in_progress]. *)
Definition inProgressToday (b : Build) (c : Clock) (w : World) : Prop :=
  exists o, yve_today_state (localStorage w) = Some (Parses (JObj o))
            /\ o !! "dayKey" = Some (VStr (dayKey b c))
            /\ o !! "state" = Some (VStr "in_progress").

(** There is no readable record, or its [dayKey] is not the current one. *)
Definition staleRecord (b : Build) (c : Clock) (raw : option Raw) : Prop :=
  match raw with
  | Some (Parses (JObj o)) => o !! "dayKey" <> Some (VStr (dayKey b c))
  | Some (Parses (JPrim _)) | Some (Parses JArr) | Some Unparsable | None => True
  end.

(** The streak a completion writes, from the stored last day and count, and
    the patch it saves. *)
Definition nextStreak (b : Build) (c : Clock) (last : option string) (streak : Z) : Z :=
  if Str.truthy last then
    match diffDays b c (default "" last) (dayKey b c) with
    | Some 1 => streak + 1
    | _ => 1
    end
  else 1.

Definition completedPatch (c : Clock) : gmap string JsVal :=
  <["state" := VStr "completed"]> (<["resultAt" := VNum (now c)]> ∅).

(** A handler that leaves a component of the world as it found it. *)
Definition keeps {A B} (proj : World -> B) (m : Handler A) : Prop :=
  forall w, proj (snd (m w)) = proj w.

Definition timers (w : World) : Timer * Timer := (Boss w, Arena w).

(** The invariant of a timed session, and of both at once. *)
Definition timerOk (t : Timer) : Prop := 0 <= remainingMs t <= totalMs t.
Definition timersOk (w : World) : Prop := timerOk (Boss w) /\ timerOk (Arena w).

(** The preset buttons offer durations that are not negative. *)
Definition presetOk (e : Event) : Prop :=
  match e with
  | BossPreset min | ArenaPreset min => 0 <= min
  | _ => True
  end.

(** No departure is being timed (the rule's timestamp is falsy), and the
    stronger: the timestamp is [null]. *)
Definition noAway (w : World) : Prop :=
  match activeRule w with
  | Some r => awayStartSet r = false
  | None => True
  end.

Definition cleared (w : World) : Prop :=
  match activeRule w with
  | Some r => awayStart r = None
  | None => True
  end.

(** The events on which the user is back: [focus], and [visibilitychange]
    with the document visible. *)
Definition isReturn (e : Event) : bool :=
  match e with
  | Focus | VisibilityChange false => true
  | _ => false
  end.

(** *** Worlds and clocks of the examples *)

Definition emptyStorage : LocalStorage :=
  {| yve_theme := None; yve_user_mode := None; yve_streak := None;
     yve_streak_last_day := None; yve_today_state := None;
     yve_boss_history := NoHistory; yve_arena_history := NoHistory;
     yve_arena_badges := None |}.

Definition streakStore (count last : string) (today : option Raw) : LocalStorage :=
  {| yve_theme := None; yve_user_mode := None; yve_streak := Some count;
     yve_streak_last_day := Some last; yve_today_state := today;
     yve_boss_history := NoHistory; yve_arena_history := NoHistory;
     yve_arena_badges := None |}.

Definition atUtc (t : Z) : Clock := {| now := t; zone := Date.utcZone |}.
Definition inNewYork (t : Z) : Clock := {| now := t; zone := Date.newYork2024 |}.
Definition inTokyo (t : Z) : Clock := {| now := t; zone := Date.fixedZone 32400000 |}.

(** A record of a run that is in progress, as [joinChallenge] leaves it. *)
Definition runningSince (day : string) (startedAt : Z) : gmap string JsVal :=
  <["dayKey" := VStr day]>
  (<["state" := VStr "in_progress"]>
  (<["startedAt" := VNum startedAt]>
  (<["resultAt" := VNull]>
  (<["challengeId" := VNum 3]> ∅)))).

(** A page on which a 25-minute boss fight has just been started. *)
Definition bossFighting : World :=
  exec (bossStart "write the report") (loaded emptyStorage).

(** ** Clock faces and the reset countdown *)

(** [msToClock(ms)] and [msToResetCountdown(ms)] for an integral [ms]
    (below 2^53 the double quotient by 1000 has the floor of the exact
    one).  The script's [%] is the truncated remainder, [Z.rem]. *)
Definition msToClock (ms : Z) : string :=
  let s := Z.max 0 (ms / 1000) in
  let mm := s / 60 in
  let ss := Z.rem s 60 in
  String.concat "" [pad2 mm; ":"; pad2 ss].

Definition msToResetCountdown (ms : Z) : string :=
  let s := Z.max 0 (ms / 1000) in
  let hh := s / 3600 in
  let mm := Z.rem s 3600 / 60 in
  let ss := Z.rem s 60 in
  String.concat "" [pad2 hh; ":"; pad2 mm; ":"; pad2 ss].

(** The setters of [Date] the script calls, after ECMA-262 (the time values
    at hand are far inside the range [TimeClip] lets through). *)
Module DateSetters.
Import Date.

Definition getUTCDate (t : Z) : Z := DateFromTime t.

Definition setUTCDate (dt t : Z) : Z :=
  MakeDate (MakeDay (YearFromTime t) (MonthFromTime t) dt) (TimeWithinDay t).

Definition setUTCHours (hour min sec ms t : Z) : Z :=
  MakeDate (Day t) (MakeTime hour min sec ms).

Definition setHours (tz : TimeZone) (hour min sec ms t : Z) : Z :=
  UTC tz (MakeDate (Day (LocalTime tz t)) (MakeTime hour min sec ms)).

End DateSetters.

(** [nextUtcMidnight(d)] of the UTC build and [nextLocalMidnight(d)] of the
    local build. *)
Definition nextUtcMidnight (d : Z) : Z :=
  let n := DateSetters.setUTCDate (DateSetters.getUTCDate d + 1) d in
  DateSetters.setUTCHours 0 0 0 0 n.

Definition nextLocalMidnight (tz : Date.TimeZone) (d : Z) : Z :=
  DateSetters.setHours tz 24 0 0 0 d.

(** The [ms] of the reset countdown's interval callback:
    [nextUtcMidnight().getTime() - Date.now()], the clock being read twice,
    at [t1] by [new Date()] and at [t2] by [Date.now()]. *)
Definition resetCountdownMs (b : Build) (tz : Date.TimeZone) (t1 t2 : Z) : Z :=
  match b with
  | LocalBuild => nextLocalMidnight tz t1 - t2
  | UtcBuild => nextUtcMidnight t1 - t2
  end.

(** ** Escaping *)

(** [s.replaceAll(c, r)] for a pattern of one character. *)
Fixpoint replaceAll (c : ascii) (r : string) (s : string) : string :=
  match s with
  | EmptyString => EmptyString
  | String a s' =>
      if Ascii.eqb a c then String.append r (replaceAll c r s')
      else String a (replaceAll c r s')
  end.

Definition quoteChar : ascii := ascii_of_N 34.

(** [escapeHTML(str)] (and [escapeAttr], which has the same body) of a
    string.  The replacements look at one code unit at a time and treat
    every code unit but the five they name alike. *)
Definition escapeHTML (str : string) : string :=
  replaceAll "'" "&#039;"
    (replaceAll quoteChar "&quot;"
      (replaceAll ">" "&gt;"
        (replaceAll "<" "&lt;"
          (replaceAll "&" "&amp;" str)))).

(** ** The simulated crowd of the arena *)

(** [Arena.people] as [renderArenaPeople] computes it for the selected
    duration. *)
Definition renderArenaPeople (b : Build) (c : Clock) (selectedMin : Z) : Z :=
  let seed := todaySeed b c (String.append "arena:" (Str.ofNumber selectedMin)) in
  let '(a1, k1) := mulberry32_next (mulberry32 seed) in
  let '(_, k2) := mulberry32_next a1 in
  (300 + floorScaled k1 1600) + floorScaled k2 220.

(** ** Reference definitions and vocabulary of the further statements *)

(** FNV-1a on 32-bit unsigned words: offset basis 2166136261, prime
    16777619, one xor and one multiplication modulo 2^32 per code unit. *)
Definition fnv1a32 (cs : list Z) : Z :=
  List.fold_left (fun h c => (Z.lxor h c * 16777619) mod 2 ^ 32) cs 2166136261.

(** Escaping in one pass: each character by itself. *)
Definition escapeChar (a : ascii) : string :=
  if Ascii.eqb a "&" then "&amp;"
  else if Ascii.eqb a "<" then "&lt;"
  else if Ascii.eqb a ">" then "&gt;"
  else if Ascii.eqb a quoteChar then "&quot;"
  else if Ascii.eqb a "'" then "&#039;"
  else String a EmptyString.

Fixpoint escapeEach (s : string) : string :=
  match s with
  | EmptyString => EmptyString
  | String a s' => String.append (escapeChar a) (escapeEach s')
  end.

(** [s.includes(c)] for a character [c]. *)
Fixpoint occurs (c : ascii) (s : string) : bool :=
  match s with
  | EmptyString => false
  | String a s' => Ascii.eqb a c || occurs c s'
  end.

(** The text under [LS.arenaBadges] after [k] victories. *)
Fixpoint arenaVictories (k : nat) (item : option string) : option string :=
  match k with
  | O => item
  | S k' => fst (arenaVictoryBadges (arenaVictories k' item))
  end.

(** The array [loadJSON(key, [])] hands to the history step. *)
Definition historyContents {A} (item : HistoryItem A) : list A :=
  match item with
  | HistoryArray l => l
  | NoHistory | NotAnArray => []
  end.

(** The patch a failure saves, and the rule a joined challenge installs. *)
Definition failedPatch (c : Clock) : gmap string JsVal :=
  <["state" := VStr "failed"]> (<["resultAt" := VNum (now c)]> ∅).

Definition challengeRule : LeaveRule :=
  {| type := challenge24; thresholdMs := 15000; awayStart := None |}.

(** The stored record is an object with these fields. *)
Definition storedRecord (w : World) (fields : list (string * JsVal)) : Prop :=
  exists o, yve_today_state (localStorage w) = Some (Parses (JObj o))
            /\ List.Forall (fun kv => o !! kv.1 = Some kv.2) fields.

(** The events of the leave-rule monitor. *)
Definition isWatcherEvent (e : Event) : bool :=
  match e with
  | VisibilityChange _ | Blur | Focus => true
  | _ => false
  end.

(** The confirm buttons that start a timed session (the boss fight needs a
    task that is not blank). *)
Definition isSessionStart (e : Event) : bool :=
  match e with
  | BossStart value =>
      match Str.trim value with
      | EmptyString => false
      | String _ _ => true
      end
  | ArenaStart => true
  | _ => false
  end.

(** The events of the daily challenge: its buttons and the steps that
    resume their handlers. *)
Definition isChallengeEvent (e : Event) : bool :=
  match e with
  | JoinConfirm | JoinResume | Complete | Fail | CompleteResume | FailResume => true
  | _ => false
  end.

(** Today's object as a read finds it or makes it. *)
Definition todayObject (b : Build) (c : Clock) (w : World) : gmap string JsVal :=
  default (freshState b c) (currentObject b c (todayJson w)).

(** The three keys of the daily challenge and the streak. *)
Definition challengeKeys (ls : LocalStorage) : option Raw * option string * option string :=
  (yve_today_state ls, yve_streak ls, yve_streak_last_day ls).

(** The store after the history step on it, whether the step returned or
    threw (the local build's throws before it writes, and the UTC build's
    throws over a value that is not an array). *)
Definition historyRecorded (b : Build) (key : HistoryKey) (entry : Json)
    (ls : LocalStorage) : LocalStorage :=
  match b with
  | LocalBuild => ls
  | UtcBuild =>
      match recordHistory (limitOf key) entry (historyOf key ls) with
      | Some item => setItem_history key item ls
      | None => ls
      end
  end.

(** The store after the badge step of a victory. *)
Definition badgeCounted (ls : LocalStorage) : LocalStorage :=
  setItem_arena_badges (fst (arenaVictoryBadges (yve_arena_badges ls))) ls.

(** The number of ticks that bring a remaining time to zero. *)
Definition ticksToZero (remaining : Z) : nat := Z.to_nat ((remaining + 999) / 1000).

(** The rule in force, if any, is not the daily challenge's. *)
Definition challengeUnwatched (w : World) : Prop :=
  match activeRule w with
  | Some r => type r <> challenge24
  | None => True
  end.

(** [n] deliveries of one event. *)
Definition times (n : nat) (c : Clock) (e : Event) : list (Clock * Event) :=
  List.repeat (c, e) n.

(** ** Proof tools *)

Create HintDb frame.

Ltac split_ifs :=
  repeat match goal with
    | |- context [if ?x <? ?y then _ else _] => destruct (Z.ltb_spec x y)
    end.

(** * The calendar *)

Module DateFacts.
Import Date.

(** [YearFromDay d] is the year whose days contain [d]. *)
Lemma YearFromDay_spec d :
  DayFromYear (YearFromDay d) <= d < DayFromYear (YearFromDay d + 1).
Proof.
  unfold YearFromDay, DayFromYear.
  repeat match goal with |- context [if ?b then _ else _] => destruct b eqn:? end;
    Z.to_euclidean_division_equations; lia.
Qed.

Lemma DayFromYear_succ y : DayFromYear (y + 1) = DayFromYear y + DaysInYear y.
Proof.
  unfold DayFromYear, DaysInYear, isLeap.
  repeat match goal with |- context [if ?b then _ else _] => destruct b eqn:? end;
    Z.to_euclidean_division_equations; lia.
Qed.

Lemma DayFromYear_mono y y' : y <= y' -> DayFromYear y <= DayFromYear y'.
Proof. unfold DayFromYear. intros. Z.to_euclidean_division_equations; lia. Qed.

Lemma DayWithinYear_range t : 0 <= DayWithinYear t < DaysInYear (YearFromTime t).
Proof.
  unfold DayWithinYear, YearFromTime.
  pose proof (YearFromDay_spec (Day t)) as H.
  rewrite DayFromYear_succ in H. lia.
Qed.

Lemma MonthFromTime_range t : 0 <= MonthFromTime t <= 11.
Proof.
  unfold MonthFromTime, monthOfDayWithinYear.
  repeat match goal with |- context [if ?b then _ else _] => destruct b end; lia.
Qed.

Lemma DateFromTime_range t :
  1 <= DateFromTime t <= DaysInMonth (YearFromTime t) (MonthFromTime t).
Proof.
  pose proof (DayWithinYear_range t) as H.
  unfold DateFromTime, DaysInMonth, MonthFromTime, InLeapYear, DaysInYear in *.
  unfold monthOfDayWithinYear.
  destruct (isLeap (YearFromTime t)); split_ifs; cbn [monthStart Z.add]; simpl; lia.
Qed.

Lemma DateFromTime_le_31 t : 1 <= DateFromTime t <= 31.
Proof.
  pose proof (MonthFromTime_range t) as Hm.
  pose proof (DateFromTime_range t) as [Hd1 Hd]. split; [exact Hd1|].
  revert Hd. unfold DaysInMonth. generalize (MonthFromTime t) Hm. intros m Hm'.
  destruct (isLeap _);
    assert (Hc : m = 0 \/ m = 1 \/ m = 2 \/ m = 3 \/ m = 4 \/ m = 5 \/ m = 6 \/ m = 7
                 \/ m = 8 \/ m = 9 \/ m = 10 \/ m = 11) by lia;
    repeat (destruct Hc as [->|Hc]; [simpl; lia|]); subst; simpl; lia.
Qed.

(** The date of an instant names the day of the instant. *)
Lemma MakeDay_civil t :
  MakeDay (YearFromTime t) (MonthFromTime t) (DateFromTime t) = Day t.
Proof.
  pose proof (MonthFromTime_range t) as Hm.
  unfold MakeDay.
  replace (MonthFromTime t / 12) with 0 by (Z.to_euclidean_division_equations; lia).
  replace (MonthFromTime t mod 12) with (MonthFromTime t)
    by (Z.to_euclidean_division_equations; lia).
  rewrite Z.add_0_r. unfold DateFromTime, InLeapYear, DayWithinYear. lia.
Qed.

Lemma fourDigitYear_year t : fourDigitYear t -> 0 <= YearFromTime t <= 9999.
Proof.
  unfold fourDigitYear, YearFromTime. intros Ht.
  pose proof (YearFromDay_spec (Day t)) as H.
  assert (Hd : -719528 <= Day t < 2932897)
    by (unfold Day, msPerDay; Z.to_euclidean_division_equations; lia).
  split.
  - destruct (Z.le_gt_cases 0 (YearFromDay (Day t))) as [|Hneg]; [assumption|].
    pose proof (DayFromYear_mono (YearFromDay (Day t) + 1) 0 ltac:(lia)) as Hm.
    change (DayFromYear 0) with (-719528) in Hm. lia.
  - destruct (Z.le_gt_cases (YearFromDay (Day t)) 9999) as [|Hbig]; [assumption|].
    pose proof (DayFromYear_mono 10000 (YearFromDay (Day t)) ltac:(lia)) as Hm.
    change (DayFromYear 10000) with 2932897 in Hm. lia.
Qed.

End DateFacts.

(** * Numbers and their strings *)

Lemma allBelow_spec n P :
  allBelow n P = true -> forall z, 0 <= z < n -> P z = true.
Proof.
  unfold allBelow. rewrite List.forallb_forall. intros H z Hz.
  specialize (H (Z.to_nat z)). rewrite Z2Nat.id in H by lia.
  apply H, List.in_seq. lia.
Qed.

Lemma pad2_fmt2 n : 0 <= n <= 99 -> pad2 n = fmt2 n.
Proof.
  intros Hn.
  assert (H : allBelow 100 (fun z => String.eqb (pad2 z) (fmt2 z)) = true)
    by (vm_compute; reflexivity).
  apply String.eqb_eq. apply (allBelow_spec _ _ H). lia.
Qed.

(** A number of four digits is printed with the digits of [fmt4]. *)
Ltac digit_cases k :=
  let H := fresh in
  assert (H : k = 0 \/ k = 1 \/ k = 2 \/ k = 3 \/ k = 4 \/ k = 5 \/ k = 6 \/ k = 7
              \/ k = 8 \/ k = 9) by lia;
  destruct H as [->|[->|[->|[->|[->|[->|[->|[->|[->| ->]]]]]]]]].

Lemma string_of_uint_dcons k u :
  0 <= k <= 9 ->
  NilEmpty.string_of_uint (dcons k u) = String (digitChar k) (NilEmpty.string_of_uint u).
Proof. intros Hk. digit_cases k; reflexivity. Qed.

Lemma revapp_dcons k u v :
  0 <= k <= 9 -> Decimal.revapp (dcons k u) v = Decimal.revapp u (dcons k v).
Proof. intros Hk. digit_cases k; reflexivity. Qed.

Lemma of_lu_dcons k u :
  0 <= k <= 9 ->
  DecimalPos.Unsigned.of_lu (dcons k u) = (Z.to_N k + 10 * DecimalPos.Unsigned.of_lu u)%N.
Proof. intros Hk. digit_cases k; reflexivity. Qed.

Lemma unorm_dcons k u : 1 <= k <= 9 -> Decimal.unorm (dcons k u) = dcons k u.
Proof. intros Hk. digit_cases k; try lia; reflexivity. Qed.

Lemma string_of_uint_nonzero k u :
  1 <= k <= 9 ->
  NilZero.string_of_uint (dcons k u) = NilEmpty.string_of_uint (dcons k u).
Proof. intros Hk. digit_cases k; try lia; reflexivity. Qed.

Lemma ofNumber_fmt4 n : 1000 <= n <= 9999 -> Str.ofNumber n = fmt4 n.
Proof.
  intros Hn.
  set (a := n / 1000). set (b := n / 100 mod 10).
  set (c := n / 10 mod 10). set (d := n mod 10).
  assert (Ha : 1 <= a <= 9) by (subst a; Z.to_euclidean_division_equations; lia).
  assert (Hb : 0 <= b <= 9) by (subst b; Z.to_euclidean_division_equations; lia).
  assert (Hc : 0 <= c <= 9) by (subst c; Z.to_euclidean_division_equations; lia).
  assert (Hd : 0 <= d <= 9) by (subst d; Z.to_euclidean_division_equations; lia).
  assert (Hsum : n = 1000 * a + 100 * b + 10 * c + d)
    by (subst a b c d; Z.to_euclidean_division_equations; lia).
  set (u := dcons a (dcons b (dcons c (dcons d Decimal.Nil)))).
  assert (Hu : Z.of_int (Decimal.Pos u) = n).
  { cbn [Z.of_int]. unfold Z.of_uint. rewrite DecimalPos.Unsigned.of_uint_alt.
    unfold Decimal.rev, u. rewrite !revapp_dcons by lia. cbn [Decimal.revapp].
    rewrite !of_lu_dcons by lia. cbn [DecimalPos.Unsigned.of_lu]. lia. }
  unfold Str.ofNumber. rewrite <- Hu at 1. rewrite DecimalZ.to_of.
  cbn [Decimal.norm]. unfold u at 1. rewrite unorm_dcons by lia. fold u.
  cbn [NilZero.string_of_int]. unfold u. rewrite string_of_uint_nonzero by lia.
  rewrite !string_of_uint_dcons by lia. reflexivity.
Qed.

Lemma num2_fmt2 n :
  0 <= n <= 99 ->
  DateStr.num2 (digitChar (n / 10)) (digitChar (n mod 10)) = Some n.
Proof.
  intros Hn.
  assert (H : allBelow 100
     (fun z => bool_decide (DateStr.num2 (digitChar (z / 10)) (digitChar (z mod 10)) = Some z))
     = true) by (vm_compute; reflexivity).
  pose proof (allBelow_spec _ _ H n ltac:(lia)) as Hb.
  simpl in Hb. by apply bool_decide_eq_true in Hb.
Qed.

Lemma num4_fmt4 n :
  0 <= n <= 9999 ->
  DateStr.num4 (digitChar (n / 1000)) (digitChar (n / 100 mod 10))
               (digitChar (n / 10 mod 10)) (digitChar (n mod 10)) = Some n.
Proof.
  intros Hn. unfold DateStr.num4.
  replace (n / 1000) with (n / 100 / 10) by (Z.to_euclidean_division_equations; lia).
  replace (n / 10 mod 10) with (n mod 100 / 10) by (Z.to_euclidean_division_equations; lia).
  replace (n mod 10) with (n mod 100 mod 10) by (Z.to_euclidean_division_equations; lia).
  rewrite !num2_fmt2 by (Z.to_euclidean_division_equations; lia).
  f_equal. Z.to_euclidean_division_equations; lia.
Qed.

(** [parseInt] reads back what [String] printed. *)
Lemma digitPrefix_cons ch r :
  Str.digitVal ch <> None -> Str.digitPrefix (String ch r) = String ch (Str.digitPrefix r).
Proof. cbn [Str.digitPrefix]. destruct (Str.digitVal ch); congruence. Qed.

Lemma digitPrefix_uint u :
  Str.digitPrefix (NilEmpty.string_of_uint u) = NilEmpty.string_of_uint u.
Proof.
  induction u; cbn [NilEmpty.string_of_uint]; [reflexivity|..];
    (rewrite digitPrefix_cons by (vm_compute; congruence)); congruence.
Qed.

Lemma parseInt_digit ch r :
  Str.digitVal ch <> None ->
  Str.parseInt (String ch r) = Str.digitsValue (Str.digitPrefix (String ch r)).
Proof.
  destruct ch as [[] [] [] [] [] [] [] []]; intros H;
    first [ exfalso; apply H; reflexivity | reflexivity ].
Qed.

Lemma string_of_uint_head u :
  u <> Decimal.Nil ->
  exists ch r, NilEmpty.string_of_uint u = String ch r /\ Str.digitVal ch <> None.
Proof.
  destruct u; [congruence|..]; intros _; cbn [NilEmpty.string_of_uint];
    eexists _, _; (split; [reflexivity|vm_compute; congruence]).
Qed.

Lemma parseInt_uint u :
  u <> Decimal.Nil -> Str.parseInt (NilEmpty.string_of_uint u) = Some (Z.of_uint u).
Proof.
  intros Hu. destruct (string_of_uint_head u Hu) as (ch & r & E & Hc).
  rewrite E, parseInt_digit by assumption. rewrite <- E, digitPrefix_uint.
  unfold Str.digitsValue. rewrite NilEmpty.usu, E. reflexivity.
Qed.

Lemma parseInt_ofNumber n : 0 <= n -> Str.parseInt (Str.ofNumber n) = Some n.
Proof.
  intros Hn. destruct n as [|p|p]; [reflexivity| |lia].
  unfold Str.ofNumber. cbn [Z.to_int NilZero.string_of_int].
  pose proof (DecimalPos.Unsigned.to_uint_nonnil p) as Hnil.
  replace (NilZero.string_of_uint (Pos.to_uint p))
    with (NilEmpty.string_of_uint (Pos.to_uint p))
    by (destruct (Pos.to_uint p); [congruence|reflexivity..]).
  rewrite parseInt_uint by assumption.
  unfold Z.of_uint. rewrite DecimalPos.Unsigned.of_to. reflexivity.
Qed.

Lemma ofNumber_truthy n : Str.truthy (Some (Str.ofNumber n)) = true.
Proof.
  unfold Str.ofNumber.
  destruct n as [|p|p]; [reflexivity|..]; cbn [Z.to_int NilZero.string_of_int];
    pose proof (DecimalPos.Unsigned.to_uint_nonnil p) as Hnil;
    destruct (Pos.to_uint p); try congruence; reflexivity.
Qed.

(** * Day keys *)

Section DayKeys.
Import Date DateFacts.

Lemma isoDate_length y m d : String.length (isoDate y m d) = 10%nat.
Proof. reflexivity. Qed.

(** In a year of four digits the UTC key is the ISO date of the instant. *)
Lemma utcDayKey_isoDate_year t :
  0 <= YearFromTime t <= 9999 ->
  utcDayKey t = isoDate (YearFromTime t) (MonthFromTime t + 1) (DateFromTime t).
Proof.
  intros Hy. unfold utcDayKey, DateStr.toISOString, DateStr.yearString.
  replace ((0 <=? YearFromTime t) && (YearFromTime t <=? 9999)) with true
    by (symmetry; apply andb_true_iff; split; apply Z.leb_le; lia).
  reflexivity.
Qed.

Lemma utcDayKey_isoDate t :
  fourDigitYear t ->
  utcDayKey t = isoDate (YearFromTime t) (MonthFromTime t + 1) (DateFromTime t).
Proof. intros Ht. apply utcDayKey_isoDate_year, fourDigitYear_year, Ht. Qed.

(** From 1000 on, the local key is the ISO date of the local time. *)
Lemma localDayKey_isoDate tz t :
  1000 <= getFullYear tz t <= 9999 ->
  localDayKey tz t = isoDate (getFullYear tz t) (getMonth tz t + 1) (getDate tz t).
Proof.
  intros Hy. unfold getFullYear, getMonth, getDate in *.
  pose proof (MonthFromTime_range (LocalTime tz t)) as Hm.
  pose proof (DateFromTime_le_31 (LocalTime tz t)) as Hd.
  unfold localDayKey, getFullYear, getMonth, getDate.
  rewrite ofNumber_fmt4 by lia.
  rewrite (pad2_fmt2 (MonthFromTime _ + 1)) by lia.
  rewrite (pad2_fmt2 (DateFromTime _)) by lia.
  reflexivity.
Qed.

(** Parsing the key of a date, with the UTC midnight appended, gives the
    midnight that opens the date. *)
Lemma parse_isoDate_utc tz y m d :
  0 <= y <= 9999 -> 1 <= m <= 12 -> 1 <= d <= DaysInMonth y (m - 1) ->
  DateStr.parse tz (String.append (isoDate y m d) "T00:00:00Z")
  = Some (MakeDay y (m - 1) d * msPerDay).
Proof.
  intros Hy Hm Hd.
  assert (Hd' : d <= 99).
  { destruct Hd as [_ Hd]. revert Hd. unfold DaysInMonth.
    destruct (isLeap _);
      assert (Hc : m = 1 \/ m = 2 \/ m = 3 \/ m = 4 \/ m = 5 \/ m = 6 \/ m = 7
                   \/ m = 8 \/ m = 9 \/ m = 10 \/ m = 11 \/ m = 12) by lia;
      repeat (destruct Hc as [->|Hc]; [simpl; lia|]); subst; simpl; lia. }
  unfold DateStr.parse, isoDate, fmt4, fmt2.
  cbv [String.append DateStr.parseDatePart].
  rewrite num4_fmt4, !num2_fmt2 by lia.
  cbv [DateStr.parseTimePart].
  change (DateStr.num2 "0" "0") with (Some 0).
  cbv iota beta.
  unfold DateStr.validFields.
  replace (1 <=? m) with true by (symmetry; apply Z.leb_le; lia).
  replace (m <=? 12) with true by (symmetry; apply Z.leb_le; lia).
  replace (1 <=? d) with true by (symmetry; apply Z.leb_le; lia).
  replace (d <=? DaysInMonth y (m - 1)) with true by (symmetry; apply Z.leb_le; lia).
  cbn [andb orb Z.leb Z.compare]. unfold MakeDate, MakeTime. f_equal. lia.
Qed.

Lemma midnightOf_utcDayKey c t :
  fourDigitYear t ->
  midnightOf UtcBuild c (utcDayKey t) = Some (Day t * msPerDay).
Proof.
  intros Ht. unfold midnightOf. rewrite utcDayKey_isoDate by assumption.
  pose proof (fourDigitYear_year t Ht).
  pose proof (MonthFromTime_range t).
  pose proof (DateFromTime_range t) as Hd.
  rewrite parse_isoDate_utc; try lia.
  - replace (MonthFromTime t + 1 - 1) with (MonthFromTime t) by lia.
    rewrite MakeDay_civil. reflexivity.
  - replace (MonthFromTime t + 1 - 1) with (MonthFromTime t) by lia. exact Hd.
Qed.

(** In the UTC build the gap between two keys is the number of UTC days
    between the instants they were taken at. *)
Lemma diffDays_utc c t1 t2 :
  fourDigitYear t1 -> fourDigitYear t2 ->
  diffDays UtcBuild c (utcDayKey t1) (utcDayKey t2) = Some (Day t2 - Day t1).
Proof.
  intros H1 H2. unfold diffDays. rewrite !midnightOf_utcDayKey by assumption.
  f_equal. unfold msPerDay. Z.to_euclidean_division_equations; lia.
Qed.

Lemma utcDayKey_eq_iff t1 t2 :
  fourDigitYear t1 -> fourDigitYear t2 ->
  utcDayKey t1 = utcDayKey t2 <-> Day t1 = Day t2.
Proof.
  intros H1 H2. split.
  - intros Heq.
    pose proof (midnightOf_utcDayKey (atUtc 0) t1 H1) as E1.
    pose proof (midnightOf_utcDayKey (atUtc 0) t2 H2) as E2.
    rewrite Heq in E1. rewrite E1 in E2. injection E2. unfold msPerDay. lia.
  - intros Heq. rewrite !utcDayKey_isoDate by assumption.
    unfold DateFromTime, MonthFromTime, InLeapYear, DayWithinYear, YearFromTime.
    rewrite Heq. reflexivity.
Qed.

Lemma utcDayKey_nonempty t : fourDigitYear t -> Str.truthy (Some (utcDayKey t)) = true.
Proof. intros Ht. rewrite utcDayKey_isoDate by assumption. reflexivity. Qed.

End DayKeys.

(** C1, as the specification states it, fails: at one and the same instant
    (2024-03-09 16:00 UTC) the local build gives a viewer in Tokyo the key
    2024-03-10 and a viewer in New York the key 2024-03-09. *)
Lemma day_key_depends_on_zone :
  ~ (forall (b : Build) (c1 c2 : Clock), now c1 = now c2 -> dayKey b c1 = dayKey b c2).
Proof.
  intros H.
  specialize (H LocalBuild (inTokyo 1710000000000) (inNewYork 1710000000000) eq_refl).
  vm_compute in H. discriminate H.
Qed.

(** C1, amended.  In the UTC build the day key of an instant in a year of
    four digits is the same ten-character YYYY-MM-DD string, the UTC date,
    for every client whatever its time zone.  In the local build the key is
    the viewer's local calendar date: the UTC date of the instant shifted by
    the viewer's offset. *)
Theorem day_key_anchor (c1 c2 : Clock) :
  now c1 = now c2 ->
  0 <= Date.YearFromTime (now c1) <= 9999 ->
  dayKey UtcBuild c1 = dayKey UtcBuild c2
  /\ dayKey UtcBuild c1
     = isoDate (Date.YearFromTime (now c1)) (Date.MonthFromTime (now c1) + 1)
               (Date.DateFromTime (now c1))
  /\ String.length (dayKey UtcBuild c1) = 10%nat
  /\ (1000 <= Date.getFullYear (zone c1) (now c1) <= 9999 ->
      dayKey LocalBuild c1 = utcDayKey (Date.LocalTime (zone c1) (now c1))
      /\ dayKey LocalBuild c1
         = isoDate (Date.getFullYear (zone c1) (now c1))
                   (Date.getMonth (zone c1) (now c1) + 1)
                   (Date.getDate (zone c1) (now c1))).
Proof.
  intros Hnow Hy. cbn [dayKey]. rewrite <- Hnow.
  split; [reflexivity|]. rewrite utcDayKey_isoDate_year by assumption.
  split; [reflexivity|]. split; [reflexivity|].
  intros Hly. rewrite localDayKey_isoDate by assumption.
  split; [|reflexivity].
  rewrite utcDayKey_isoDate_year by (unfold Date.getFullYear in Hly; lia). reflexivity.
Qed.

Lemma day_key_anchor_witness :
  now (inTokyo 1710000000000) = now (inNewYork 1710000000000)
  /\ dayKey UtcBuild (inTokyo 1710000000000) = dayKey UtcBuild (inNewYork 1710000000000)
  /\ dayKey UtcBuild (inTokyo 1710000000000) = "2024-03-09"
  /\ dayKey LocalBuild (inTokyo 1710000000000) = "2024-03-10".
Proof.
  pose proof (day_key_anchor (inTokyo 1710000000000) (inNewYork 1710000000000)
                eq_refl ltac:(vm_compute; split; discriminate)) as (H1 & H2 & _ & H4).
  split; [reflexivity|]. split; [exact H1|]. split.
  - rewrite H2. vm_compute. reflexivity.
  - destruct (H4 ltac:(vm_compute; split; discriminate)) as [_ H5].
    rewrite H5. vm_compute. reflexivity.
Defined.

(** * The day seed and its generator *)

Lemma ushr0_range x : 0 <= JS.ushr x 0 < JS.two32.
Proof.
  unfold JS.ushr, JS.ToUint32. change (0 mod 32) with 0. rewrite Z.shiftr_0_r.
  apply Z.mod_pos_bound. reflexivity.
Qed.

Lemma hash32_range str : 0 <= hash32 str < JS.two32.
Proof. apply ushr0_range. Qed.

Lemma mulberry32_next_range a : 0 <= (mulberry32_next a).2 < JS.two32.
Proof. apply ushr0_range. Qed.

Lemma rnd_value_unit k :
  0 <= k < JS.two32 -> (0 <= rnd_value k)%Q /\ (rnd_value k < 1)%Q.
Proof. unfold rnd_value, Qle, Qlt, JS.two32. cbn [Qnum Qden]. lia. Qed.

Lemma mulberry32_run_range n a :
  Forall (fun k => (0 <= rnd_value k)%Q /\ (rnd_value k < 1)%Q) (mulberry32_run n a).
Proof.
  revert a. induction n as [|n IH]; intros a; cbn [mulberry32_run]; [constructor|].
  pose proof (mulberry32_next_range a) as Hk.
  destruct (mulberry32_next a) as [a' k]. constructor; [|apply IH].
  apply rnd_value_unit. exact Hk.
Qed.

Lemma mulberry32_run_length n a : List.length (mulberry32_run n a) = n.
Proof.
  revert a. induction n as [|n IH]; intros a; cbn [mulberry32_run]; [reflexivity|].
  destruct (mulberry32_next a) as [a' k]. cbn. by rewrite IH.
Qed.

(** Asking a generator for more values does not change the earlier ones. *)
Lemma mulberry32_run_prefix n m a :
  mulberry32_run n a = List.firstn n (mulberry32_run (n + m) a).
Proof.
  revert a. induction n as [|n IH]; intros a; [reflexivity|].
  cbn [mulberry32_run Nat.add]. destruct (mulberry32_next a) as [a' k].
  cbn [List.firstn]. by rewrite <- IH.
Qed.

(** The FNV-1a test vector for the one-letter string, and a seed. *)
Example hash32_a : hash32 "a" = 3826002220.
Proof. reflexivity. Qed.

Example todaySeed_example : todaySeed UtcBuild (atUtc 1710054000123) "challenge" = 810294590.
Proof. vm_compute. reflexivity. Qed.

(** C9.  The seed is a function of the day key and the salt alone: two
    readings of the clock that give the same day key give the same 32-bit
    seed, and the generators made from it yield the same values, each a
    float in [0,1); asking for more values leaves the earlier ones as they
    were, and the challenge and crowd drawn from the seed agree too.  No
    handler state enters: none of these functions takes the world. *)
Theorem seed_deterministic (b : Build) (c1 c2 : Clock) (salt : string) (n m : nat) :
  dayKey b c1 = dayKey b c2 ->
  todaySeed b c1 salt = todaySeed b c2 salt
  /\ 0 <= todaySeed b c1 salt < 2 ^ 32
  /\ mulberry32_stream (todaySeed b c1 salt) n = mulberry32_stream (todaySeed b c2 salt) n
  /\ List.length (mulberry32_stream (todaySeed b c1 salt) n) = n
  /\ Forall (fun k => (0 <= rnd_value k)%Q /\ (rnd_value k < 1)%Q)
            (mulberry32_stream (todaySeed b c1 salt) n)
  /\ mulberry32_stream (todaySeed b c1 salt) n
     = List.firstn n (mulberry32_stream (todaySeed b c2 salt) (n + m))
  /\ getTodaysChallengeId b c1 = getTodaysChallengeId b c2
  /\ getTodaysCrowdNumber b c1 = getTodaysCrowdNumber b c2.
Proof.
  intros Hday.
  assert (Hseed : forall s, todaySeed b c1 s = todaySeed b c2 s)
    by (intros s; unfold todaySeed; rewrite Hday; reflexivity).
  unfold getTodaysChallengeId, getTodaysCrowdNumber. rewrite <- !Hseed.
  repeat split.
  - apply hash32_range.
  - apply hash32_range.
  - apply mulberry32_run_length.
  - apply mulberry32_run_range.
  - apply mulberry32_run_prefix.
Qed.

(** Two readings of the clock on 2024-03-10 (UTC), hours apart. *)
Lemma seed_deterministic_witness :
  dayKey UtcBuild (atUtc 1710054000123) = dayKey UtcBuild (inNewYork 1710111600000)
  /\ todaySeed UtcBuild (atUtc 1710054000123) "crowd"
     = todaySeed UtcBuild (inNewYork 1710111600000) "crowd"
  /\ mulberry32_stream (todaySeed UtcBuild (atUtc 1710054000123) "crowd") 3
     = mulberry32_stream (todaySeed UtcBuild (inNewYork 1710111600000) "crowd") 3.
Proof.
  assert (Hday : dayKey UtcBuild (atUtc 1710054000123)
                 = dayKey UtcBuild (inNewYork 1710111600000))
    by (vm_compute; reflexivity).
  pose proof (seed_deterministic UtcBuild (atUtc 1710054000123) (inNewYork 1710111600000)
                "crowd" 3 0 Hday) as (H1 & _ & H3 & _).
  split; [exact Hday|]. split; [exact H1|exact H3].
Defined.

(** * Handlers that can throw *)

Lemma bindA_returns {A B} (m : Action A) (k : A -> Action B) w x w' :
  m w = (Returns x, w') -> bindA m k w = k x w'.
Proof. intros H. unfold bindA. rewrite H. reflexivity. Qed.

Lemma bindA_throws {A B} (m : Action A) (k : A -> Action B) w e w' :
  m w = (Throws e, w') -> bindA m k w = (Throws e, w').
Proof. intros H. unfold bindA. rewrite H. reflexivity. Qed.

Lemma bindA_lift {A B} (m : Handler A) (k : A -> Action B) w :
  bindA (lift m) k w = k (eval m w) (exec m w).
Proof. unfold bindA, lift, eval, exec. destruct (m w). reflexivity. Qed.

Lemma silently_exec {A} (m : Handler A) w : exec (silently m) w = exec m w.
Proof. unfold silently, exec, bind, ret. destruct (m w). reflexivity. Qed.

(** * The daily challenge *)

Section EngineFacts.
Variable b : Build.
Variable c : Clock.

Lemma freshState_dayKey : freshState b c !! "dayKey" = Some (VStr (dayKey b c)).
Proof. unfold freshState. destruct b; by simplify_map_eq. Qed.

Lemma freshState_state : freshState b c !! "state" = Some (VStr "not_started").
Proof. unfold freshState. destruct b; by simplify_map_eq. Qed.




Lemma fieldIs_fresh_in_progress : fieldIs (freshState b c) "state" "in_progress" = false.
Proof.
  unfold fieldIs. apply bool_decide_eq_false_2. rewrite freshState_state. discriminate.
Qed.



Lemma currentObject_dayKey j o :
  currentObject b c j = Some o -> j = JObj o /\ o !! "dayKey" = Some (VStr (dayKey b c)).
Proof.
  destruct j as [v|o'|]; cbn; try discriminate.
  unfold fieldIs. case_bool_decide; [|discriminate]. intros [= ->]. done.
Qed.


Lemma staleRecord_currentObject w :
  staleRecord b c (yve_today_state (localStorage w)) ->
  currentObject b c (todayJson w) = None.
Proof.
  unfold staleRecord, todayJson.
  destruct (yve_today_state (localStorage w)) as [[|[v|o|]]|]; cbn; try done.
  intros H. unfold fieldIs. by rewrite bool_decide_eq_false_2.
Qed.

Lemma inProgressToday_current w :
  inProgressToday b c w ->
  exists o, currentObject b c (todayJson w) = Some o
            /\ fieldIs o "state" "in_progress" = true.
Proof.
  intros (o & Hst & Hd & Hs). exists o. unfold todayJson. rewrite Hst. cbn.
  unfold fieldIs. rewrite !bool_decide_eq_true_2 by assumption. done.
Qed.

Lemma reconcile_unfold w :
  exec (reconcileStreakForNewDay b c) w =
  let last := yve_streak_last_day (localStorage w) in
  if negb (Str.truthy last) then w
  else match diffDays b c (default "" last) (dayKey b c) with
       | Some d => if 2 <=? d then exec (setStreak 0) w else w
       | None => w
       end.
Proof.
  unfold reconcileStreakForNewDay, getLastStreakDay, exec, bind, getStorage, ret.
  cbn [fst snd]. cbv zeta.
  destruct (negb (Str.truthy (yve_streak_last_day (localStorage w)))); [reflexivity|].
  destruct (diffDays b c _ _) as [d|]; [|reflexivity].
  destruct (2 <=? d); reflexivity.
Qed.

End EngineFacts.

(** The local build, as shipped: the read of today's run calls [loadJSON],
    and every handler of the daily challenge begins with that read. *)
Section LocalEngineFacts.
Variable c : Clock.

Lemma getTodayChallengeState_local w :
  getTodayChallengeState LocalBuild c w = (Throws (ReferenceError "loadJSON"), w).
Proof. reflexivity. Qed.

Lemma setTodayChallengeState_local patch w :
  setTodayChallengeState LocalBuild c patch w = (Throws (ReferenceError "loadJSON"), w).
Proof. reflexivity. Qed.

Lemma completeChallenge_local w :
  completeChallenge LocalBuild c w = (Throws (ReferenceError "loadJSON"), w).
Proof. reflexivity. Qed.

Lemma failChallenge_local w :
  failChallenge LocalBuild c w = (Throws (ReferenceError "loadJSON"), w).
Proof. reflexivity. Qed.

Lemma joinChallengeConfirm_local w :
  joinChallengeConfirm LocalBuild c w = (Throws (ReferenceError "loadJSON"), w).
Proof. reflexivity. Qed.

Lemma renderHub_local w :
  renderHub LocalBuild c w = (Throws (ReferenceError "loadJSON"), w).
Proof. reflexivity. Qed.

End LocalEngineFacts.

(** The UTC build. *)
Section UtcEngineFacts.
Variable c : Clock.

(** The two ways a read goes: the stored object is today's and is
    returned, or a fresh one is saved and returned. *)
Lemma getTodayChallengeState_current w o :
  currentObject UtcBuild c (todayJson w) = Some o ->
  getTodayChallengeState UtcBuild c w = (Returns o, w).
Proof.
  intros H. unfold getTodayChallengeState, loadJSON_todayState.
  rewrite (bindA_returns _ _ w (todayJson w) w).
  - rewrite H. reflexivity.
  - rewrite bindA_lift. reflexivity.
Qed.

Lemma getTodayChallengeState_stale w :
  currentObject UtcBuild c (todayJson w) = None ->
  getTodayChallengeState UtcBuild c w
  = (Returns (freshState UtcBuild c), withTodayState (freshState UtcBuild c) w).
Proof.
  intros H. unfold getTodayChallengeState, loadJSON_todayState.
  rewrite (bindA_returns _ _ w (todayJson w) w).
  - rewrite H. reflexivity.
  - rewrite bindA_lift. reflexivity.
Qed.

Lemma setTodayChallengeState_current w o patch :
  currentObject UtcBuild c (todayJson w) = Some o ->
  setTodayChallengeState UtcBuild c patch w
  = (Returns (patch ∪ o), withTodayState (patch ∪ o) w).
Proof.
  intros H. unfold setTodayChallengeState.
  rewrite (bindA_returns _ _ _ _ _ (getTodayChallengeState_current w o H)). reflexivity.
Qed.

(** A save goes over today's object: the stored one if it is today's, a
    fresh one otherwise. *)
Lemma setTodayChallengeState_any patch w :
  exists cur, cur !! "dayKey" = Some (VStr (dayKey UtcBuild c))
              /\ setTodayChallengeState UtcBuild c patch w
                 = (Returns (patch ∪ cur), withTodayState (patch ∪ cur) w).
Proof.
  destruct (currentObject UtcBuild c (todayJson w)) as [o|] eqn:Hcur.
  - exists o. split; [apply (currentObject_dayKey UtcBuild c _ _ Hcur)|].
    apply setTodayChallengeState_current, Hcur.
  - exists (freshState UtcBuild c). split; [apply freshState_dayKey|].
    unfold setTodayChallengeState.
    rewrite (bindA_returns _ _ _ _ _ (getTodayChallengeState_stale w Hcur)). reflexivity.
Qed.



Lemma failChallenge_idle w o :
  currentObject UtcBuild c (todayJson w) = Some o ->
  fieldIs o "state" "in_progress" = false ->
  failChallenge UtcBuild c w = (Returns tt, w).
Proof.
  intros Hcur Hst. unfold failChallenge.
  rewrite (bindA_returns _ _ _ _ _ (getTodayChallengeState_current w o Hcur)).
  rewrite Hst. reflexivity.
Qed.


Lemma failChallenge_stale w :
  currentObject UtcBuild c (todayJson w) = None ->
  failChallenge UtcBuild c w = (Returns tt, withTodayState (freshState UtcBuild c) w).
Proof.
  intros Hcur. unfold failChallenge.
  rewrite (bindA_returns _ _ _ _ _ (getTodayChallengeState_stale w Hcur)).
  rewrite fieldIs_fresh_in_progress. reflexivity.
Qed.

(** A completion from [in_progress], in closed form. *)
Lemma completeChallenge_in_progress w o :
  currentObject UtcBuild c (todayJson w) = Some o ->
  fieldIs o "state" "in_progress" = true ->
  let last := yve_streak_last_day (localStorage w) in
  let done := Parses (JObj (completedPatch c ∪ o)) in
  let ls' :=
    if bool_decide (last = Some (dayKey UtcBuild c)) then
      setItem_today_state done (localStorage w)
    else
      setItem_today_state done
        (setItem_streak_last_day (dayKey UtcBuild c)
           (setItem_streak
              (Str.ofNumber (Z.max 0 (nextStreak UtcBuild c last (eval getStreak w))))
              (localStorage w))) in
  completeChallenge UtcBuild c w = (Returns tt, setStorage ls' (setActiveRule None w)).
Proof.
  intros Hcur Hrun. unfold completeChallenge.
  rewrite (bindA_returns _ _ _ _ _ (getTodayChallengeState_current w o Hcur)).
  rewrite Hrun. cbn [negb]. rewrite !bindA_lift.
  fold (completedPatch c).
  change (eval getLastStreakDay (exec stopLeaveRule w))
    with (yve_streak_last_day (localStorage w)).
  change (eval getStreak (exec getLastStreakDay (exec stopLeaveRule w)))
    with (eval getStreak w).
  cbv zeta. case_bool_decide.
  - rewrite (bindA_returns _ _ _ tt (setActiveRule None w)) by reflexivity.
    rewrite (bindA_returns _ _ _ _ _
               (setTodayChallengeState_current (setActiveRule None w) o _ Hcur)).
    reflexivity.
  - set (w' := setStorage
                  (setItem_streak_last_day (dayKey UtcBuild c)
                     (setItem_streak
                        (Str.ofNumber
                           (Z.max 0 (nextStreak UtcBuild c
                                       (yve_streak_last_day (localStorage w))
                                       (eval getStreak w))))
                        (localStorage w)))
                  (setActiveRule None w)).
    rewrite (bindA_returns _ _ _ tt w') by reflexivity.
    assert (Hcur' : currentObject UtcBuild c (todayJson w') = Some o) by exact Hcur.
    rewrite (bindA_returns _ _ _ _ _ (setTodayChallengeState_current w' o _ Hcur')).
    reflexivity.
Qed.

(** A failure from [in_progress], in closed form. *)
Lemma failChallenge_in_progress w o :
  currentObject UtcBuild c (todayJson w) = Some o ->
  fieldIs o "state" "in_progress" = true ->
  failChallenge UtcBuild c w
  = (Returns tt, withTodayState (failedPatch c ∪ o) (setActiveRule None w)).
Proof.
  intros Hcur Hrun. unfold failChallenge.
  rewrite (bindA_returns _ _ _ _ _ (getTodayChallengeState_current w o Hcur)).
  rewrite Hrun. cbn [negb]. rewrite bindA_lift. fold (failedPatch c).
  rewrite (bindA_returns _ _ _ _ _
             (setTodayChallengeState_current (exec stopLeaveRule w) o _ Hcur)).
  reflexivity.
Qed.




End UtcEngineFacts.

Lemma getStreak_stored w n :
  yve_streak (localStorage w) = Some (Str.ofNumber n) -> 0 <= n ->
  eval getStreak w = n.
Proof.
  intros H Hn. unfold eval, getStreak, bind, getStorage, ret. cbn.
  rewrite H, ofNumber_truthy. cbn. rewrite parseInt_ofNumber by assumption. reflexivity.
Qed.






(** * The streak ledger *)


(** X2.  In the UTC build the boot-time reconciliation zeroes the count
    exactly when a last completed day is stored and lies two or more days
    back. *)
Theorem reconcile_utc (c : Clock) (w : World) :
  Date.fourDigitYear (now c) ->
  let w' := exec (reconcileStreakForNewDay UtcBuild c) w in
  (yve_streak_last_day (localStorage w) = None -> w' = w)
  /\ (forall tl, Date.fourDigitYear tl ->
        yve_streak_last_day (localStorage w) = Some (utcDayKey tl) ->
        if 2 <=? Date.Day (now c) - Date.Day tl
        then eval getStreak w' = 0
             /\ yve_streak_last_day (localStorage w') = yve_streak_last_day (localStorage w)
        else w' = w).
Proof.
  intros Hnow w'. subst w'. rewrite reconcile_unfold. cbn [dayKey]. split.
  - intros ->. reflexivity.
  - intros tl Htl Hlast. rewrite Hlast. rewrite utcDayKey_nonempty by assumption.
    cbn [negb default from_option]. unfold id. rewrite diffDays_utc by assumption.
    destruct (2 <=? Date.Day (now c) - Date.Day tl); [|reflexivity].
    split; [|exact Hlast].
    apply getStreak_stored; [reflexivity|lia].
Qed.


Example reconcile_utc_example :
  eval getStreak
    (exec (reconcileStreakForNewDay UtcBuild (atUtc 1710054001000))
          (loaded (streakStore "5" "2024-03-07" None)))
  = 0.
Proof.
  set (w := loaded _). set (c := atUtc 1710054001000).
  assert (Hnow : Date.fourDigitYear (now c)) by (unfold Date.fourDigitYear; simpl; lia).
  destruct (reconcile_utc c w Hnow) as (_ & H).
  specialize (H 1709800000000 ltac:(unfold Date.fourDigitYear; lia)
                ltac:(vm_compute; reflexivity)).
  change (2 <=? Date.Day (now c) - Date.Day 1709800000000) with true in H.
  exact (proj1 H).
Defined.
(** C5, in the local build.  Its [completeChallenge] begins by reading
    today's run, the read calls [loadJSON], and the script declares no such
    function: the call throws before the day arithmetic is reached, for
    every clock and every state, and nothing is written.  So no completion
    is recorded.  At the input below the last completion was the day
    before and the count is 5: the count stays 5, the last completed day
    stays 2024-03-11 and the run stays in progress, where the UTC build, on
    the same store, counts 6 and records 2024-03-12. *)
Theorem local_completion_throws :
  (forall c w,
      completeChallenge LocalBuild c w = (Throws (ReferenceError "loadJSON"), w))
  /\ let c := inNewYork 1710248400000 in
     let w := loaded (streakStore "5" "2024-03-11"
                        (Some (Parses (JObj (runningSince "2024-03-12" 1710247400000))))) in
     let w' := exec (completeChallenge LocalBuild c) w in
     dayKey LocalBuild c = "2024-03-12"
     /\ inProgressToday LocalBuild c w
     /\ eval getStreak w = 5
     /\ w' = w
     /\ eval getStreak w' = 5
     /\ yve_streak_last_day (localStorage w') = Some "2024-03-11"
     /\ inProgressToday LocalBuild c w'
     /\ eval getStreak (exec (completeChallenge UtcBuild c) w) = 6
     /\ yve_streak_last_day (localStorage (exec (completeChallenge UtcBuild c) w))
        = Some "2024-03-12".
Proof.
  split; [intros c w; apply completeChallenge_local|].
  intros c w w'.
  assert (Hrun : inProgressToday LocalBuild c w).
  { eexists. split; [reflexivity|]. split; vm_compute; reflexivity. }
  split; [vm_compute; reflexivity|]. split; [exact Hrun|].
  split; [vm_compute; reflexivity|]. split; [reflexivity|].
  split; [vm_compute; reflexivity|]. split; [reflexivity|].
  split; [exact Hrun|]. split; vm_compute; reflexivity.
Qed.

(** The day arithmetic the local build's [completeChallenge] would reach:
    the two keys are parsed as local midnights, which are 23 hours apart
    across the spring-forward change, and the quotient by a day floors to
    0. *)
Lemma local_day_gap_after_dst_change :
  let c := inNewYork 1710162000000 in
  midnightOf LocalBuild c "2024-03-10" = Some 1710046800000
  /\ midnightOf LocalBuild c "2024-03-11" = Some 1710129600000
  /\ diffDays LocalBuild c "2024-03-10" "2024-03-11" = Some 0.
Proof. vm_compute. repeat split; reflexivity. Qed.


(** C7, at the input on which the local build departs from it.  The viewer
    is in New York, the last completion was on 2024-03-09 and the page is
    loaded on 2024-03-11: a day was missed.  The local midnights are 47
    hours apart, the quotient floors to 1, and the local build keeps the
    count of 5; the UTC build, on the same store, resets it to 0. *)
Theorem local_reconcile_after_dst_change :
  let c := inNewYork 1710162000000 in
  let w := loaded (streakStore "5" "2024-03-09" None) in
  dayKey LocalBuild c = "2024-03-11"
  /\ midnightOf LocalBuild c "2024-03-09" = Some 1709960400000
  /\ midnightOf LocalBuild c "2024-03-11" = Some 1710129600000
  /\ diffDays LocalBuild c "2024-03-09" "2024-03-11" = Some 1
  /\ eval getStreak (exec (reconcileStreakForNewDay LocalBuild c) w) = 5
  /\ eval getStreak (exec (reconcileStreakForNewDay UtcBuild c) w) = 0.
Proof. vm_compute. repeat split; reflexivity. Qed.

(** * Timed sessions *)

Section Frame.
Context {B : Type} (proj : World -> B).

Lemma keeps_ret {A} (x : A) : keeps proj (ret x).
Proof. intros w. reflexivity. Qed.

Lemma keeps_bind {A C} (m : Handler A) (k : A -> Handler C) :
  keeps proj m -> (forall x, keeps proj (k x)) -> keeps proj (bind m k).
Proof.
  intros Hm Hk w. unfold bind. specialize (Hm w). destruct (m w) as [x w1].
  cbn in *. rewrite Hk. exact Hm.
Qed.

Lemma keeps_if {A} (cond : bool) (m1 m2 : Handler A) :
  keeps proj m1 -> keeps proj m2 -> keeps proj (if cond then m1 else m2).
Proof. by destruct cond. Qed.

Lemma keeps_retA {A} (x : A) : keeps proj (retA x).
Proof. intros w. reflexivity. Qed.

Lemma keeps_throw {A} (e : JsError) : keeps proj (@throw A e).
Proof. intros w. reflexivity. Qed.

Lemma keeps_lift {A} (m : Handler A) : keeps proj m -> keeps proj (lift m).
Proof. intros Hm w. unfold lift. specialize (Hm w). destruct (m w). exact Hm. Qed.

Lemma keeps_bindA {A C} (m : Action A) (k : A -> Action C) :
  keeps proj m -> (forall x, keeps proj (k x)) -> keeps proj (bindA m k).
Proof.
  intros Hm Hk w. unfold bindA. specialize (Hm w). destruct (m w) as [[x|e] w1].
  - cbn in *. rewrite Hk. exact Hm.
  - exact Hm.
Qed.

Lemma keeps_getStorage : keeps proj getStorage.
Proof. intros w. reflexivity. Qed.

Lemma keeps_getBoss : keeps proj getBoss.
Proof. intros w. reflexivity. Qed.

Lemma keeps_getArena : keeps proj getArena.
Proof. intros w. reflexivity. Qed.

End Frame.

#[export] Hint Resolve keeps_ret keeps_retA keeps_throw keeps_getStorage keeps_getBoss
  keeps_getArena : frame.

(** Walks through a handler: binds, branches, then the primitives. *)
Ltac frame :=
  repeat first
    [ progress intros
    | match goal with
      | |- keeps _ (bindA _ _) => apply keeps_bindA
      | |- keeps _ (bind _ _) => apply keeps_bind
      | |- keeps _ (lift _) => apply keeps_lift
      | |- keeps _ (if _ then _ else _) => apply keeps_if
      | |- keeps _ (match ?x with _ => _ end) => destruct x
      end
    | solve [auto with frame]
    | (intros ?w; reflexivity) ].

Lemma keeps_timers_getToday b c : keeps timers (getTodayChallengeState b c).
Proof.
  unfold getTodayChallengeState, loadJSON_todayState, saveJSON_todayState. frame.
Qed.

Lemma keeps_timers_setToday b c p : keeps timers (setTodayChallengeState b c p).
Proof.
  unfold setTodayChallengeState, saveJSON_todayState.
  pose proof (keeps_timers_getToday b c). frame.
Qed.

Lemma keeps_rule_getToday b c : keeps activeRule (getTodayChallengeState b c).
Proof.
  unfold getTodayChallengeState, loadJSON_todayState, saveJSON_todayState. frame.
Qed.

Lemma keeps_rule_setToday b c p : keeps activeRule (setTodayChallengeState b c p).
Proof.
  unfold setTodayChallengeState, saveJSON_todayState.
  pose proof (keeps_rule_getToday b c). frame.
Qed.

#[export] Hint Resolve keeps_timers_getToday keeps_timers_setToday : frame.

Lemma keeps_timers_complete b c : keeps timers (completeChallenge b c).
Proof.
  unfold completeChallenge, getLastStreakDay, getStreak, setStreak, setLastStreakDay. frame.
Qed.

Lemma keeps_timers_fail b c : keeps timers (failChallenge b c).
Proof. unfold failChallenge. frame. Qed.

Lemma keeps_timers_rendered b c : keeps timers (challengeRendered b c).
Proof. unfold challengeRendered, renderChallenge24, renderHub. frame. Qed.

Lemma keeps_rule_rendered b c : keeps activeRule (challengeRendered b c).
Proof.
  unfold challengeRendered, renderChallenge24, renderHub.
  pose proof (keeps_rule_getToday b c). frame.
Qed.

#[export] Hint Resolve keeps_timers_rendered : frame.

Lemma keeps_timers_joinResume b c : keeps timers (joinChallengeResume b c).
Proof. unfold joinChallengeResume. frame. Qed.

Lemma keeps_timers_join b c : keeps timers (joinChallengeConfirm b c).
Proof. unfold joinChallengeConfirm, joinChallengeResume. frame. Qed.

Lemma keeps_timers_saveHistory b key entry : keeps timers (saveHistory b key entry).
Proof. unfold saveHistory, loadJSON_history, saveJSON_history. frame. Qed.

Lemma keeps_rule_saveHistory b key entry : keeps activeRule (saveHistory b key entry).
Proof. unfold saveHistory, loadJSON_history, saveJSON_history. frame. Qed.

Lemma keeps_timers_reconcile b c : keeps timers (reconcileStreakForNewDay b c).
Proof. unfold reconcileStreakForNewDay, getLastStreakDay, setStreak. frame. Qed.

(** The operations on a timer keep it within its bounds. *)
Lemma running_countdown t : running (countdown t) = running t.
Proof. reflexivity. Qed.

Lemma timerOk_countdown t : timerOk t -> timerOk (countdown t).
Proof.
  unfold timerOk, countdown. cbn. destruct (Z.ltb_spec (remainingMs t - 1000) 0); lia.
Qed.

Lemma healMs_nonneg total : 0 <= total -> 0 <= healMs total.
Proof. unfold healMs. intros. Z.to_euclidean_division_equations; lia. Qed.

Lemma healMs_floor total : healMs total = Qfloor ((20 # 100) * inject_Z total).
Proof. unfold healMs, Qfloor, Qmult, inject_Z. cbn [Qnum Qden]. f_equal. lia. Qed.

Lemma timerOk_bossHeal t : timerOk t -> timerOk (bossHeal t).
Proof.
  unfold timerOk, bossHeal. cbn. intros H.
  pose proof (healMs_nonneg (totalMs t) ltac:(lia)). lia.
Qed.

Lemma timerOk_setDuration min t : 0 <= min -> timerOk (setDuration min t).
Proof. unfold timerOk, setDuration, minutesToMs. cbn. lia. Qed.

Lemma timersOk_keeps {A} (m : Handler A) w :
  keeps timers m -> timersOk w -> timersOk (exec m w).
Proof.
  intros Hk [Hb Ha]. specialize (Hk w). unfold timers in Hk. injection Hk as Hb' Ha'.
  unfold timersOk, exec. rewrite Hb', Ha'. done.
Qed.

(** The timed sessions' handlers in closed form. *)
Lemma exec_bindA_lift {A B} (m : Handler A) (k : A -> Action B) w :
  exec (bindA (lift m) k) w = exec (k (eval m w)) (exec m w).
Proof. unfold exec at 1. rewrite bindA_lift. reflexivity. Qed.

Lemma setStorage_same w : setStorage (localStorage w) w = w.
Proof. destruct w. reflexivity. Qed.

Lemma saveHistory_exec b key entry w :
  exec (saveHistory b key entry) w
  = setStorage (historyRecorded b key entry (localStorage w)) w.
Proof.
  destruct b.
  - cbn. symmetry. apply setStorage_same.
  - unfold saveHistory, loadJSON_history, saveJSON_history, historyRecorded, recordHistory,
      exec, bindA, lift, retA, throw, ret, getStorage, putStorage.
    cbn [fst snd].
    destruct (historyOf key (localStorage w)); cbn [snd];
      [reflexivity|reflexivity|symmetry; apply setStorage_same].
Qed.

Lemma bossStop_exec w :
  exec bossStop w
  = if running (Boss w) then setActiveRule None (setBoss (setRunning false (Boss w)) w)
    else w.
Proof. unfold bossStop, exec, bind, getBoss. cbn. destruct (running (Boss w)); reflexivity. Qed.

Lemma arenaStop_exec w :
  exec arenaStop w
  = if running (Arena w) then setActiveRule None (setArena (setRunning false (Arena w)) w)
    else w.
Proof.
  unfold arenaStop, exec, bind, getArena. cbn. destruct (running (Arena w)); reflexivity.
Qed.

Lemma bossVictory_exec b c w :
  exec (bossVictory b c) w
  = setStorage
      (historyRecorded b bossHistory (bossEntry b c (bossTask w) (selectedMin (Boss w)))
         (localStorage w))
      (exec bossStop w).
Proof.
  unfold bossVictory. rewrite !exec_bindA_lift, saveHistory_exec.
  change (exec getBoss (exec getBossTask (exec bossStop w))) with (exec bossStop w).
  change (eval getBoss (exec getBossTask (exec bossStop w)))
    with (Boss (exec bossStop w)).
  change (eval getBossTask (exec bossStop w)) with (bossTask (exec bossStop w)).
  rewrite bossStop_exec. destruct (running (Boss w)); reflexivity.
Qed.

Lemma arenaVictory_exec b c w :
  exec (arenaVictory b c) w
  = setStorage
      (historyRecorded b arenaHistory (arenaEntry b c (selectedMin (Arena w)) "cleared")
         (badgeCounted (localStorage w)))
      (exec arenaStop w).
Proof.
  unfold arenaVictory. rewrite !exec_bindA_lift, saveHistory_exec.
  rewrite arenaStop_exec. destruct (running (Arena w)); reflexivity.
Qed.

Lemma arenaFailResume_exec b c w :
  exec (arenaFailResume b c) w
  = setStorage
      (historyRecorded b arenaHistory (arenaEntry b c (selectedMin (Arena w)) "failed")
         (localStorage w)) w.
Proof.
  unfold arenaFailResume. rewrite exec_bindA_lift, saveHistory_exec. reflexivity.
Qed.

Lemma arenaFail_exec b c w :
  exec (arenaFail b c) w
  = if running (Arena w) then
      match b with
      | LocalBuild => exec arenaStop w
      | UtcBuild =>
          if 0 <? remainingMs (Arena w) then exec arenaStop w
          else exec (arenaFailResume b c) (exec arenaStop w)
      end
    else w.
Proof.
  unfold arenaFail. rewrite exec_bindA_lift.
  change (eval getArena w) with (Arena w). change (exec getArena w) with w.
  destruct (running (Arena w)) eqn:Hrun; cbn [negb]; [|reflexivity].
  rewrite exec_bindA_lift. destruct b.
  - rewrite arenaFailResume_exec. cbn [historyRecorded]. apply setStorage_same.
  - destruct (0 <? remainingMs (Arena w)); reflexivity.
Qed.

Lemma bossTick_exec b c w :
  exec (bossTick b c) w
  = if running (Boss w) then
      let w1 := setBoss (countdown (Boss w)) w in
      if remainingMs (countdown (Boss w)) =? 0 then exec (bossVictory b c) w1 else w1
    else w.
Proof.
  unfold bossTick. rewrite exec_bindA_lift.
  change (eval getBoss w) with (Boss w). change (exec getBoss w) with w.
  destruct (running (Boss w)); cbn [negb]; [|reflexivity].
  cbv zeta. rewrite exec_bindA_lift.
  destruct (remainingMs (countdown (Boss w)) =? 0); reflexivity.
Qed.

Lemma arenaTick_exec b c w :
  exec (arenaTick b c) w
  = if running (Arena w) then
      let w1 := setArena (countdown (Arena w)) w in
      if remainingMs (countdown (Arena w)) =? 0 then exec (arenaVictory b c) w1 else w1
    else w.
Proof.
  unfold arenaTick. rewrite exec_bindA_lift.
  change (eval getArena w) with (Arena w). change (exec getArena w) with w.
  destruct (running (Arena w)); cbn [negb]; [|reflexivity].
  cbv zeta. rewrite exec_bindA_lift.
  destruct (remainingMs (countdown (Arena w)) =? 0); reflexivity.
Qed.

Lemma bossStart_exec value w :
  exec (bossStart value) w
  = match Str.trim value with
    | EmptyString => w
    | task =>
        setActiveRule
          (Some {| type := bossFight; thresholdMs := 15000; awayStart := None |})
          (setBoss (setRunning true (Boss w)) (setBossTask task w))
    end.
Proof. unfold bossStart. destruct (Str.trim value); reflexivity. Qed.

(** The invariant through the handlers. *)
Lemma timersOk_bossStop w : timersOk w -> timersOk (exec bossStop w).
Proof. intros H. rewrite bossStop_exec. destruct (running (Boss w)); exact H. Qed.

Lemma timersOk_arenaStop w : timersOk w -> timersOk (exec arenaStop w).
Proof. intros H. rewrite arenaStop_exec. destruct (running (Arena w)); exact H. Qed.

Lemma timersOk_arenaFail b c w : timersOk w -> timersOk (exec (arenaFail b c) w).
Proof.
  intros H. rewrite arenaFail_exec.
  destruct (running (Arena w)); [|exact H].
  pose proof (timersOk_arenaStop w H) as H1.
  destruct b; [exact H1|].
  destruct (0 <? remainingMs (Arena w)); [exact H1|].
  rewrite arenaFailResume_exec. exact H1.
Qed.

Lemma timersOk_onTrigger b c ty ms w :
  timersOk w -> timersOk (exec (onTrigger b c ty ms) w).
Proof.
  intros [Hb Ha]. destruct ty.
  - apply timersOk_keeps; [apply keeps_timers_fail|done].
  - cbn. split; [apply timerOk_bossHeal|]; done.
  - apply timersOk_arenaFail. done.
Qed.

Lemma timersOk_checkBack b c w : timersOk w -> timersOk (exec (checkBack b c) w).
Proof.
  intros H. unfold checkBack, exec at 1.
  destruct (activeRule w) as [r|]; [|done].
  destruct (awayStartSet r); cbn [negb]; [|done].
  destruct (thresholdMs r <=? _); cbn [snd]; [|done].
  apply timersOk_onTrigger. done.
Qed.

Lemma timersOk_silently {A} (m : Handler A) w :
  timersOk (exec m w) -> timersOk (exec (silently m) w).
Proof. rewrite silently_exec. done. Qed.

Lemma timersOk_handle b c e w :
  presetOk e -> timersOk w -> timersOk (exec (handle b c e) w).
Proof.
  intros He H. pose proof H as [Hb Ha].
  destruct e; cbn [handle presetOk] in *.
  - unfold onVisibilityChange. unfold exec at 1.
    destruct (activeRule w) as [r|] eqn:Hr; [|done].
    destruct hidden; [done|]. apply timersOk_checkBack. done.
  - unfold onBlur, exec. destruct (activeRule w); done.
  - apply timersOk_checkBack. done.
  - apply timersOk_silently. rewrite bossTick_exec.
    destruct (running (Boss w)) eqn:Hrun; [|done]. cbv zeta.
    assert (H1 : timersOk (setBoss (countdown (Boss w)) w))
      by (split; [apply timerOk_countdown|]; done).
    destruct (remainingMs (countdown (Boss w)) =? 0); [|done].
    rewrite bossVictory_exec. apply (timersOk_bossStop _ H1).
  - apply timersOk_silently. rewrite arenaTick_exec.
    destruct (running (Arena w)) eqn:Hrun; [|done]. cbv zeta.
    assert (H1 : timersOk (setArena (countdown (Arena w)) w))
      by (split; [|apply timerOk_countdown]; done).
    destruct (remainingMs (countdown (Arena w)) =? 0); [|done].
    rewrite arenaVictory_exec. apply (timersOk_arenaStop _ H1).
  - unfold silently, bossPreset, exec, bind, getBoss; cbn.
    destruct (running (Boss w)); cbn; [done|]. split; [by apply timerOk_setDuration|done].
  - unfold silently, arenaPreset, exec, bind, getArena; cbn.
    destruct (running (Arena w)); cbn; [done|]. split; [done|by apply timerOk_setDuration].
  - apply timersOk_silently. rewrite bossStart_exec. destruct (Str.trim task); done.
  - apply timersOk_silently, timersOk_bossStop. done.
  - unfold silently, arenaStart, exec, bind; cbn. done.
  - apply timersOk_silently, timersOk_arenaStop. done.
  - apply timersOk_silently, timersOk_keeps; [apply keeps_timers_join|done].
  - destruct b; [done|].
    apply timersOk_silently, timersOk_keeps; [apply keeps_timers_joinResume|done].
  - apply timersOk_silently, timersOk_keeps; [apply keeps_timers_complete|done].
  - apply timersOk_silently, timersOk_keeps; [apply keeps_timers_fail|done].
  - destruct b; [done|].
    apply timersOk_silently, timersOk_keeps; [apply keeps_timers_rendered|done].
  - destruct b; [done|].
    apply timersOk_silently, timersOk_keeps; [apply keeps_timers_rendered|done].
  - destruct b; [done|].
    apply timersOk_silently. rewrite arenaFailResume_exec. done.
Qed.

Lemma run_cons b c e es w :
  run b ((c, e) :: es) w =
  (eval (handle b c e) w ++ eval (run b es) (exec (handle b c e) w),
   exec (run b es) (exec (handle b c e) w))%list.
Proof.
  cbn [run]. unfold bind, eval, exec, ret.
  destruct (handle b c e w) as [f w1]. cbn. destruct (run b es w1) as [f' w2]. reflexivity.
Qed.

Lemma timersOk_run b es w :
  Forall (fun ce => presetOk ce.2) es -> timersOk w -> timersOk (exec (run b es) w).
Proof.
  revert w. induction es as [|[c e] es IH]; intros w Hes Hw; [done|].
  inversion Hes as [|? ? He Hes']; subst.
  unfold exec. rewrite run_cons. cbn [snd].
  apply IH; [done|]. apply timersOk_handle; done.
Qed.

Lemma timersOk_boot b c ls : timersOk (exec (boot b c) (loaded ls)).
Proof.
  unfold boot. rewrite !exec_bindA_lift.
  apply timersOk_keeps.
  - unfold renderHub. frame.
  - split; apply timerOk_setDuration; lia.
Qed.

(** C10.  From boot on, after every event the engine handles (duration
    presets, countdown ticks, leave and return events with the boss heal,
    starts, stops and the daily challenge's actions), both timers satisfy
    0 <= remainingMs <= totalMs, the preset durations being non-negative. *)
Theorem timers_invariant (b : Build) (ls : LocalStorage) (c0 : Clock)
    (es : list (Clock * Event)) :
  Forall (fun ce => presetOk ce.2) es ->
  timersOk (exec (run b es) (exec (boot b c0) (loaded ls))).
Proof. intros Hes. apply timersOk_run; [done|apply timersOk_boot]. Qed.

(** A one-minute boss fight: started, left for 20 s (the boss heals to the
    full minute), then ticked down past zero. *)
Lemma timers_invariant_witness :
  let es := [ (atUtc 1710054000000, BossPreset 1);
              (atUtc 1710054001000, BossStart "write the report");
              (atUtc 1710054002000, BossTick);
              (atUtc 1710054003000, VisibilityChange true);
              (atUtc 1710054023000, VisibilityChange false);
              (atUtc 1710054024000, BossTick) ] in
  Forall (fun ce => presetOk ce.2) es
  /\ timersOk (exec (run UtcBuild es) (exec (boot UtcBuild (atUtc 1710054000000))
                                            (loaded emptyStorage)))
  /\ remainingMs (Boss (exec (run UtcBuild es)
                          (exec (boot UtcBuild (atUtc 1710054000000))
                                (loaded emptyStorage)))) = 59000.
Proof.
  intros es.
  assert (Hes : Forall (fun ce => presetOk ce.2) es)
    by (repeat constructor; simpl; lia).
  split; [exact Hes|]. split.
  - exact (timers_invariant UtcBuild emptyStorage (atUtc 1710054000000) es Hes).
  - vm_compute. reflexivity.
Defined.

(** * The leave-rule monitor *)

(** A trigger leaves the rule in place or removes it. *)
Lemma keeps_rule_arenaFailResume b c : keeps activeRule (arenaFailResume b c).
Proof. unfold arenaFailResume. pose proof (keeps_rule_saveHistory b). frame. Qed.

Lemma failChallenge_rule b c w :
  activeRule (exec (failChallenge b c) w) = activeRule w
  \/ activeRule (exec (failChallenge b c) w) = None.
Proof.
  destruct b; [left; reflexivity|].
  destruct (currentObject UtcBuild c (todayJson w)) as [o|] eqn:Hcur.
  - destruct (fieldIs o "state" "in_progress") eqn:Hst.
    + right. unfold exec. rewrite (failChallenge_in_progress c w o Hcur Hst). reflexivity.
    + left. unfold exec. rewrite (failChallenge_idle c w o Hcur Hst). reflexivity.
  - left. unfold exec. rewrite (failChallenge_stale c w Hcur). reflexivity.
Qed.

Lemma arenaStop_rule w :
  activeRule (exec arenaStop w) = activeRule w \/ activeRule (exec arenaStop w) = None.
Proof. rewrite arenaStop_exec. destruct (running (Arena w)); auto. Qed.

Lemma bossStop_rule w :
  activeRule (exec bossStop w) = activeRule w \/ activeRule (exec bossStop w) = None.
Proof. rewrite bossStop_exec. destruct (running (Boss w)); auto. Qed.

Lemma arenaFail_rule b c w :
  activeRule (exec (arenaFail b c) w) = activeRule w
  \/ activeRule (exec (arenaFail b c) w) = None.
Proof.
  rewrite arenaFail_exec. destruct (running (Arena w)); [|auto].
  destruct b; [apply arenaStop_rule|].
  destruct (0 <? remainingMs (Arena w)); [apply arenaStop_rule|].
  rewrite arenaFailResume_exec. apply arenaStop_rule.
Qed.

Lemma onTrigger_rule b c ty ms w :
  activeRule (exec (onTrigger b c ty ms) w) = activeRule w
  \/ activeRule (exec (onTrigger b c ty ms) w) = None.
Proof.
  destruct ty; cbn [onTrigger].
  - apply failChallenge_rule.
  - left. reflexivity.
  - apply arenaFail_rule.
Qed.

Lemma cleared_onTrigger b c ty ms w :
  cleared w -> cleared (exec (onTrigger b c ty ms) w).
Proof.
  unfold cleared. destruct (onTrigger_rule b c ty ms w) as [-> | ->]; done.
Qed.

Lemma cleared_noAway w : cleared w -> noAway w.
Proof.
  unfold cleared, noAway, awayStartSet. destruct (activeRule w) as [r|]; [|done].
  by intros ->.
Qed.

(** The two return events run the return path. *)
Lemma handle_return b c e w : isReturn e = true -> handle b c e w = checkBack b c w.
Proof.
  destruct e as [[|]| | | | | | | | | | | | | | | | |]; try discriminate; intros _.
  - cbn [handle]. unfold onVisibilityChange, checkBack. destruct (activeRule w); reflexivity.
  - reflexivity.
Qed.

(** The return path over a recorded departure, in closed form. *)
Lemma return_exec b c e w r t0 :
  activeRule w = Some r -> awayStart r = Some t0 -> t0 <> 0 -> isReturn e = true ->
  handle b c e w
  = let w0 := setActiveRule (Some (setAwayStart None r)) w in
    if thresholdMs r <=? now c - t0
    then ([now c - t0], exec (onTrigger b c (type r) (now c - t0)) w0)
    else ([], w0).
Proof.
  intros Hr Ht0 Hnz He. rewrite (handle_return b c e w He).
  assert (Hset : awayStartSet r = true).
  { unfold awayStartSet. rewrite Ht0. apply negb_true_iff, Z.eqb_neq. exact Hnz. }
  unfold checkBack. rewrite Hr, Hset, Ht0. reflexivity.
Qed.

(** A return event with no timestamp recorded changes nothing and calls
    nothing. *)
Lemma return_noAway b c e w :
  isReturn e = true -> noAway w -> handle b c e w = ([], w).
Proof.
  unfold noAway. intros He Hw. rewrite (handle_return b c e w He).
  unfold checkBack. destruct (activeRule w) as [r|]; [|done]. by rewrite Hw.
Qed.

Lemma returns_noAway b es w :
  Forall (fun ce => isReturn ce.2 = true) es -> noAway w -> run b es w = ([], w).
Proof.
  induction es as [|[c e] es IH]; intros Hes Hw; [done|].
  inversion Hes as [|? ? He Hes']; subst. cbn [snd] in He.
  rewrite run_cons. unfold eval, exec. rewrite (return_noAway b c e w He Hw). cbn [fst snd].
  rewrite (IH Hes' Hw). reflexivity.
Qed.

(** The first return event after a departure. *)
Lemma return_away b c e w r t0 :
  activeRule w = Some r -> awayStart r = Some t0 -> t0 <> 0 -> isReturn e = true ->
  eval (handle b c e) w = (if thresholdMs r <=? now c - t0 then [now c - t0] else [])
  /\ cleared (exec (handle b c e) w).
Proof.
  intros Hr Ht0 Hnz He. unfold eval, exec.
  rewrite (return_exec b c e w r t0 Hr Ht0 Hnz He). cbv zeta.
  destruct (thresholdMs r <=? now c - t0); cbn [fst snd]; split; try done.
  apply cleared_onTrigger. unfold cleared. cbn. done.
Qed.

(** The blur handler keeps a recorded timestamp. *)
Lemma blur_keeps_first_departure c w r :
  activeRule w = Some r -> awayStartSet r = true ->
  activeRule (exec (onBlur c) w) = Some r.
Proof. intros Hr Hset. unfold onBlur, exec, blurRule. rewrite Hr, Hset. done. Qed.

(** The hide handler writes the timestamp whether or not one is recorded. *)
Lemma hide_overwrites b c w r :
  activeRule w = Some r ->
  activeRule (exec (onVisibilityChange b c true) w)
  = Some (setAwayStart (Some (now c)) r).
Proof. intros Hr. unfold onVisibilityChange, exec. rewrite Hr. reflexivity. Qed.

(** C3.  A rule with threshold T has recorded the departure instant t0
    (a timestamp the handlers read as set, that is, not 0).  On the return
    event (focus, or visibilitychange to visible) at instant now the
    timestamp is cleared, and then: if now - t0 < T the trigger is not
    called and nothing else changes; if now - t0 >= T the trigger is
    called, once, with that duration, and the state is the one that single
    call leaves.  Whatever return events follow call nothing and change
    nothing. *)
Theorem trigger_once_per_departure (b : Build) (c : Clock) (e : Event) (w : World)
    (r : LeaveRule) (t0 : Z) (later : list (Clock * Event)) :
  activeRule w = Some r -> awayStart r = Some t0 -> t0 <> 0 ->
  isReturn e = true ->
  Forall (fun ce => isReturn ce.2 = true) later ->
  let elapsed := now c - t0 in
  let w0 := setActiveRule (Some (setAwayStart None r)) w in
  (elapsed < thresholdMs r -> handle b c e w = ([], w0))
  /\ (thresholdMs r <= elapsed ->
      handle b c e w = ([elapsed], exec (onTrigger b c (type r) elapsed) w0))
  /\ run b ((c, e) :: later) w = handle b c e w
  /\ (forall r', activeRule (exec (handle b c e) w) = Some r' -> awayStart r' = None).
Proof.
  intros Hr Ht0 Hnz He Hlater elapsed w0.
  destruct (return_away b c e w r t0 Hr Ht0 Hnz He) as [_ Hno].
  pose proof (return_exec b c e w r t0 Hr Ht0 Hnz He) as E. cbv zeta in E.
  split; [|split; [|split]].
  - intros Hlt. rewrite E.
    destruct (Z.leb_spec (thresholdMs r) (now c - t0)); [lia|done].
  - intros Hge. rewrite E.
    destruct (Z.leb_spec (thresholdMs r) (now c - t0)); [done|lia].
  - rewrite run_cons.
    pose proof (returns_noAway b later _ Hlater (cleared_noAway _ Hno)) as Hl.
    unfold eval, exec in *. rewrite Hl. cbn [fst snd]. rewrite app_nil_r.
    destruct (handle b c e w). reflexivity.
  - intros r' Hr'. unfold cleared in Hno. rewrite Hr' in Hno. exact Hno.
Qed.

(** The tab of a running boss fight is hidden for 20 s; on return both
    visibilitychange and focus arrive, and focus arrives once more later. *)
Lemma trigger_once_per_departure_witness :
  let w := exec (handle UtcBuild (atUtc 1710054003000) (VisibilityChange true))
                bossFighting in
  let r := {| type := bossFight; thresholdMs := 15000; awayStart := Some 1710054003000 |} in
  let later := [ (atUtc 1710054023001, Focus); (atUtc 1710054060000, Focus) ] in
  activeRule w = Some r
  /\ eval (handle UtcBuild (atUtc 1710054023000) (VisibilityChange false)) w = [20000]
  /\ remainingMs (Boss (exec (handle UtcBuild (atUtc 1710054023000)
                                (VisibilityChange false)) w)) = 1500000
  /\ run UtcBuild ((atUtc 1710054023000, VisibilityChange false) :: later) w
     = handle UtcBuild (atUtc 1710054023000) (VisibilityChange false) w.
Proof.
  intros w r later.
  assert (Hr : activeRule w = Some r) by reflexivity.
  assert (Hl : Forall (fun ce => isReturn ce.2 = true) later)
    by (repeat constructor).
  pose proof (trigger_once_per_departure UtcBuild (atUtc 1710054023000)
                (VisibilityChange false) w r 1710054003000 later Hr eq_refl
                ltac:(discriminate) eq_refl Hl) as (_ & Hge & Hrun & _).
  specialize (Hge ltac:(simpl; lia)).
  split; [exact Hr|]. unfold eval, exec. rewrite Hge.
  split; [reflexivity|]. split; [reflexivity|]. rewrite Hrun. exact Hge.
Defined.

(** C4, at the input on which the code departs from it.  A boss fight is
    running.  The window loses focus at 1710054000000 and the blur handler
    records that instant; at 1710054014000 the tab is hidden and the hide
    handler overwrites the timestamp; the user is back at 1710054028000,
    28 s after leaving.  The duration is measured from the overwritten
    timestamp, 14 s, and the trigger is not called; measured from the
    first departure it would have been called with 28000.  Both builds
    do the same. *)
Theorem hide_restarts_away_timestamp :
  let w1 := exec (handle UtcBuild (atUtc 1710054000000) Blur) bossFighting in
  let w2 := exec (handle UtcBuild (atUtc 1710054014000) (VisibilityChange true)) w1 in
  (awayStart <$> activeRule w1) = Some (Some 1710054000000)
  /\ (awayStart <$> activeRule w2) = Some (Some 1710054014000)
  /\ eval (handle UtcBuild (atUtc 1710054028000) Focus) w2 = []
  /\ eval (handle UtcBuild (atUtc 1710054028000) Focus) w1 = [28000]
  /\ (awayStart <$> activeRule
        (exec (handle LocalBuild (atUtc 1710054014000) (VisibilityChange true))
              (exec (handle LocalBuild (atUtc 1710054000000) Blur) bossFighting)))
     = Some (Some 1710054014000).
Proof. vm_compute. repeat split; reflexivity. Qed.

(** C2.  When the return event of a departure of at least the threshold
    reaches a boss-fight rule, the remaining time becomes
    min (totalMs, remainingMs + floor (0.20 * totalMs)); the total, the
    running flag, the store and the arena are untouched and the rule stays
    active with its timestamp cleared: the session does not fail.  For a
    total of 1500000 ms, 100000 ms remaining become 400000 and 1450000
    become 1500000. *)
Theorem boss_heal_on_leave (b : Build) (c : Clock) (e : Event) (w : World)
    (r : LeaveRule) (t0 : Z) :
  activeRule w = Some r -> type r = bossFight ->
  awayStart r = Some t0 -> t0 <> 0 -> thresholdMs r <= now c - t0 ->
  isReturn e = true ->
  let w' := exec (handle b c e) w in
  remainingMs (Boss w')
    = Z.min (totalMs (Boss w))
            (remainingMs (Boss w) + Qfloor ((20 # 100) * inject_Z (totalMs (Boss w))))
  /\ totalMs (Boss w') = totalMs (Boss w)
  /\ running (Boss w') = running (Boss w)
  /\ activeRule w' = Some (setAwayStart None r)
  /\ localStorage w' = localStorage w
  /\ Arena w' = Arena w
  /\ remainingMs (bossHeal {| running := true; totalMs := 1500000;
                              remainingMs := 100000; selectedMin := 25 |}) = 400000
  /\ remainingMs (bossHeal {| running := true; totalMs := 1500000;
                              remainingMs := 1450000; selectedMin := 25 |}) = 1500000.
Proof.
  intros Hr Hty Ht0 Hnz Hge He w'.
  assert (Hset : awayStartSet r = true).
  { unfold awayStartSet. rewrite Ht0. apply negb_true_iff, Z.eqb_neq. exact Hnz. }
  assert (Hw' : w' = setBoss (bossHeal (Boss w))
                             (setActiveRule (Some (setAwayStart None r)) w)).
  { subst w'. unfold exec. rewrite (return_exec b c e w r t0 Hr Ht0 Hnz He). cbv zeta.
    destruct (Z.leb_spec (thresholdMs r) (now c - t0)); [|lia].
    rewrite Hty. reflexivity. }
  rewrite Hw'. rewrite <- healMs_floor. cbn. repeat split; reflexivity.
Qed.

(** A 25-minute fight with 100000 ms left; the tab was hidden for 20 s. *)
Lemma boss_heal_on_leave_witness :
  let r := {| type := bossFight; thresholdMs := 15000; awayStart := Some 1710054003000 |} in
  let w := setActiveRule (Some r)
             (setBoss {| running := true; totalMs := 1500000; remainingMs := 100000;
                         selectedMin := 25 |} (loaded emptyStorage)) in
  let w' := exec (handle UtcBuild (atUtc 1710054023000) Focus) w in
  activeRule w = Some r
  /\ remainingMs (Boss w') = 400000
  /\ running (Boss w') = true.
Proof.
  intros r w w'.
  pose proof (boss_heal_on_leave UtcBuild (atUtc 1710054023000) Focus w r 1710054003000
                eq_refl eq_refl eq_refl ltac:(discriminate) ltac:(simpl; lia) eq_refl)
    as (Hrem & _ & Hrun & _).
  split; [reflexivity|]. split.
  - subst w'. rewrite Hrem. vm_compute. reflexivity.
  - subst w'. rewrite Hrun. reflexivity.
Defined.

(** * The hash against its reference *)

Lemma ToUint32_ToInt32 x : JS.ToUint32 (JS.ToInt32 x) = JS.ToUint32 x.
Proof.
  unfold JS.ToUint32, JS.ToInt32, JS.two32, JS.two31.
  Z.to_euclidean_division_equations; lia.
Qed.

Lemma ToUint32_small x : 0 <= x < JS.two32 -> JS.ToUint32 x = x.
Proof. intros H. unfold JS.ToUint32. apply Z.mod_small, H. Qed.

Lemma ToUint32_lxor a b :
  JS.ToUint32 (Z.lxor a b) = Z.lxor (JS.ToUint32 a) (JS.ToUint32 b).
Proof.
  unfold JS.ToUint32. change JS.two32 with (2 ^ 32).
  rewrite <- !Z.land_ones by lia. apply Z.bits_inj'. intros n Hn.
  rewrite Z.lxor_spec, !Z.land_spec, Z.lxor_spec.
  destruct (Z.testbit (Z.ones 32) n); rewrite ?andb_true_r, ?andb_false_r; reflexivity.
Qed.

Lemma ToUint32_bxor a b :
  JS.ToUint32 (JS.bxor a b) = Z.lxor (JS.ToUint32 a) (JS.ToUint32 b).
Proof.
  unfold JS.bxor. rewrite ToUint32_ToInt32, ToUint32_lxor, !ToUint32_ToInt32. reflexivity.
Qed.

Lemma ToUint32_hash32_step h c :
  JS.ToUint32 (hash32_step h c)
  = (Z.lxor (JS.ToUint32 h) (JS.ToUint32 c) * 16777619) mod 2 ^ 32.
Proof.
  unfold hash32_step, JS.imul. rewrite ToUint32_ToInt32, ToUint32_bxor.
  rewrite (ToUint32_small 16777619) by (unfold JS.two32; lia). reflexivity.
Qed.

Lemma hash32_fold cs : forall h,
  Forall (fun c => 0 <= c < JS.two32) cs ->
  JS.ToUint32 (List.fold_left hash32_step cs h)
  = List.fold_left (fun h c => (Z.lxor h c * 16777619) mod 2 ^ 32) cs (JS.ToUint32 h).
Proof.
  induction cs as [|c cs IH]; intros h Hcs; [reflexivity|].
  inversion Hcs as [|? ? Hc Hcs']; subst. cbn [List.fold_left].
  rewrite IH by assumption. rewrite ToUint32_hash32_step, (ToUint32_small c) by assumption.
  reflexivity.
Qed.

Lemma charCode_range ch : 0 <= JS.charCode ch < 256.
Proof.
  unfold JS.charCode. pose proof (N_ascii_bounded ch). lia.
Qed.

Lemma charCodes_range s : Forall (fun c => 0 <= c < JS.two32) (JS.charCodes s).
Proof.
  unfold JS.charCodes. induction (list_ascii_of_string s) as [|ch l IH]; constructor.
  - pose proof (charCode_range ch). unfold JS.two32. lia.
  - exact IH.
Qed.

(** X3.  [hash32] computes FNV-1a: its signed 32-bit arithmetic ([^=],
    [Math.imul], the final [>>> 0]) gives, for every string, the value of
    the reference definition on unsigned words. *)
Theorem hash32_is_fnv1a (str : string) : hash32 str = fnv1a32 (JS.charCodes str).
Proof.
  unfold hash32, hash32_units, fnv1a32, JS.ushr.
  change (0 mod 32) with 0. rewrite Z.shiftr_0_r.
  rewrite hash32_fold by apply charCodes_range.
  reflexivity.
Qed.

(** * The selector's ranges *)

Lemma floorScaled_range k n :
  0 <= k < JS.two32 -> 0 < n -> 0 <= floorScaled k n <= n - 1.
Proof.
  intros Hk Hn. unfold floorScaled, JS.two32 in *.
  split; [apply Z.div_pos; nia|].
  assert (k * n / 4294967296 < n); [|lia].
  apply Z.div_lt_upper_bound; nia.
Qed.

(** X4.  The challenge of the day is always an entry of the catalog: the
    index lies in 0..11 whatever the build, the clock and the zone. *)
Theorem challenge_index_in_catalog (b : Build) (c : Clock) :
  0 <= getTodaysChallengeId b c < 12
  /\ exists title,
       List.nth_error DAILY_CHALLENGES (Z.to_nat (getTodaysChallengeId b c)) = Some title.
Proof.
  assert (H : 0 <= getTodaysChallengeId b c < 12).
  { unfold getTodaysChallengeId.
    pose proof (mulberry32_next_range (mulberry32 (todaySeed b c "challenge"))) as Hk.
    destruct (mulberry32_next _) as [a k]. cbn [snd] in Hk.
    change (Z.of_nat (List.length DAILY_CHALLENGES)) with 12.
    pose proof (floorScaled_range k 12 Hk ltac:(lia)). lia. }
  split; [exact H|].
  destruct (List.nth_error DAILY_CHALLENGES (Z.to_nat (getTodaysChallengeId b c)))
    as [title|] eqn:E; [eauto|].
  apply List.nth_error_None in E.
  change (List.length DAILY_CHALLENGES) with 12%nat in E. lia.
Qed.

(** X5.  The simulated crowd figures stay in their bands: the hub's number
    between 8000 and 33798, the arena's between 300 and 2118, for every
    day, zone and selected duration. *)
Theorem crowd_numbers_bounded (b : Build) (c : Clock) (selectedMin : Z) :
  8000 <= getTodaysCrowdNumber b c <= 33798
  /\ 300 <= renderArenaPeople b c selectedMin <= 2118.
Proof.
  split.
  - unfold getTodaysCrowdNumber.
    pose proof (mulberry32_next_range (mulberry32 (todaySeed b c "crowd"))) as H1.
    destruct (mulberry32_next _) as [a1 k1].
    pose proof (mulberry32_next_range a1) as H2.
    destruct (mulberry32_next a1) as [a2 k2]. cbn [snd] in H1, H2.
    pose proof (floorScaled_range k1 24000 H1 ltac:(lia)).
    pose proof (floorScaled_range k2 1800 H2 ltac:(lia)). lia.
  - unfold renderArenaPeople.
    pose proof (mulberry32_next_range
                  (mulberry32 (todaySeed b c (String.append "arena:" (Str.ofNumber selectedMin)))))
      as H1.
    destruct (mulberry32_next _) as [a1 k1].
    pose proof (mulberry32_next_range a1) as H2.
    destruct (mulberry32_next a1) as [a2 k2]. cbn [snd] in H1, H2.
    pose proof (floorScaled_range k1 1600 H1 ltac:(lia)).
    pose proof (floorScaled_range k2 220 H2 ltac:(lia)). lia.
Qed.

(** * Clock faces *)

(** X6.  Below 100 minutes the timer face is MM:SS, five characters, the
    seconds below 60; a negative remainder shows as 00:00. *)
Theorem msToClock_face (ms : Z) :
  ms < 6000000 ->
  let s := Z.max 0 (ms / 1000) in
  msToClock ms = String.append (fmt2 (s / 60)) (String ":" (fmt2 (s mod 60)))
  /\ 0 <= s mod 60 < 60
  /\ 60 * (s / 60) + s mod 60 = s
  /\ String.length (msToClock ms) = 5%nat
  /\ (ms < 1000 -> msToClock ms = "00:00").
Proof.
  intros Hms s.
  assert (Hs : 0 <= s < 6000) by (subst s; Z.to_euclidean_division_equations; lia).
  assert (Hrem : Z.rem s 60 = s mod 60) by (apply Z.rem_mod_nonneg; lia).
  assert (E : msToClock ms = String.append (fmt2 (s / 60)) (String ":" (fmt2 (s mod 60)))).
  { unfold msToClock. fold s. cbv zeta. rewrite Hrem.
    rewrite (pad2_fmt2 (s / 60)) by (Z.to_euclidean_division_equations; lia).
    rewrite (pad2_fmt2 (s mod 60)) by (Z.to_euclidean_division_equations; lia).
    reflexivity. }
  split; [exact E|]. split; [Z.to_euclidean_division_equations; lia|].
  split; [Z.to_euclidean_division_equations; lia|].
  split; [rewrite E; reflexivity|].
  intros Hlt. rewrite E.
  assert (s = 0) as -> by (subst s; Z.to_euclidean_division_equations; lia).
  reflexivity.
Qed.

Lemma msToClock_face_witness :
  59000 < 6000000 /\ msToClock 59000 = "00:59" /\ msToClock (-250) = "00:00".
Proof.
  split; [lia|]. split.
  - exact (proj1 (msToClock_face 59000 ltac:(lia))).
  - exact (proj2 (proj2 (proj2 (proj2 (msToClock_face (-250) ltac:(lia))))) ltac:(lia)).
Defined.

(** * The reset countdown *)

Section Midnight.
Import Date DateFacts.

Lemma nextUtcMidnight_day t : nextUtcMidnight t = (Day t + 1) * msPerDay.
Proof.
  unfold nextUtcMidnight, DateSetters.setUTCHours, DateSetters.setUTCDate,
    DateSetters.getUTCDate.
  assert (E : MakeDay (YearFromTime t) (MonthFromTime t) (DateFromTime t + 1) = Day t + 1).
  { rewrite <- (MakeDay_civil t). unfold MakeDay. lia. }
  rewrite E. unfold MakeDate, MakeTime, TimeWithinDay, Day, msPerDay.
  Z.to_euclidean_division_equations; lia.
Qed.

Lemma msToResetCountdown_face ms :
  ms < 360000000 ->
  let s := Z.max 0 (ms / 1000) in
  msToResetCountdown ms
  = String.append (fmt2 (s / 3600))
      (String ":" (String.append (fmt2 (s mod 3600 / 60)) (String ":" (fmt2 (s mod 60))))).
Proof.
  intros Hms s.
  assert (Hs : 0 <= s < 360000) by (subst s; Z.to_euclidean_division_equations; lia).
  unfold msToResetCountdown. fold s. cbv zeta.
  rewrite !Z.rem_mod_nonneg by lia.
  rewrite (pad2_fmt2 (s / 3600)) by (Z.to_euclidean_division_equations; lia).
  rewrite (pad2_fmt2 (s mod 3600 / 60)) by (Z.to_euclidean_division_equations; lia).
  rewrite (pad2_fmt2 (s mod 60)) by (Z.to_euclidean_division_equations; lia).
  reflexivity.
Qed.

End Midnight.

(** X7.  The countdown of the UTC build aims at the instant the day key
    changes: [nextUtcMidnight] is the first instant after now with another
    key, at most 24 hours ahead, so a callback that reads the clock once
    sees a positive remainder and shows it as HH:MM:SS. *)
Theorem utc_countdown_targets_rollover (tz : Date.TimeZone) (t : Z) :
  Date.fourDigitYear t -> Date.fourDigitYear (nextUtcMidnight t) ->
  let ms := resetCountdownMs UtcBuild tz t t in
  t < nextUtcMidnight t <= t + Date.msPerDay
  /\ (forall t', t <= t' < nextUtcMidnight t -> utcDayKey t' = utcDayKey t)
  /\ utcDayKey (nextUtcMidnight t) <> utcDayKey t
  /\ 0 < ms <= Date.msPerDay
  /\ String.length (msToResetCountdown ms) = 8%nat.
Proof.
  intros Ht Hn ms. subst ms. unfold resetCountdownMs.
  pose proof (nextUtcMidnight_day t) as E. rewrite E in *.
  assert (Hr : t < (Date.Day t + 1) * Date.msPerDay <= t + Date.msPerDay).
  { unfold Date.Day, Date.msPerDay. Z.to_euclidean_division_equations; lia. }
  split; [exact Hr|]. split; [|split; [|split]].
  - intros t' Ht'. apply utcDayKey_eq_iff; [|assumption|].
    + unfold Date.fourDigitYear in *. lia.
    + revert Ht'. unfold Date.Day, Date.msPerDay. Z.to_euclidean_division_equations; lia.
  - intros Heq. apply utcDayKey_eq_iff in Heq; [|assumption|assumption].
    revert Heq. unfold Date.Day, Date.msPerDay. Z.to_euclidean_division_equations; lia.
  - lia.
  - rewrite msToResetCountdown_face by (unfold Date.msPerDay in *; lia). reflexivity.
Qed.

Lemma utc_countdown_targets_rollover_witness :
  Date.fourDigitYear 1710054000123
  /\ Date.fourDigitYear (nextUtcMidnight 1710054000123)
  /\ nextUtcMidnight 1710054000123 = 1710115200000
  /\ utcDayKey (nextUtcMidnight 1710054000123) <> utcDayKey 1710054000123.
Proof.
  assert (H1 : Date.fourDigitYear 1710054000123) by (unfold Date.fourDigitYear; lia).
  assert (H2 : Date.fourDigitYear (nextUtcMidnight 1710054000123))
    by (vm_compute; split; [discriminate|reflexivity]).
  split; [exact H1|]. split; [exact H2|]. split; [vm_compute; reflexivity|].
  exact (proj1 (proj2 (proj2 (utc_countdown_targets_rollover Date.utcZone _ H1 H2)))).
Defined.

(** * The local build in a zone with one offset *)

Section FixedZone.
Import Date DateFacts.

Lemma year_fourDigit t : 0 <= YearFromTime t <= 9999 -> fourDigitYear t.
Proof.
  intros Hy. unfold YearFromTime in Hy.
  pose proof (YearFromDay_spec (Day t)) as Hd.
  pose proof (DayFromYear_mono 0 (YearFromDay (Day t)) ltac:(lia)) as H0.
  pose proof (DayFromYear_mono (YearFromDay (Day t) + 1) 10000 ltac:(lia)) as H1.
  change (DayFromYear 0) with (-719528) in H0.
  change (DayFromYear 10000) with 2932897 in H1.
  unfold fourDigitYear. revert Hd H0 H1. unfold Day, msPerDay.
  Z.to_euclidean_division_equations; lia.
Qed.

Lemma localDayKey_utcDayKey tz t :
  1000 <= getFullYear tz t <= 9999 -> localDayKey tz t = utcDayKey (LocalTime tz t).
Proof.
  intros Hy. rewrite localDayKey_isoDate by assumption.
  unfold getFullYear in Hy. rewrite utcDayKey_isoDate_year by lia. reflexivity.
Qed.

(** Parsing the key of a date with a midnight that names no zone gives the
    local midnight of the date. *)
Lemma parse_isoDate_local tz y m d :
  0 <= y <= 9999 -> 1 <= m <= 12 -> 1 <= d <= DaysInMonth y (m - 1) ->
  DateStr.parse tz (String.append (isoDate y m d) "T00:00:00")
  = Some (UTC tz (MakeDay y (m - 1) d * msPerDay)).
Proof.
  intros Hy Hm Hd.
  assert (Hd' : d <= 99).
  { destruct Hd as [_ Hd]. revert Hd. unfold DaysInMonth.
    destruct (isLeap _);
      assert (Hc : m = 1 \/ m = 2 \/ m = 3 \/ m = 4 \/ m = 5 \/ m = 6 \/ m = 7
                   \/ m = 8 \/ m = 9 \/ m = 10 \/ m = 11 \/ m = 12) by lia;
      repeat (destruct Hc as [->|Hc]; [simpl; lia|]); subst; simpl; lia. }
  unfold DateStr.parse, isoDate, fmt4, fmt2.
  cbv [String.append DateStr.parseDatePart].
  rewrite num4_fmt4, !num2_fmt2 by lia.
  cbv [DateStr.parseTimePart].
  change (DateStr.num2 "0" "0") with (Some 0).
  cbv iota beta.
  unfold DateStr.validFields.
  replace (1 <=? m) with true by (symmetry; apply Z.leb_le; lia).
  replace (m <=? 12) with true by (symmetry; apply Z.leb_le; lia).
  replace (1 <=? d) with true by (symmetry; apply Z.leb_le; lia).
  replace (d <=? DaysInMonth y (m - 1)) with true by (symmetry; apply Z.leb_le; lia).
  cbn [andb orb Z.leb Z.compare]. unfold MakeDate, MakeTime. f_equal. f_equal. lia.
Qed.

Variable c : Clock.
Variable off : Z.
Hypothesis Hzone : zone c = fixedZone off.

Lemma midnightOf_localDayKey t :
  1000 <= getFullYear (zone c) t <= 9999 ->
  midnightOf LocalBuild c (localDayKey (zone c) t) = Some (Day (t + off) * msPerDay - off).
Proof.
  intros Hy. unfold midnightOf. rewrite localDayKey_isoDate by assumption.
  unfold getFullYear, getMonth, getDate in *.
  pose proof (MonthFromTime_range (LocalTime (zone c) t)).
  pose proof (DateFromTime_range (LocalTime (zone c) t)) as Hd.
  rewrite parse_isoDate_local; try lia.
  - replace (MonthFromTime (LocalTime (zone c) t) + 1 - 1)
      with (MonthFromTime (LocalTime (zone c) t)) by lia.
    rewrite MakeDay_civil. rewrite Hzone. reflexivity.
  - replace (MonthFromTime (LocalTime (zone c) t) + 1 - 1)
      with (MonthFromTime (LocalTime (zone c) t)) by lia.
    exact Hd.
Qed.

Lemma diffDays_local t1 t2 :
  1000 <= getFullYear (zone c) t1 <= 9999 -> 1000 <= getFullYear (zone c) t2 <= 9999 ->
  diffDays LocalBuild c (localDayKey (zone c) t1) (localDayKey (zone c) t2)
  = Some (Day (t2 + off) - Day (t1 + off)).
Proof.
  intros H1 H2. unfold diffDays. rewrite !midnightOf_localDayKey by assumption.
  f_equal. unfold msPerDay. Z.to_euclidean_division_equations; lia.
Qed.

Lemma localDayKey_eq_iff t1 t2 :
  1000 <= getFullYear (zone c) t1 <= 9999 -> 1000 <= getFullYear (zone c) t2 <= 9999 ->
  localDayKey (zone c) t1 = localDayKey (zone c) t2 <-> Day (t1 + off) = Day (t2 + off).
Proof.
  intros H1 H2. rewrite !localDayKey_utcDayKey by assumption.
  unfold getFullYear in *.
  rewrite utcDayKey_eq_iff by (apply year_fourDigit; lia).
  rewrite Hzone. reflexivity.
Qed.

Lemma localDayKey_nonempty t :
  1000 <= getFullYear (zone c) t <= 9999 -> Str.truthy (Some (localDayKey (zone c) t)) = true.
Proof. intros Ht. rewrite localDayKey_isoDate by assumption. reflexivity. Qed.

Lemma nextLocalMidnight_day t :
  nextLocalMidnight (zone c) t = (Day (t + off) + 1) * msPerDay - off.
Proof.
  unfold nextLocalMidnight, DateSetters.setHours. rewrite Hzone.
  unfold UTC, LocalTime, MakeDate, MakeTime, msPerDay. cbn [LocalTZA fixedZone]. lia.
Qed.

End FixedZone.

(** X9.  In a zone that keeps one offset all year the local build's
    boot-time reconciliation zeroes the count exactly when the last
    completed day lies two or more local days back. *)
Theorem local_reconcile_without_dst (c : Clock) (off : Z) (w : World) :
  zone c = Date.fixedZone off ->
  1000 <= Date.getFullYear (zone c) (now c) <= 9999 ->
  let w' := exec (reconcileStreakForNewDay LocalBuild c) w in
  (yve_streak_last_day (localStorage w) = None -> w' = w)
  /\ (forall tl, 1000 <= Date.getFullYear (zone c) tl <= 9999 ->
        yve_streak_last_day (localStorage w) = Some (localDayKey (zone c) tl) ->
        if 2 <=? Date.Day (now c + off) - Date.Day (tl + off)
        then eval getStreak w' = 0
             /\ yve_streak_last_day (localStorage w') = yve_streak_last_day (localStorage w)
        else w' = w).
Proof.
  intros Hzone Hnow w'. subst w'. rewrite reconcile_unfold. cbn [dayKey]. split.
  - intros ->. reflexivity.
  - intros tl Htl Hlast. rewrite Hlast. rewrite localDayKey_nonempty by assumption.
    cbn [negb default from_option]. unfold id.
    rewrite (diffDays_local c off Hzone) by assumption.
    destruct (2 <=? Date.Day (now c + off) - Date.Day (tl + off)); [|reflexivity].
    split; [|exact Hlast].
    apply getStreak_stored; [reflexivity|lia].
Qed.

Lemma local_reconcile_without_dst_witness :
  let c := inTokyo 1710054001000 in
  let w := loaded (streakStore "5" "2024-03-07" None) in
  zone c = Date.fixedZone 32400000
  /\ 1000 <= Date.getFullYear (zone c) (now c) <= 9999
  /\ eval getStreak (exec (reconcileStreakForNewDay LocalBuild c) w) = 0.
Proof.
  intros c w.
  assert (Hzone : zone c = Date.fixedZone 32400000) by reflexivity.
  assert (Hnow : 1000 <= Date.getFullYear (zone c) (now c) <= 9999)
    by (vm_compute; split; discriminate).
  split; [exact Hzone|]. split; [exact Hnow|].
  destruct (local_reconcile_without_dst c 32400000 w Hzone Hnow) as (_ & H).
  specialize (H 1709800000000 ltac:(vm_compute; split; discriminate)
                ltac:(vm_compute; reflexivity)).
  change (2 <=? Date.Day (now c + 32400000) - Date.Day (1709800000000 + 32400000))
    with true in H.
  exact (proj1 H).
Defined.

(** X10.  In a zone that keeps one offset all year the countdown of the
    local build aims at the instant the local day key changes:
    [nextLocalMidnight] is the first instant after now with another key,
    at most 24 hours ahead. *)
Theorem local_countdown_targets_rollover (c : Clock) (off : Z) :
  zone c = Date.fixedZone off ->
  1000 <= Date.getFullYear (zone c) (now c) <= 9999 ->
  1000 <= Date.getFullYear (zone c) (nextLocalMidnight (zone c) (now c)) <= 9999 ->
  let next := nextLocalMidnight (zone c) (now c) in
  now c < next <= now c + Date.msPerDay
  /\ (forall t', now c <= t' < next -> localDayKey (zone c) t' = dayKey LocalBuild c)
  /\ localDayKey (zone c) next <> dayKey LocalBuild c
  /\ 0 < resetCountdownMs LocalBuild (zone c) (now c) (now c) <= Date.msPerDay.
Proof.
  intros Hzone Hnow Hnext next. subst next. unfold resetCountdownMs. cbn [dayKey].
  pose proof (nextLocalMidnight_day c off Hzone (now c)) as E. rewrite E in *.
  assert (Hr : now c < (Date.Day (now c + off) + 1) * Date.msPerDay - off
               <= now c + Date.msPerDay).
  { unfold Date.Day, Date.msPerDay. Z.to_euclidean_division_equations; lia. }
  split; [exact Hr|]. split; [|split].
  - intros t' Ht'.
    assert (Hd : Date.Day (t' + off) = Date.Day (now c + off)).
    { revert Ht'. unfold Date.Day, Date.msPerDay. Z.to_euclidean_division_equations; lia. }
    rewrite (localDayKey_isoDate _ (now c)) by assumption.
    unfold localDayKey, Date.getFullYear, Date.getMonth, Date.getDate in *.
    rewrite Hzone in *. unfold Date.LocalTime in *. cbn [Date.LocalTZA Date.fixedZone] in *.
    unfold Date.DateFromTime, Date.MonthFromTime, Date.InLeapYear, Date.DayWithinYear,
      Date.YearFromTime in *.
    rewrite Hd.
    fold (Date.YearFromTime (now c + off)). fold (Date.InLeapYear (now c + off)).
    fold (Date.DayWithinYear (now c + off)). fold (Date.MonthFromTime (now c + off)).
    fold (Date.DateFromTime (now c + off)).
    pose proof (DateFacts.MonthFromTime_range (now c + off)).
    pose proof (DateFacts.DateFromTime_le_31 (now c + off)).
    unfold Date.YearFromTime in *.
    rewrite ofNumber_fmt4 by lia.
    rewrite (pad2_fmt2 (Date.MonthFromTime _ + 1)) by lia.
    rewrite (pad2_fmt2 (Date.DateFromTime _)) by lia.
    reflexivity.
  - intros Heq. apply (localDayKey_eq_iff c off Hzone) in Heq; [|assumption|assumption].
    revert Heq. unfold Date.Day, Date.msPerDay. Z.to_euclidean_division_equations; lia.
  - lia.
Qed.

Lemma local_countdown_targets_rollover_witness :
  let c := inTokyo 1710054000123 in
  zone c = Date.fixedZone 32400000
  /\ 1000 <= Date.getFullYear (zone c) (now c) <= 9999
  /\ 1000 <= Date.getFullYear (zone c) (nextLocalMidnight (zone c) (now c)) <= 9999
  /\ nextLocalMidnight (zone c) (now c) = 1710082800000
  /\ localDayKey (zone c) (nextLocalMidnight (zone c) (now c)) <> dayKey LocalBuild c.
Proof.
  intros c.
  assert (Hzone : zone c = Date.fixedZone 32400000) by reflexivity.
  assert (Hnow : 1000 <= Date.getFullYear (zone c) (now c) <= 9999)
    by (vm_compute; split; discriminate).
  assert (Hnext : 1000 <= Date.getFullYear (zone c) (nextLocalMidnight (zone c) (now c)) <= 9999)
    by (vm_compute; split; discriminate).
  split; [exact Hzone|]. split; [exact Hnow|]. split; [exact Hnext|].
  split; [vm_compute; reflexivity|].
  exact (proj1 (proj2 (proj2 (local_countdown_targets_rollover c 32400000 Hzone Hnow Hnext)))).
Defined.

(** * Escaping *)

Lemma append_cons a (x y : string) :
  String.append (String a x) y = String a (String.append x y).
Proof. reflexivity. Qed.

Lemma append_assoc (x y z : string) :
  String.append (String.append x y) z = String.append x (String.append y z).
Proof.
  induction x as [|a x IH]; [reflexivity|]. rewrite !append_cons, IH. reflexivity.
Qed.

Lemma replaceAll_app c r x y :
  replaceAll c r (String.append x y) = String.append (replaceAll c r x) (replaceAll c r y).
Proof.
  induction x as [|a x IH]; [reflexivity|].
  rewrite append_cons. cbn [replaceAll]. rewrite IH.
  destruct (Ascii.eqb a c); [rewrite append_assoc|]; reflexivity.
Qed.

Lemma replaceAll_cons c r a s :
  replaceAll c r (String a s)
  = String.append (if Ascii.eqb a c then r else String a EmptyString) (replaceAll c r s).
Proof. cbn [replaceAll]. destruct (Ascii.eqb a c); reflexivity. Qed.

Lemma escapeHTML_cons a s :
  escapeHTML (String a s) = String.append (escapeChar a) (escapeHTML s).
Proof.
  unfold escapeHTML, escapeChar.
  rewrite (replaceAll_cons "&"), !replaceAll_app.
  destruct (Ascii.eqb_spec a "&") as [->|Hamp]; [reflexivity|].
  rewrite (replaceAll_cons "<" _ a "").
  destruct (Ascii.eqb_spec a "<") as [->|Hlt]; [reflexivity|].
  cbn [replaceAll String.append]. rewrite (replaceAll_cons ">" _ a "").
  destruct (Ascii.eqb_spec a ">") as [->|Hgt]; [reflexivity|].
  cbn [replaceAll String.append]. rewrite (replaceAll_cons quoteChar _ a "").
  destruct (Ascii.eqb_spec a quoteChar) as [->|Hq]; [reflexivity|].
  cbn [replaceAll String.append]. rewrite (replaceAll_cons "'" _ a "").
  destruct (Ascii.eqb_spec a "'") as [->|Hap]; reflexivity.
Qed.

(** The chain of five replacements is one pass over the string. *)
Lemma escapeHTML_each s : escapeHTML s = escapeEach s.
Proof.
  induction s as [|a s IH]; [reflexivity|].
  rewrite escapeHTML_cons, IH. reflexivity.
Qed.

Lemma occurs_app c x y : occurs c (String.append x y) = occurs c x || occurs c y.
Proof.
  induction x as [|a x IH]; [reflexivity|].
  rewrite append_cons. cbn [occurs]. rewrite IH. apply orb_assoc.
Qed.

Lemma escapeChar_safe a :
  occurs "<" (escapeChar a) = false /\ occurs ">" (escapeChar a) = false
  /\ occurs quoteChar (escapeChar a) = false /\ occurs "'" (escapeChar a) = false.
Proof.
  unfold escapeChar.
  destruct (Ascii.eqb a "&"); [repeat split; reflexivity|].
  destruct (Ascii.eqb a "<") eqn:Hlt; [repeat split; reflexivity|].
  destruct (Ascii.eqb a ">") eqn:Hgt; [repeat split; reflexivity|].
  destruct (Ascii.eqb a quoteChar) eqn:Hq; [repeat split; reflexivity|].
  destruct (Ascii.eqb a "'") eqn:Hap; [repeat split; reflexivity|].
  cbn [occurs]. rewrite Hlt, Hgt, Hq, Hap. repeat split; reflexivity.
Qed.

(** X11.  Escaped text cannot open a tag or close an attribute: whatever
    the input, the output holds none of the characters [<], [>], the double
    quote and the apostrophe, and a text without the five special
    characters is returned as it is. *)
Theorem escapeHTML_safe (str : string) :
  occurs "<" (escapeHTML str) = false
  /\ occurs ">" (escapeHTML str) = false
  /\ occurs quoteChar (escapeHTML str) = false
  /\ occurs "'" (escapeHTML str) = false
  /\ (occurs "&" str || occurs "<" str || occurs ">" str || occurs quoteChar str
      || occurs "'" str = false -> escapeHTML str = str).
Proof.
  rewrite escapeHTML_each.
  induction str as [|a s IH]; [repeat split; reflexivity|].
  destruct IH as (H1 & H2 & H3 & H4 & H5).
  destruct (escapeChar_safe a) as (C1 & C2 & C3 & C4).
  cbn [escapeEach]. rewrite !occurs_app, H1, H2, H3, H4, C1, C2, C3, C4.
  repeat (split; [reflexivity|]).
  cbn [occurs]. intros H.
  unfold escapeChar.
  destruct (Ascii.eqb a "&"); [discriminate H|].
  destruct (Ascii.eqb a "<"); [rewrite !orb_true_r in H; discriminate H|].
  destruct (Ascii.eqb a ">"); [rewrite !orb_true_r in H; discriminate H|].
  destruct (Ascii.eqb a quoteChar); [rewrite !orb_true_r in H; discriminate H|].
  destruct (Ascii.eqb a "'"); [rewrite !orb_true_r in H; discriminate H|].
  cbn [String.append]. f_equal. apply H5. exact H.
Qed.

Lemma escapeHTML_safe_witness :
  occurs "&" "25 min" || occurs "<" "25 min" || occurs ">" "25 min"
    || occurs quoteChar "25 min" || occurs "'" "25 min" = false
  /\ escapeHTML "25 min" = "25 min"
  /\ escapeHTML "<b>Tom & Jerry's</b>" = "&lt;b&gt;Tom &amp; Jerry&#039;s&lt;/b&gt;".
Proof.
  split; [reflexivity|]. split.
  - exact (proj2 (proj2 (proj2 (proj2 (escapeHTML_safe "25 min")))) eq_refl).
  - reflexivity.
Defined.

Lemma escapeChar_nonempty a : escapeChar a <> EmptyString.
Proof.
  unfold escapeChar.
  repeat match goal with |- context [if ?t then _ else _] => destruct t end; discriminate.
Qed.

Lemma escapeEach_inj s1 : forall s2, escapeEach s1 = escapeEach s2 -> s1 = s2.
Proof.
  induction s1 as [|a1 r1 IH]; intros [|a2 r2] H.
  - reflexivity.
  - exfalso. cbn [escapeEach] in H. pose proof (escapeChar_nonempty a2) as Hn.
    destruct (escapeChar a2); [congruence|discriminate H].
  - exfalso. cbn [escapeEach] in H. pose proof (escapeChar_nonempty a1) as Hn.
    destruct (escapeChar a1); [congruence|discriminate H].
  - cbn [escapeEach] in H. unfold escapeChar in H.
    destruct (Ascii.eqb_spec a1 "&"); destruct (Ascii.eqb_spec a2 "&");
    destruct (Ascii.eqb_spec a1 "<"); destruct (Ascii.eqb_spec a2 "<");
    destruct (Ascii.eqb_spec a1 ">"); destruct (Ascii.eqb_spec a2 ">");
    destruct (Ascii.eqb_spec a1 quoteChar); destruct (Ascii.eqb_spec a2 quoteChar);
    destruct (Ascii.eqb_spec a1 "'"); destruct (Ascii.eqb_spec a2 "'");
    subst; try discriminate; cbv [String.append] in H;
    try congruence; injection H as H; try congruence;
    f_equal; try congruence; apply IH; congruence.
Qed.

(** X12.  Escaping loses nothing: two texts with the same escaped form are
    the same text. *)
Theorem escapeHTML_injective (s1 s2 : string) :
  escapeHTML s1 = escapeHTML s2 -> s1 = s2.
Proof. rewrite !escapeHTML_each. apply escapeEach_inj. Qed.

Lemma escapeHTML_injective_witness :
  escapeHTML "a<b" = escapeHTML (String.append "a" "<b") /\ "a<b" = String.append "a" "<b".
Proof.
  split; [reflexivity|]. exact (escapeHTML_injective "a<b" (String.append "a" "<b") eq_refl).
Defined.

(** * Badges and history lists *)

Lemma getArenaBadges_set n : getArenaBadges (setArenaBadges n) = Z.max 0 n.
Proof.
  unfold getArenaBadges, setArenaBadges. rewrite ofNumber_truthy. cbn [default from_option].
  unfold id. rewrite parseInt_ofNumber by lia. reflexivity.
Qed.

Lemma arenaVictories_count item k :
  0 <= getArenaBadges item ->
  getArenaBadges (arenaVictories k item) = getArenaBadges item + Z.of_nat k.
Proof.
  intros H0. induction k as [|k IH]; [cbn [arenaVictories]; lia|].
  cbn [arenaVictories arenaVictoryBadges fst]. rewrite getArenaBadges_set, IH. lia.
Qed.

(** X13.  Each cleared arena session adds one to the stored badge count,
    and the "Badge earned" toast comes with every third: after [k]
    victories over a count [n] that is not negative, with [n + k] below
    2^53 (where the script's additions and the decimal text of the count
    are exact), the store reads [n + k], the progress shown is
    [(n + k) mod 3], and the next victory earns a badge exactly when
    [n + k + 1] is a multiple of 3.  A missing item counts as 0. *)
Theorem arena_badges_every_third (item : option string) (k : nat) :
  0 <= getArenaBadges item ->
  JS.safeInteger (getArenaBadges item + Z.of_nat k) ->
  let n := getArenaBadges item in
  let after := arenaVictories k item in
  getArenaBadges after = n + Z.of_nat k
  /\ renderArenaBadges after = (n + Z.of_nat k) mod 3
  /\ snd (arenaVictoryBadges after) = ((n + Z.of_nat k + 1) mod 3 =? 0)
  /\ getArenaBadges None = 0.
Proof.
  intros H0 _ n after. subst n after.
  pose proof (arenaVictories_count item k H0) as E.
  split; [exact E|]. split; [|split; [|reflexivity]].
  - unfold renderArenaBadges. rewrite E. apply Z.rem_mod_nonneg; lia.
  - cbn [arenaVictoryBadges snd]. rewrite E. rewrite Z.rem_mod_nonneg by lia. reflexivity.
Qed.

Lemma arena_badges_every_third_witness :
  0 <= getArenaBadges None
  /\ JS.safeInteger (getArenaBadges None + Z.of_nat 2)
  /\ getArenaBadges (arenaVictories 2 None) = 2
  /\ renderArenaBadges (arenaVictories 2 None) = 2
  /\ snd (arenaVictoryBadges (arenaVictories 2 None)) = true.
Proof.
  assert (H0 : 0 <= getArenaBadges None) by (vm_compute; discriminate).
  assert (H2 : JS.safeInteger (getArenaBadges None + Z.of_nat 2))
    by (vm_compute; split; reflexivity).
  split; [exact H0|]. split; [exact H2|].
  destruct (arena_badges_every_third None 2 H0 H2) as (Ha & Hb & Hc & _).
  split; [exact Ha|]. split; [exact Hb|exact Hc].
Defined.

Lemma firstn_cons_firstn {A} (limit : nat) (e : A) (l : list A) :
  List.firstn limit (e :: List.firstn limit l) = List.firstn limit (e :: l).
Proof.
  destruct limit as [|n]; [reflexivity|]. cbn [List.firstn]. f_equal.
  rewrite List.firstn_firstn. f_equal. lia.
Qed.

Lemma recordAll_array {A} (limit : nat) (es : list A) : forall (e : A) (l : list A),
  recordAll limit es (HistoryArray (List.firstn limit (e :: l)))
  = Some (HistoryArray (List.firstn limit (List.rev es ++ e :: l)))%list.
Proof.
  induction es as [|e' es IH]; intros e l; [reflexivity|].
  cbn [recordAll recordHistory]. rewrite firstn_cons_firstn, IH.
  cbn [List.rev]. rewrite <- List.app_assoc. reflexivity.
Qed.

(** X14.  A history list keeps the newest entries, newest first: after any
    run of recordings over a stored array (or over nothing) the store holds
    the first [limit] entries of the new ones, latest first, followed by
    the old; the page lists the first ten of them.  Over a stored value
    that is not an array the handler throws and saves nothing. *)
Theorem history_keeps_newest {A} (limit : nat) (e : A) (es : list A) (item : HistoryItem A) :
  (10 <= limit)%nat ->
  match item with
  | NotAnArray => recordAll limit (e :: es) item = None
  | _ =>
      let newest := (List.rev (e :: es) ++ historyContents item)%list in
      recordAll limit (e :: es) item = Some (HistoryArray (List.firstn limit newest))
      /\ (List.length (List.firstn limit newest) <= limit)%nat
      /\ shownHistory (List.firstn limit newest) = List.firstn 10 newest
  end.
Proof.
  intros Hlimit.
  assert (Hgen : forall l : list A,
             let newest := (List.rev (e :: es) ++ l)%list in
             recordAll limit es (HistoryArray (List.firstn limit (e :: l)))
             = Some (HistoryArray (List.firstn limit newest))
             /\ (List.length (List.firstn limit newest) <= limit)%nat
             /\ shownHistory (List.firstn limit newest) = List.firstn 10 newest).
  { intros l newest. subst newest. split; [|split].
    - rewrite recordAll_array. cbn [List.rev]. rewrite <- List.app_assoc. reflexivity.
    - apply List.firstn_le_length.
    - unfold shownHistory. rewrite List.firstn_firstn. f_equal. lia. }
  destruct item as [|l|]; [exact (Hgen [])|exact (Hgen l)|reflexivity].
Qed.

Lemma history_keeps_newest_witness :
  (10 <= bossHistoryLimit)%nat
  /\ recordAll bossHistoryLimit [1; 2; 3] NoHistory = Some (HistoryArray [3; 2; 1])
  /\ recordAll arenaHistoryLimit [7] (NotAnArray : HistoryItem Z) = None.
Proof.
  assert (H : (10 <= bossHistoryLimit)%nat) by (unfold bossHistoryLimit; lia).
  split; [exact H|]. split.
  - exact (proj1 (history_keeps_newest bossHistoryLimit 1 [2; 3] NoHistory H)).
  - exact (history_keeps_newest arenaHistoryLimit 7 [] NotAnArray
             ltac:(unfold arenaHistoryLimit; lia)).
Defined.

(** * The life of a daily run *)

Section RunFacts.
Variable c : Clock.

Lemma todayObject_dayKey b w :
  todayObject b c w !! "dayKey" = Some (VStr (dayKey b c)).
Proof.
  unfold todayObject.
  destruct (currentObject b c (todayJson w)) as [o|] eqn:Hcur; cbn.
  - apply (currentObject_dayKey b c _ _ Hcur).
  - apply freshState_dayKey.
Qed.

Lemma setTodayChallengeState_exec patch w :
  setTodayChallengeState UtcBuild c patch w
  = (Returns (patch ∪ todayObject UtcBuild c w),
     withTodayState (patch ∪ todayObject UtcBuild c w) w).
Proof.
  unfold todayObject.
  destruct (currentObject UtcBuild c (todayJson w)) as [o|] eqn:Hcur; cbn [default].
  - apply setTodayChallengeState_current, Hcur.
  - unfold setTodayChallengeState.
    rewrite (bindA_returns _ _ _ _ _ (getTodayChallengeState_stale c w Hcur)). reflexivity.
Qed.

Lemma joinPatch_lookup b cur :
  cur !! "dayKey" = Some (VStr (dayKey b c)) ->
  (joinPatch b c ∪ cur) !! "dayKey" = Some (VStr (dayKey b c))
  /\ (joinPatch b c ∪ cur) !! "state" = Some (VStr "in_progress")
  /\ (joinPatch b c ∪ cur) !! "startedAt" = Some (VNum (now c))
  /\ (joinPatch b c ∪ cur) !! "resultAt" = Some VNull
  /\ (joinPatch b c ∪ cur) !! "challengeId" = Some (VNum (getTodaysChallengeId b c)).
Proof.
  intros Hd. split.
  - rewrite lookup_union_r; [exact Hd|]. unfold joinPatch. by simplify_map_eq.
  - repeat split; (erewrite lookup_union_Some_l; [reflexivity|]);
      unfold joinPatch; by simplify_map_eq.
Qed.

Lemma joinChallengeConfirm_exec w :
  joinChallengeConfirm UtcBuild c w
  = (Returns tt, withTodayState (joinPatch UtcBuild c ∪ todayObject UtcBuild c w) w).
Proof.
  unfold joinChallengeConfirm.
  rewrite (bindA_returns _ _ _ _ _ (setTodayChallengeState_exec (joinPatch UtcBuild c) w)).
  reflexivity.
Qed.

Lemma joinChallengeConfirm_in_progress w :
  inProgressToday UtcBuild c (exec (joinChallengeConfirm UtcBuild c) w).
Proof.
  unfold exec. rewrite joinChallengeConfirm_exec. cbn [snd].
  destruct (joinPatch_lookup UtcBuild _ (todayObject_dayKey UtcBuild w)) as (H1 & H2 & _).
  exists (joinPatch UtcBuild c ∪ todayObject UtcBuild c w). done.
Qed.

Lemma inProgressToday_clock b c' w :
  dayKey b c' = dayKey b c -> inProgressToday b c w -> inProgressToday b c' w.
Proof. intros Hk (o & H1 & H2 & H3). exists o. rewrite Hk. done. Qed.


End RunFacts.



Lemma completeChallenge_last_day c w :
  inProgressToday UtcBuild c w ->
  yve_streak_last_day (localStorage (exec (completeChallenge UtcBuild c) w))
  = Some (dayKey UtcBuild c).
Proof.
  intros Hrun. destruct (inProgressToday_current _ _ _ Hrun) as (o & Hcur & Hst).
  pose proof (completeChallenge_in_progress c w o Hcur Hst) as E.
  cbv zeta in E. unfold exec. rewrite E. cbn [snd].
  case_bool_decide as Hl; cbn; [exact Hl|reflexivity].
Qed.

Lemma completeChallenge_same_day c w :
  inProgressToday UtcBuild c w ->
  yve_streak_last_day (localStorage w) = Some (dayKey UtcBuild c) ->
  yve_streak (localStorage (exec (completeChallenge UtcBuild c) w))
  = yve_streak (localStorage w).
Proof.
  intros Hrun Hlast. destruct (inProgressToday_current _ _ _ Hrun) as (o & Hcur & Hst).
  pose proof (completeChallenge_in_progress c w o Hcur Hst) as E.
  cbv zeta in E. unfold exec. rewrite E. cbn [snd].
  rewrite bool_decide_eq_true_2 by exact Hlast. reflexivity.
Qed.

(** X16.  In the UTC build the streak grows at most once per day key.
    Joining again after a completion and completing again on the same day
    key (the join handler has no guard of its own) leaves the count and the
    last completed day as the first completion set them; the record is
    completed again, with the later result time. *)
Theorem streak_once_per_day (c c1 c2 : Clock) (w : World) :
  inProgressToday UtcBuild c w ->
  dayKey UtcBuild c1 = dayKey UtcBuild c -> dayKey UtcBuild c2 = dayKey UtcBuild c ->
  let w1 := exec (completeChallenge UtcBuild c) w in
  let w2 := exec (joinChallengeConfirm UtcBuild c1) w1 in
  let w3 := exec (completeChallenge UtcBuild c2) w2 in
  inProgressToday UtcBuild c2 w2
  /\ yve_streak (localStorage w3) = yve_streak (localStorage w1)
  /\ yve_streak_last_day (localStorage w3) = yve_streak_last_day (localStorage w1)
  /\ storedRecord w3 [ ("state", VStr "completed"); ("resultAt", VNum (now c2)) ].
Proof.
  intros Hrun Hk1 Hk2 w1 w2 w3.
  assert (Hlast1 : yve_streak_last_day (localStorage w1) = Some (dayKey UtcBuild c))
    by apply completeChallenge_last_day, Hrun.
  pose proof (joinChallengeConfirm_in_progress c1 w1) as Hrun2.
  assert (Hs2 : yve_streak (localStorage w2) = yve_streak (localStorage w1))
    by (subst w2; unfold exec; rewrite joinChallengeConfirm_exec; reflexivity).
  assert (Hl2 : yve_streak_last_day (localStorage w2) = yve_streak_last_day (localStorage w1))
    by (subst w2; unfold exec; rewrite joinChallengeConfirm_exec; reflexivity).
  fold w2 in Hrun2.
  assert (Hrun2' : inProgressToday UtcBuild c2 w2).
  { apply (inProgressToday_clock c1); [congruence|exact Hrun2]. }
  assert (Hlast2 : yve_streak_last_day (localStorage w2) = Some (dayKey UtcBuild c2))
    by congruence.
  split; [exact Hrun2'|]. split; [|split].
  - subst w3. rewrite completeChallenge_same_day by assumption. exact Hs2.
  - subst w3. rewrite completeChallenge_last_day by assumption. congruence.
  - destruct (inProgressToday_current _ _ _ Hrun2') as (o & Hcur & Hst).
    pose proof (completeChallenge_in_progress c2 w2 o Hcur Hst) as E.
    cbv zeta in E. subst w3. unfold exec at 1. rewrite E. cbn [snd].
    exists (completedPatch c2 ∪ o). split.
    + case_bool_decide; reflexivity.
    + repeat constructor; cbn [fst snd];
        (erewrite lookup_union_Some_l; [reflexivity|]); unfold completedPatch;
        by simplify_map_eq.
Qed.

Lemma streak_once_per_day_witness :
  let w := loaded (streakStore "5" "2024-03-09"
                     (Some (Parses (JObj (runningSince "2024-03-10" 1710054000123))))) in
  let c := atUtc 1710054001000 in
  let c1 := atUtc 1710054002000 in
  let c2 := atUtc 1710054003000 in
  inProgressToday UtcBuild c w
  /\ dayKey UtcBuild c1 = dayKey UtcBuild c /\ dayKey UtcBuild c2 = dayKey UtcBuild c
  /\ yve_streak (localStorage (exec (completeChallenge UtcBuild c) w)) = Some "6"
  /\ yve_streak (localStorage
        (exec (completeChallenge UtcBuild c2)
           (exec (joinChallengeConfirm UtcBuild c1) (exec (completeChallenge UtcBuild c) w))))
     = yve_streak (localStorage (exec (completeChallenge UtcBuild c) w)).
Proof.
  intros w c c1 c2.
  assert (Hrun : inProgressToday UtcBuild c w).
  { eexists. split; [reflexivity|]. split; vm_compute; reflexivity. }
  assert (Hk1 : dayKey UtcBuild c1 = dayKey UtcBuild c) by (vm_compute; reflexivity).
  assert (Hk2 : dayKey UtcBuild c2 = dayKey UtcBuild c) by (vm_compute; reflexivity).
  split; [exact Hrun|]. split; [exact Hk1|]. split; [exact Hk2|].
  split; [vm_compute; reflexivity|].
  exact (proj1 (proj2 (streak_once_per_day c c1 c2 w Hrun Hk1 Hk2))).
Defined.

(** * Leaving during a daily run or an arena session *)

Lemma todayObject_current b c w o :
  currentObject b c (todayJson w) = Some o -> todayObject b c w = o.
Proof. intros H. unfold todayObject. rewrite H. reflexivity. Qed.

(** X17.  In the UTC build, leaving for the threshold or longer during
    today's run fails it: on the return event the trigger is called once
    and the handler leaves the state with the rule removed and the stored
    record patched to [failed], with the return instant as its result time;
    nothing else changes, so the streak, the last completed day and the
    timers are as they were. *)
Theorem challenge_fails_on_leave (c : Clock) (e : Event) (w : World)
    (r : LeaveRule) (t0 : Z) :
  activeRule w = Some r -> type r = challenge24 ->
  awayStart r = Some t0 -> t0 <> 0 -> thresholdMs r <= now c - t0 ->
  isReturn e = true ->
  inProgressToday UtcBuild c w ->
  let w' := withTodayState (failedPatch c ∪ todayObject UtcBuild c w) (setActiveRule None w) in
  handle UtcBuild c e w = ([now c - t0], w')
  /\ storedRecord w' [ ("dayKey", VStr (dayKey UtcBuild c)); ("state", VStr "failed");
                       ("resultAt", VNum (now c)) ]
  /\ activeRule w' = None
  /\ yve_streak (localStorage w') = yve_streak (localStorage w)
  /\ yve_streak_last_day (localStorage w') = yve_streak_last_day (localStorage w)
  /\ timers w' = timers w.
Proof.
  intros Hr Hty Ht0 Hnz Hge He Hrun w'. subst w'.
  rewrite (return_exec UtcBuild c e w r t0 Hr Ht0 Hnz He). cbv zeta.
  destruct (Z.leb_spec (thresholdMs r) (now c - t0)); [|lia].
  rewrite Hty. cbn [onTrigger].
  destruct (inProgressToday_current _ _ _ Hrun) as (o & Hcur & Hst).
  rewrite (todayObject_current _ _ _ _ Hcur).
  unfold exec.
  rewrite (failChallenge_in_progress c (setActiveRule (Some (setAwayStart None r)) w) o Hcur Hst).
  destruct (currentObject_dayKey UtcBuild c _ _ Hcur) as [_ Hd].
  split; [reflexivity|]. split; [|repeat split; reflexivity].
  exists (failedPatch c ∪ o). split; [reflexivity|].
  repeat constructor; cbn [fst snd].
  - rewrite lookup_union_r; [exact Hd|]. unfold failedPatch. by simplify_map_eq.
  - erewrite lookup_union_Some_l; [reflexivity|]. unfold failedPatch. by simplify_map_eq.
  - erewrite lookup_union_Some_l; [reflexivity|]. unfold failedPatch. by simplify_map_eq.
Qed.

Lemma challenge_fails_on_leave_witness :
  let r := {| type := challenge24; thresholdMs := 15000; awayStart := Some 1710054003000 |} in
  let w := setActiveRule (Some r)
             (loaded (streakStore "5" "2024-03-09"
                        (Some (Parses (JObj (runningSince "2024-03-10" 1710054000123)))))) in
  let c := atUtc 1710054023000 in
  activeRule w = Some r
  /\ inProgressToday UtcBuild c w
  /\ eval (handle UtcBuild c Focus) w = [20000]
  /\ activeRule (exec (handle UtcBuild c Focus) w) = None
  /\ yve_streak (localStorage (exec (handle UtcBuild c Focus) w)) = Some "5".
Proof.
  intros r w c.
  assert (Hrun : inProgressToday UtcBuild c w).
  { eexists. split; [reflexivity|]. split; vm_compute; reflexivity. }
  pose proof (challenge_fails_on_leave c Focus w r 1710054003000
                eq_refl eq_refl eq_refl ltac:(discriminate) ltac:(simpl; lia) eq_refl Hrun)
    as (E & _ & Hrule & Hstreak & _).
  split; [reflexivity|]. split; [exact Hrun|]. unfold eval, exec. rewrite E.
  split; [reflexivity|]. split; [exact Hrule|exact Hstreak].
Defined.

(** X18.  In the UTC build a run left over from another day is never
    marked failed.  When the trigger fires over a record that is not
    today's, the record is replaced by today's fresh one and nothing else
    happens: the streak stays, and the rule stays installed with its
    timestamp cleared. *)
Theorem stale_run_discarded_on_leave (c : Clock) (e : Event) (w : World)
    (r : LeaveRule) (t0 : Z) :
  activeRule w = Some r -> type r = challenge24 ->
  awayStart r = Some t0 -> t0 <> 0 -> thresholdMs r <= now c - t0 ->
  isReturn e = true ->
  staleRecord UtcBuild c (yve_today_state (localStorage w)) ->
  let w' := withTodayState (freshState UtcBuild c)
              (setActiveRule (Some (setAwayStart None r)) w) in
  handle UtcBuild c e w = ([now c - t0], w')
  /\ yve_today_state (localStorage w') = Some (Parses (JObj (freshState UtcBuild c)))
  /\ freshState UtcBuild c !! "state" = Some (VStr "not_started")
  /\ activeRule w' = Some (setAwayStart None r)
  /\ yve_streak (localStorage w') = yve_streak (localStorage w)
  /\ yve_streak_last_day (localStorage w') = yve_streak_last_day (localStorage w)
  /\ timers w' = timers w.
Proof.
  intros Hr Hty Ht0 Hnz Hge He Hstale w'. subst w'.
  rewrite (return_exec UtcBuild c e w r t0 Hr Ht0 Hnz He). cbv zeta.
  destruct (Z.leb_spec (thresholdMs r) (now c - t0)); [|lia].
  rewrite Hty. cbn [onTrigger]. unfold exec.
  rewrite (failChallenge_stale c (setActiveRule (Some (setAwayStart None r)) w))
    by (apply (staleRecord_currentObject UtcBuild c w); exact Hstale).
  split; [reflexivity|]. split; [reflexivity|].
  split; [apply freshState_state|]. repeat split; reflexivity.
Qed.

Lemma stale_run_discarded_on_leave_witness :
  let r := {| type := challenge24; thresholdMs := 15000; awayStart := Some 1710028790000 |} in
  let w := setActiveRule (Some r)
             (loaded (streakStore "5" "2024-03-08"
                        (Some (Parses (JObj (runningSince "2024-03-09" 1710000000000)))))) in
  let c := atUtc 1710054023000 in
  activeRule w = Some r
  /\ staleRecord UtcBuild c (yve_today_state (localStorage w))
  /\ activeRule (exec (handle UtcBuild c Focus) w) = Some (setAwayStart None r)
  /\ yve_streak (localStorage (exec (handle UtcBuild c Focus) w)) = Some "5".
Proof.
  intros r w c.
  assert (Hstale : staleRecord UtcBuild c (yve_today_state (localStorage w)))
    by (vm_compute; discriminate).
  pose proof (stale_run_discarded_on_leave c Focus w r 1710028790000
                eq_refl eq_refl eq_refl ltac:(discriminate) ltac:(simpl; lia) eq_refl Hstale)
    as (E & _ & _ & Hrule & Hstreak & _).
  split; [reflexivity|]. split; [exact Hstale|]. unfold exec. rewrite E.
  split; [exact Hrule|exact Hstreak].
Defined.

(** X19.  Leaving for the threshold or longer during an arena session that
    has time left fails it.  On the return event the trigger is called
    once; the session stops with its remaining time as it was, the rule is
    removed, and nothing else changes in that step.  In the UTC build the
    history step comes behind the await of the stop: it puts the [failed]
    entry at the head of the arena history, cut to 30 entries, and changes
    nothing else (over a stored value that is not an array it throws and
    writes nothing).  In the local build the history step follows at once
    and throws on [loadJSON], so the store stays as it was. *)
Theorem arena_fails_on_leave (b : Build) (c c' : Clock) (e : Event) (w : World)
    (r : LeaveRule) (t0 : Z) :
  activeRule w = Some r -> type r = focusArena ->
  awayStart r = Some t0 -> t0 <> 0 -> thresholdMs r <= now c - t0 ->
  isReturn e = true ->
  running (Arena w) = true -> 0 < remainingMs (Arena w) ->
  let stopped := setActiveRule None (setArena (setRunning false (Arena w)) w) in
  let entry := arenaEntry UtcBuild c' (selectedMin (Arena w)) "failed" in
  handle b c e w = ([now c - t0], stopped)
  /\ arenaFail LocalBuild c (setActiveRule (Some (setAwayStart None r)) w)
     = (Throws (ReferenceError "loadJSON"), stopped)
  /\ handle UtcBuild c' ArenaFailResume stopped
     = ([], setStorage (historyRecorded UtcBuild arenaHistory entry (localStorage w)) stopped)
  /\ (forall l, yve_arena_history (localStorage w) = HistoryArray l ->
        historyRecorded UtcBuild arenaHistory entry (localStorage w)
        = setItem_arena_history (HistoryArray (List.firstn 30 (entry :: l))) (localStorage w))
  /\ (yve_arena_history (localStorage w) = NoHistory ->
        historyRecorded UtcBuild arenaHistory entry (localStorage w)
        = setItem_arena_history (HistoryArray [entry]) (localStorage w))
  /\ (yve_arena_history (localStorage w) = NotAnArray ->
        historyRecorded UtcBuild arenaHistory entry (localStorage w) = localStorage w).
Proof.
  intros Hr Hty Ht0 Hnz Hge He Hrun Hleft stopped entry.
  assert (Hpos : (0 <? remainingMs (Arena w)) = true) by (apply Z.ltb_lt; exact Hleft).
  split; [|split; [|split; [|split; [|split]]]].
  - rewrite (return_exec b c e w r t0 Hr Ht0 Hnz He). cbv zeta.
    destruct (Z.leb_spec (thresholdMs r) (now c - t0)); [|lia].
    rewrite Hty. cbn [onTrigger]. rewrite arenaFail_exec.
    cbn [Arena setActiveRule]. rewrite Hrun, Hpos, arenaStop_exec.
    cbn [Arena setActiveRule]. rewrite Hrun. destruct b; reflexivity.
  - unfold arenaFail. rewrite bindA_lift. cbn [eval getArena fst Arena setActiveRule].
    rewrite Hrun. cbn [negb]. rewrite bindA_lift.
    change (exec getArena ?x) with x. rewrite arenaStop_exec.
    cbn [Arena setActiveRule]. rewrite Hrun. reflexivity.
  - cbn [handle resumed]. unfold silently, bind.
    pose proof (arenaFailResume_exec UtcBuild c' stopped) as E. unfold exec in E.
    destruct (arenaFailResume UtcBuild c' stopped) as [x w2]. cbn [snd] in E.
    rewrite E. reflexivity.
  - intros l Hl. cbn [historyRecorded historyOf limitOf]. rewrite Hl. reflexivity.
  - intros Hl. cbn [historyRecorded historyOf limitOf]. rewrite Hl. reflexivity.
  - intros Hl. cbn [historyRecorded historyOf limitOf]. rewrite Hl. reflexivity.
Qed.

Lemma arena_fails_on_leave_witness :
  let r := {| type := focusArena; thresholdMs := 15000; awayStart := Some 1710054003000 |} in
  let w := setActiveRule (Some r)
             (exec (handle UtcBuild (atUtc 1710054000000) ArenaStart) (loaded emptyStorage)) in
  let c := atUtc 1710054023000 in
  let w' := exec (handle UtcBuild c Focus) w in
  let w'' := exec (handle UtcBuild c ArenaFailResume) w' in
  activeRule w = Some r
  /\ running (Arena w) = true
  /\ 0 < remainingMs (Arena w)
  /\ running (Arena w') = false
  /\ activeRule w' = None
  /\ yve_arena_history (localStorage w') = NoHistory
  /\ yve_arena_history (localStorage w'')
     = HistoryArray [arenaEntry UtcBuild c 25 "failed"].
Proof.
  intros r w c w' w''.
  assert (Hleft : 0 < remainingMs (Arena w)) by reflexivity.
  pose proof (arena_fails_on_leave UtcBuild c c Focus w r 1710054003000
                eq_refl eq_refl eq_refl ltac:(discriminate) ltac:(simpl; lia) eq_refl eq_refl
                Hleft)
    as (E & _ & Eres & _ & Hno & _).
  split; [reflexivity|]. split; [reflexivity|]. split; [exact Hleft|].
  subst w'' w'. unfold exec. rewrite E. cbn [snd]. rewrite Eres. cbn [snd].
  split; [reflexivity|]. split; [reflexivity|]. split; [reflexivity|].
  rewrite (Hno eq_refl). reflexivity.
Defined.

(** * What the monitor watches *)

Lemma watcher_no_rule b c e w :
  activeRule w = None -> isWatcherEvent e = true -> handle b c e w = ([], w).
Proof.
  intros Hr He.
  destruct e as [h| | | | | | | | | | | | | | | | |]; try discriminate; cbn [handle].
  - unfold onVisibilityChange. rewrite Hr. reflexivity.
  - unfold onBlur. rewrite Hr. reflexivity.
  - unfold onFocus, checkBack. rewrite Hr. reflexivity.
Qed.

(** X20.  With no rule installed the monitor does nothing: no sequence of
    hide, show, blur and focus events changes the state or calls a trigger.
    This is the state of a freshly loaded page, whatever is stored, and in
    particular over a stored run that is in progress. *)
Theorem monitor_idle_without_rule (b : Build) (es : list (Clock * Event)) (w : World) :
  activeRule w = None ->
  Forall (fun ce => isWatcherEvent ce.2 = true) es ->
  run b es w = ([], w)
  /\ forall ls, activeRule (loaded ls) = None.
Proof.
  intros Hr Hes. split; [|reflexivity]. revert Hes.
  induction es as [|[c e] es IH]; intros Hes; [reflexivity|].
  inversion Hes as [|? ? He Hes']; subst. cbn [snd] in He.
  rewrite run_cons. unfold eval, exec. rewrite (watcher_no_rule b c e w Hr He). cbn [fst snd].
  rewrite (IH Hes'). reflexivity.
Qed.

Lemma monitor_idle_without_rule_witness :
  let w := loaded (streakStore "5" "2024-03-09"
                     (Some (Parses (JObj (runningSince "2024-03-10" 1710054000123))))) in
  let es := [ (atUtc 1710054003000, VisibilityChange true);
              (atUtc 1710054003001, Blur);
              (atUtc 1710054090000, VisibilityChange false);
              (atUtc 1710054090001, Focus) ] in
  activeRule w = None
  /\ Forall (fun ce => isWatcherEvent ce.2 = true) es
  /\ inProgressToday UtcBuild (atUtc 1710054090001) w
  /\ run UtcBuild es w = ([], w).
Proof.
  intros w es.
  assert (Hes : Forall (fun ce => isWatcherEvent ce.2 = true) es)
    by (repeat constructor).
  split; [reflexivity|]. split; [exact Hes|]. split.
  - eexists. split; [reflexivity|]. split; vm_compute; reflexivity.
  - exact (proj1 (monitor_idle_without_rule UtcBuild es w eq_refl Hes)).
Defined.

Lemma challengeUnwatched_rule w w' :
  challengeUnwatched w ->
  activeRule w' = activeRule w \/ activeRule w' = None ->
  challengeUnwatched w'.
Proof. unfold challengeUnwatched. intros H [-> | ->]; done. Qed.

(** The history and badge steps write under their own keys. *)
Lemma challengeKeys_historyRecorded b key entry ls :
  challengeKeys (historyRecorded b key entry ls) = challengeKeys ls.
Proof.
  destruct b; [reflexivity|]. unfold historyRecorded.
  destruct (recordHistory (limitOf key) entry (historyOf key ls)); [|reflexivity].
  destruct key; reflexivity.
Qed.

Lemma challengeKeys_bossStop w :
  challengeKeys (localStorage (exec bossStop w)) = challengeKeys (localStorage w).
Proof. rewrite bossStop_exec. destruct (running (Boss w)); reflexivity. Qed.

Lemma challengeKeys_arenaStop w :
  challengeKeys (localStorage (exec arenaStop w)) = challengeKeys (localStorage w).
Proof. rewrite arenaStop_exec. destruct (running (Arena w)); reflexivity. Qed.

Lemma localStorage_bossStop w : localStorage (exec bossStop w) = localStorage w.
Proof. rewrite bossStop_exec. destruct (running (Boss w)); reflexivity. Qed.

Lemma localStorage_arenaStop w : localStorage (exec arenaStop w) = localStorage w.
Proof. rewrite arenaStop_exec. destruct (running (Arena w)); reflexivity. Qed.

Lemma challengeKeys_arenaFail b c w :
  challengeKeys (localStorage (exec (arenaFail b c) w)) = challengeKeys (localStorage w).
Proof.
  rewrite arenaFail_exec. destruct (running (Arena w)); [|reflexivity].
  destruct b; [apply challengeKeys_arenaStop|].
  destruct (0 <? remainingMs (Arena w)); [apply challengeKeys_arenaStop|].
  rewrite arenaFailResume_exec. cbn [localStorage setStorage].
  rewrite challengeKeys_historyRecorded. apply challengeKeys_arenaStop.
Qed.

Lemma challengeKeys_bossTick b c w :
  challengeKeys (localStorage (exec (bossTick b c) w)) = challengeKeys (localStorage w).
Proof.
  rewrite bossTick_exec. destruct (running (Boss w)); [|reflexivity]. cbv zeta.
  destruct (remainingMs (countdown (Boss w)) =? 0); [|reflexivity].
  rewrite bossVictory_exec. cbn [localStorage setStorage].
  apply challengeKeys_historyRecorded.
Qed.

Lemma challengeKeys_arenaTick b c w :
  challengeKeys (localStorage (exec (arenaTick b c) w)) = challengeKeys (localStorage w).
Proof.
  rewrite arenaTick_exec. destruct (running (Arena w)); [|reflexivity]. cbv zeta.
  destruct (remainingMs (countdown (Arena w)) =? 0); [|reflexivity].
  rewrite arenaVictory_exec. cbn [localStorage setStorage].
  rewrite challengeKeys_historyRecorded. reflexivity.
Qed.

Lemma bossTick_rule b c w :
  activeRule (exec (bossTick b c) w) = activeRule w
  \/ activeRule (exec (bossTick b c) w) = None.
Proof.
  rewrite bossTick_exec. destruct (running (Boss w)); [|auto]. cbv zeta.
  destruct (remainingMs (countdown (Boss w)) =? 0); [|auto].
  rewrite bossVictory_exec. cbn [activeRule setStorage].
  apply (bossStop_rule (setBoss (countdown (Boss w)) w)).
Qed.

Lemma arenaTick_rule b c w :
  activeRule (exec (arenaTick b c) w) = activeRule w
  \/ activeRule (exec (arenaTick b c) w) = None.
Proof.
  rewrite arenaTick_exec. destruct (running (Arena w)); [|auto]. cbv zeta.
  destruct (remainingMs (countdown (Arena w)) =? 0); [|auto].
  rewrite arenaVictory_exec. cbn [activeRule setStorage].
  apply (arenaStop_rule (setArena (countdown (Arena w)) w)).
Qed.

Lemma onTrigger_unwatched b c ty ms w :
  ty <> challenge24 ->
  challengeKeys (localStorage (exec (onTrigger b c ty ms) w)) = challengeKeys (localStorage w).
Proof.
  intros Hty. destruct ty; [done|reflexivity|].
  cbn [onTrigger]. apply challengeKeys_arenaFail.
Qed.

Lemma checkBack_unwatched b c w :
  challengeUnwatched w ->
  challengeKeys (localStorage (exec (checkBack b c) w)) = challengeKeys (localStorage w)
  /\ challengeUnwatched (exec (checkBack b c) w).
Proof.
  unfold challengeUnwatched, checkBack. unfold exec at 1 3.
  destruct (activeRule w) as [r|] eqn:Hr; [|cbn [snd]; rewrite Hr; done].
  intros Hty. destruct (negb (awayStartSet r)); [cbn [snd]; rewrite Hr; done|].
  destruct (thresholdMs r <=? now c - default 0 (awayStart r)); cbn [snd].
  - split; [exact (onTrigger_unwatched b c (type r) _ _ Hty)|].
    destruct (onTrigger_rule b c (type r) (now c - default 0 (awayStart r))
                (setActiveRule (Some (setAwayStart None r)) w)) as [E|E];
      rewrite E; done.
  - done.
Qed.

Lemma silently_unwatched {A} (m : Handler A) w :
  challengeKeys (localStorage (exec m w)) = challengeKeys (localStorage w) ->
  activeRule (exec m w) = activeRule w \/ activeRule (exec m w) = None ->
  challengeUnwatched w ->
  challengeKeys (localStorage (exec (silently m) w)) = challengeKeys (localStorage w)
  /\ challengeUnwatched (exec (silently m) w).
Proof.
  intros Hk Hrule Hw. rewrite silently_exec.
  split; [exact Hk|]. apply (challengeUnwatched_rule w); [exact Hw|exact Hrule].
Qed.

(** An event that is not of the daily challenge leaves the challenge's
    keys alone while the rule in force is not the challenge's, and does not
    bring the challenge's rule back. *)
Lemma handle_unwatched b c e w :
  challengeUnwatched w -> isChallengeEvent e = false ->
  challengeKeys (localStorage (exec (handle b c e) w)) = challengeKeys (localStorage w)
  /\ challengeUnwatched (exec (handle b c e) w).
Proof.
  intros Hw He.
  destruct e as [hidden| | | | |min|min|task| | | | | | | | | |]; try discriminate;
    cbn [handle].
  - destruct hidden.
    + unfold onVisibilityChange, exec, challengeUnwatched in *.
      destruct (activeRule w) as [r|] eqn:Hr; cbn; [done|rewrite Hr; done].
    + pose proof (handle_return b c (VisibilityChange false) w eq_refl) as E.
      cbn [handle] in E. pose proof (checkBack_unwatched b c w Hw) as H.
      unfold exec in *. rewrite E. exact H.
  - unfold onBlur, exec, challengeUnwatched in *.
    destruct (activeRule w) as [r|] eqn:Hr; cbn; [|rewrite Hr; done].
    unfold blurRule. destruct (awayStartSet r); done.
  - apply checkBack_unwatched, Hw.
  - apply silently_unwatched; [apply challengeKeys_bossTick|apply bossTick_rule|exact Hw].
  - apply silently_unwatched; [apply challengeKeys_arenaTick|apply arenaTick_rule|exact Hw].
  - apply silently_unwatched; [| |exact Hw].
    + unfold exec, bossPreset, bind, getBoss, putBoss, ret. cbn.
      destruct (running (Boss w)); reflexivity.
    + left. unfold exec, bossPreset, bind, getBoss, putBoss, ret. cbn.
      destruct (running (Boss w)); reflexivity.
  - apply silently_unwatched; [| |exact Hw].
    + unfold exec, arenaPreset, bind, getArena, putArena, ret. cbn.
      destruct (running (Arena w)); reflexivity.
    + left. unfold exec, arenaPreset, bind, getArena, putArena, ret. cbn.
      destruct (running (Arena w)); reflexivity.
  - rewrite silently_exec, bossStart_exec.
    destruct (Str.trim task); [done|].
    split; [reflexivity|]. unfold challengeUnwatched. cbn. discriminate.
  - apply silently_unwatched; [apply challengeKeys_bossStop|apply bossStop_rule|exact Hw].
  - split; [reflexivity|]. unfold challengeUnwatched. cbn. discriminate.
  - apply silently_unwatched; [apply challengeKeys_arenaStop|apply arenaStop_rule|exact Hw].
  - destruct b; [done|]. cbn [resumed].
    apply silently_unwatched; [| |exact Hw].
    + rewrite arenaFailResume_exec. cbn [localStorage setStorage].
      apply challengeKeys_historyRecorded.
    + left. rewrite arenaFailResume_exec. reflexivity.
Qed.

Lemma run_unwatched b es : forall w,
  challengeUnwatched w ->
  Forall (fun ce => isChallengeEvent ce.2 = false) es ->
  challengeKeys (localStorage (exec (run b es) w)) = challengeKeys (localStorage w)
  /\ challengeUnwatched (exec (run b es) w).
Proof.
  induction es as [|[c e] es IH]; intros w Hw Hes; [done|].
  inversion Hes as [|? ? He Hes']; subst. cbn [snd] in He.
  unfold exec. rewrite run_cons. cbn [snd].
  destruct (handle_unwatched b c e w Hw He) as [Hs Hu].
  destruct (IH _ Hu Hes') as [Hs' Hu']. split; [congruence|exact Hu'].
Qed.

Lemma sessionStart_unwatched b c e w :
  isSessionStart e = true ->
  localStorage (exec (handle b c e) w) = localStorage w
  /\ challengeUnwatched (exec (handle b c e) w).
Proof.
  destruct e as [hidden| | | | |min|min|task| | | | | | | | | |]; try discriminate;
    cbn [isSessionStart handle].
  - intros He. rewrite silently_exec, bossStart_exec.
    destruct (Str.trim task); [discriminate|].
    split; [reflexivity|]. unfold challengeUnwatched. cbn. discriminate.
  - intros _. split; [reflexivity|]. unfold challengeUnwatched. cbn. discriminate.
Qed.

(** X21.  The rule slot holds one rule.  Starting a boss fight (with a
    task that is not blank) or an arena session replaces whatever rule was
    in force, the daily challenge's included, and nothing but the
    challenge's own buttons puts that one back.  From then on no sequence
    of leave, return, timer, preset, start and stop events, nor the history
    step of a failed arena session, touches the three keys of the daily
    challenge and the streak (the sessions write only the history lists and
    the badge count), so a run in progress is no longer failed by
    leaving. *)
Theorem session_start_unwatches_challenge (b : Build) (c0 : Clock) (e0 : Event)
    (es : list (Clock * Event)) (w : World) :
  isSessionStart e0 = true ->
  Forall (fun ce => isChallengeEvent ce.2 = false) es ->
  let w1 := exec (handle b c0 e0) w in
  challengeUnwatched w1
  /\ localStorage w1 = localStorage w
  /\ challengeKeys (localStorage (exec (run b es) w1)) = challengeKeys (localStorage w)
  /\ challengeUnwatched (exec (run b es) w1)
  /\ (forall c, inProgressToday b c w -> inProgressToday b c (exec (run b es) w1)).
Proof.
  intros He0 Hes w1.
  destruct (sessionStart_unwatched b c0 e0 w He0) as [Hs1 Hu1]. fold w1 in Hs1, Hu1.
  destruct (run_unwatched b es w1 Hu1 Hes) as [Hs Hu].
  assert (Hst : challengeKeys (localStorage (exec (run b es) w1))
                = challengeKeys (localStorage w)) by congruence.
  split; [exact Hu1|]. split; [exact Hs1|]. split; [exact Hst|]. split; [exact Hu|].
  intros c (o & H1 & H2). exists o. unfold challengeKeys in Hst.
  injection Hst as Ht _ _. rewrite Ht. done.
Qed.

(** A run is in progress when a one-minute boss fight is started; the tab
    is then left for 87 s, and the fight goes on. *)
Lemma session_start_unwatches_challenge_witness :
  let w := setActiveRule (Some challengeRule)
             (setBoss (setDuration 1 Timer0)
                (loaded (streakStore "5" "2024-03-09"
                           (Some (Parses (JObj (runningSince "2024-03-10" 1710054000123))))))) in
  let es := [ (atUtc 1710054003000, VisibilityChange true);
              (atUtc 1710054090000, VisibilityChange false);
              (atUtc 1710054091000, Blur);
              (atUtc 1710054092000, Focus);
              (atUtc 1710054093000, BossTick) ] in
  let w1 := exec (handle UtcBuild (atUtc 1710054002000) (BossStart " write the report ")) w in
  isSessionStart (BossStart " write the report ") = true
  /\ Forall (fun ce => isChallengeEvent ce.2 = false) es
  /\ inProgressToday UtcBuild (atUtc 1710054093000) w
  /\ inProgressToday UtcBuild (atUtc 1710054093000) (exec (run UtcBuild es) w1).
Proof.
  intros w es w1.
  assert (Hes : Forall (fun ce => isChallengeEvent ce.2 = false) es) by (repeat constructor).
  assert (Hrun : inProgressToday UtcBuild (atUtc 1710054093000) w).
  { eexists. split; [reflexivity|]. split; vm_compute; reflexivity. }
  split; [reflexivity|]. split; [exact Hes|]. split; [exact Hrun|].
  exact (proj2 (proj2 (proj2 (proj2 (session_start_unwatches_challenge UtcBuild
           (atUtc 1710054002000) (BossStart " write the report ") es w eq_refl Hes)))) _ Hrun).
Defined.

(** * Counting down to victory *)

Lemma countdown_eq t :
  countdown t
  = setRemainingMs (if 1000 <? remainingMs t then remainingMs t - 1000 else 0) t.
Proof.
  unfold countdown. cbv zeta.
  destruct (Z.ltb_spec (remainingMs t - 1000) 0); destruct (Z.ltb_spec 1000 (remainingMs t));
    try lia; try reflexivity.
  f_equal. lia.
Qed.

(** One interval callback of a running session, in closed form. *)
Lemma bossTick_running b c w :
  running (Boss w) = true ->
  exec (bossTick b c) w =
    if 1000 <? remainingMs (Boss w)
    then setBoss (setRemainingMs (remainingMs (Boss w) - 1000) (Boss w)) w
    else setStorage
           (historyRecorded b bossHistory (bossEntry b c (bossTask w) (selectedMin (Boss w)))
              (localStorage w))
           (setActiveRule None (setBoss (setRunning false (setRemainingMs 0 (Boss w))) w)).
Proof.
  intros Hrun. rewrite bossTick_exec, Hrun. cbv zeta. rewrite countdown_eq.
  destruct (Z.ltb_spec 1000 (remainingMs (Boss w))); cbn [remainingMs setRemainingMs].
  - destruct (Z.eqb_spec (remainingMs (Boss w) - 1000) 0); [lia|]. reflexivity.
  - cbn [Z.eqb]. rewrite bossVictory_exec, bossStop_exec.
    cbn [Boss setBoss running setRemainingMs]. rewrite Hrun. reflexivity.
Qed.

Lemma bossTick_stopped b c w : running (Boss w) = false -> exec (bossTick b c) w = w.
Proof. intros Hrun. rewrite bossTick_exec, Hrun. reflexivity. Qed.

Lemma arenaTick_running b c w :
  running (Arena w) = true ->
  exec (arenaTick b c) w =
    if 1000 <? remainingMs (Arena w)
    then setArena (setRemainingMs (remainingMs (Arena w) - 1000) (Arena w)) w
    else setStorage
           (historyRecorded b arenaHistory
              (arenaEntry b c (selectedMin (Arena w)) "cleared")
              (badgeCounted (localStorage w)))
           (setActiveRule None (setArena (setRunning false (setRemainingMs 0 (Arena w))) w)).
Proof.
  intros Hrun. rewrite arenaTick_exec, Hrun. cbv zeta. rewrite countdown_eq.
  destruct (Z.ltb_spec 1000 (remainingMs (Arena w))); cbn [remainingMs setRemainingMs].
  - destruct (Z.eqb_spec (remainingMs (Arena w) - 1000) 0); [lia|]. reflexivity.
  - cbn [Z.eqb]. rewrite arenaVictory_exec, arenaStop_exec.
    cbn [Arena setArena running setRemainingMs]. rewrite Hrun. reflexivity.
Qed.

Lemma arenaTick_stopped b c w : running (Arena w) = false -> exec (arenaTick b c) w = w.
Proof. intros Hrun. rewrite arenaTick_exec, Hrun. reflexivity. Qed.

Lemma run_exec_cons b c e es w :
  exec (run b ((c, e) :: es)) w = exec (run b es) (exec (handle b c e) w).
Proof. unfold exec at 1. rewrite run_cons. reflexivity. Qed.

Lemma bossTicks_stopped b es : forall w,
  Forall (fun ce => ce.2 = BossTick) es -> running (Boss w) = false ->
  exec (run b es) w = w.
Proof.
  induction es as [|[c e] es IH]; intros w Hes Hrun; [reflexivity|].
  inversion Hes as [|? ? He Hes']; subst. cbn [snd] in He. subst e.
  rewrite run_exec_cons. cbn [handle]. rewrite silently_exec, bossTick_stopped by exact Hrun.
  apply IH; assumption.
Qed.

Lemma arenaTicks_stopped b es : forall w,
  Forall (fun ce => ce.2 = ArenaTick) es -> running (Arena w) = false ->
  exec (run b es) w = w.
Proof.
  induction es as [|[c e] es IH]; intros w Hes Hrun; [reflexivity|].
  inversion Hes as [|? ? He Hes']; subst. cbn [snd] in He. subst e.
  rewrite run_exec_cons. cbn [handle]. rewrite silently_exec, arenaTick_stopped by exact Hrun.
  apply IH; assumption.
Qed.

Lemma ticksToZero_last r : 0 < r <= 1000 -> ticksToZero r = 1%nat.
Proof.
  intros H. unfold ticksToZero.
  assert ((r + 999) / 1000 = 1) by (Z.to_euclidean_division_equations; lia).
  lia.
Qed.

Lemma ticksToZero_step r : 1000 < r -> ticksToZero r = S (ticksToZero (r - 1000)).
Proof.
  intros H. unfold ticksToZero.
  assert ((r + 999) / 1000 = (r - 1000 + 999) / 1000 + 1
          /\ 0 <= (r - 1000 + 999) / 1000)
    by (Z.to_euclidean_division_equations; lia).
  lia.
Qed.

Lemma ticksToZero_pos r : 0 < r -> (1 <= ticksToZero r)%nat.
Proof.
  intros H. unfold ticksToZero.
  assert (1 <= (r + 999) / 1000) by (Z.to_euclidean_division_equations; lia).
  lia.
Qed.

(** X22.  A boss fight that is left alone ends in victory at the tick that
    brings the remaining time to zero, and not before.  After [k] ticks,
    while 1000 k is below the remaining time, the fight runs with 1000 k
    less on the clock, the rule in place and the store as it was.  From
    then on it is stopped at zero with the rule removed, and the store is
    the one the history step of the finishing tick left: in the UTC build
    the entry of that tick (its day key and instant, the task, the minutes
    selected) at the head of the boss history, cut to 20 entries, or the
    store as it was when the stored history is not an array; in the local
    build, where the step throws on [loadJSON], the store as it was.
    Further ticks change nothing.  The total and the arena are untouched
    throughout. *)
Theorem boss_countdown_to_victory (b : Build) (es : list (Clock * Event)) (w : World) :
  Forall (fun ce => ce.2 = BossTick) es ->
  running (Boss w) = true ->
  0 < remainingMs (Boss w) ->
  let k := Z.of_nat (List.length es) in
  let w' := exec (run b es) w in
  (if 1000 * k <? remainingMs (Boss w)
   then running (Boss w') = true
        /\ remainingMs (Boss w') = remainingMs (Boss w) - 1000 * k
        /\ activeRule w' = activeRule w
        /\ localStorage w' = localStorage w
   else running (Boss w') = false /\ remainingMs (Boss w') = 0 /\ activeRule w' = None
        /\ exists cv,
             List.nth_error es (ticksToZero (remainingMs (Boss w)) - 1) = Some (cv, BossTick)
             /\ localStorage w'
                = historyRecorded b bossHistory
                    (bossEntry b cv (bossTask w) (selectedMin (Boss w))) (localStorage w))
  /\ totalMs (Boss w') = totalMs (Boss w)
  /\ Arena w' = Arena w.
Proof.
  revert w. induction es as [|[c e] es IH]; intros w Hes Hrun Hpos k w'; subst k w'.
  - change (Z.of_nat (List.length (@nil (Clock * Event)))) with 0. rewrite Z.mul_0_r.
    destruct (Z.ltb_spec 0 (remainingMs (Boss w))); [|lia].
    cbn. repeat split; (reflexivity || lia || assumption).
  - inversion Hes as [|? ? He Hes']; subst. cbn [snd] in He. subst e.
    rewrite run_exec_cons. cbn [handle]. rewrite silently_exec, bossTick_running by exact Hrun.
    rewrite List.length_cons, Nat2Z.inj_succ.
    destruct (Z.ltb_spec 1000 (remainingMs (Boss w))) as [Hlt|Hge].
    + specialize (IH (setBoss (setRemainingMs (remainingMs (Boss w) - 1000) (Boss w)) w)
                     Hes' Hrun ltac:(cbn; lia)).
      cbv zeta in IH.
      cbn [Boss setBoss remainingMs setRemainingMs bossTask selectedMin localStorage] in IH.
      destruct IH as (IH1 & IH2 & IH3).
      split; [|split; [exact IH2|exact IH3]].
      destruct (Z.ltb_spec (1000 * Z.of_nat (List.length es)) (remainingMs (Boss w) - 1000));
        destruct (Z.ltb_spec (1000 * Z.succ (Z.of_nat (List.length es)))
                    (remainingMs (Boss w))); try lia.
      * destruct IH1 as (? & ? & ? & ?). repeat split; [assumption|lia|assumption|assumption].
      * destruct IH1 as (? & ? & ? & cv & Hnth & Hst).
        split; [assumption|]. split; [assumption|]. split; [assumption|].
        exists cv. split; [|exact Hst].
        rewrite (ticksToZero_step _ Hlt).
        pose proof (ticksToZero_pos (remainingMs (Boss w) - 1000) ltac:(lia)) as Hp.
        destruct (ticksToZero (remainingMs (Boss w) - 1000)) as [|n]; [lia|].
        cbn [Nat.sub List.nth_error] in *. rewrite Nat.sub_0_r in *. exact Hnth.
    + rewrite bossTicks_stopped by (assumption || reflexivity).
      destruct (Z.ltb_spec (1000 * Z.succ (Z.of_nat (List.length es)))
                  (remainingMs (Boss w))); [lia|].
      split; [|split; reflexivity].
      split; [reflexivity|]. split; [reflexivity|]. split; [reflexivity|].
      exists c. rewrite (ticksToZero_last (remainingMs (Boss w))) by lia.
      split; reflexivity.
Qed.

(** A one-minute fight: 59 ticks leave a second on the clock and the store
    empty, the 60th wins and records the fight. *)
Lemma boss_countdown_to_victory_witness :
  let w := exec (run UtcBuild [ (atUtc 1710054000000, BossPreset 1);
                                (atUtc 1710054001000, BossStart "write the report") ])
                (loaded emptyStorage) in
  let c := atUtc 1710054002000 in
  let ticks n := times n c BossTick in
  Forall (fun ce => ce.2 = BossTick) (ticks 59%nat)
  /\ Forall (fun ce => ce.2 = BossTick) (ticks 60%nat)
  /\ running (Boss w) = true
  /\ 0 < remainingMs (Boss w)
  /\ remainingMs (Boss (exec (run UtcBuild (ticks 59%nat)) w)) = 1000
  /\ localStorage (exec (run UtcBuild (ticks 59%nat)) w) = emptyStorage
  /\ running (Boss (exec (run UtcBuild (ticks 60%nat)) w)) = false
  /\ activeRule (exec (run UtcBuild (ticks 60%nat)) w) = None
  /\ yve_boss_history (localStorage (exec (run UtcBuild (ticks 60%nat)) w))
     = HistoryArray [bossEntry UtcBuild c "write the report" 1].
Proof.
  intros w c ticks.
  assert (H59 : Forall (fun ce => ce.2 = BossTick) (ticks 59%nat)).
  { apply List.Forall_forall. intros x Hx. apply List.repeat_spec in Hx. subst x. reflexivity. }
  assert (H60 : Forall (fun ce => ce.2 = BossTick) (ticks 60%nat)).
  { apply List.Forall_forall. intros x Hx. apply List.repeat_spec in Hx. subst x. reflexivity. }
  assert (Hrun : running (Boss w) = true) by reflexivity.
  assert (Hpos : 0 < remainingMs (Boss w)) by reflexivity.
  split; [exact H59|]. split; [exact H60|]. split; [exact Hrun|]. split; [exact Hpos|].
  pose proof (proj1 (boss_countdown_to_victory UtcBuild (ticks 59%nat) w H59 Hrun Hpos)) as A.
  pose proof (proj1 (boss_countdown_to_victory UtcBuild (ticks 60%nat) w H60 Hrun Hpos)) as B.
  destruct A as (_ & A2 & _ & A4). destruct B as (B1 & _ & B3 & cv & Hnth & B4).
  split; [rewrite A2; reflexivity|]. split; [exact A4|].
  split; [exact B1|]. split; [exact B3|].
  rewrite B4. injection Hnth as <-. reflexivity.
Defined.

(** X23.  An arena session that is left alone is cleared at the tick that
    brings the remaining time to zero, and not before; until then it runs
    with 1000 ms less per tick, the rule in place and the store as it was.
    From then on it is stopped at zero with the rule removed, and the store
    is the one the finishing tick left: the badge count is one more, and in
    the UTC build the [cleared] entry of that tick is at the head of the
    arena history, cut to 30 entries (nothing is recorded when the stored
    history is not an array, nor in the local build, where the history
    step throws on [loadJSON] after the badge is counted).  The total and
    the boss fight are untouched throughout. *)
Theorem arena_countdown_to_victory (b : Build) (es : list (Clock * Event)) (w : World) :
  Forall (fun ce => ce.2 = ArenaTick) es ->
  running (Arena w) = true ->
  0 < remainingMs (Arena w) ->
  let k := Z.of_nat (List.length es) in
  let w' := exec (run b es) w in
  (if 1000 * k <? remainingMs (Arena w)
   then running (Arena w') = true
        /\ remainingMs (Arena w') = remainingMs (Arena w) - 1000 * k
        /\ activeRule w' = activeRule w
        /\ localStorage w' = localStorage w
   else running (Arena w') = false /\ remainingMs (Arena w') = 0 /\ activeRule w' = None
        /\ exists cv,
             List.nth_error es (ticksToZero (remainingMs (Arena w)) - 1)
             = Some (cv, ArenaTick)
             /\ localStorage w'
                = historyRecorded b arenaHistory
                    (arenaEntry b cv (selectedMin (Arena w)) "cleared")
                    (badgeCounted (localStorage w)))
  /\ totalMs (Arena w') = totalMs (Arena w)
  /\ Boss w' = Boss w.
Proof.
  revert w. induction es as [|[c e] es IH]; intros w Hes Hrun Hpos k w'; subst k w'.
  - change (Z.of_nat (List.length (@nil (Clock * Event)))) with 0. rewrite Z.mul_0_r.
    destruct (Z.ltb_spec 0 (remainingMs (Arena w))); [|lia].
    cbn. repeat split; (reflexivity || lia || assumption).
  - inversion Hes as [|? ? He Hes']; subst. cbn [snd] in He. subst e.
    rewrite run_exec_cons. cbn [handle]. rewrite silently_exec, arenaTick_running by exact Hrun.
    rewrite List.length_cons, Nat2Z.inj_succ.
    destruct (Z.ltb_spec 1000 (remainingMs (Arena w))) as [Hlt|Hge].
    + specialize (IH (setArena (setRemainingMs (remainingMs (Arena w) - 1000) (Arena w)) w)
                     Hes' Hrun ltac:(cbn; lia)).
      cbv zeta in IH.
      cbn [Arena setArena remainingMs setRemainingMs selectedMin localStorage] in IH.
      destruct IH as (IH1 & IH2 & IH3).
      split; [|split; [exact IH2|exact IH3]].
      destruct (Z.ltb_spec (1000 * Z.of_nat (List.length es)) (remainingMs (Arena w) - 1000));
        destruct (Z.ltb_spec (1000 * Z.succ (Z.of_nat (List.length es)))
                    (remainingMs (Arena w))); try lia.
      * destruct IH1 as (? & ? & ? & ?). repeat split; [assumption|lia|assumption|assumption].
      * destruct IH1 as (? & ? & ? & cv & Hnth & Hst).
        split; [assumption|]. split; [assumption|]. split; [assumption|].
        exists cv. split; [|exact Hst].
        rewrite (ticksToZero_step _ Hlt).
        pose proof (ticksToZero_pos (remainingMs (Arena w) - 1000) ltac:(lia)) as Hp.
        destruct (ticksToZero (remainingMs (Arena w) - 1000)) as [|n]; [lia|].
        cbn [Nat.sub List.nth_error] in *. rewrite Nat.sub_0_r in *. exact Hnth.
    + rewrite arenaTicks_stopped by (assumption || reflexivity).
      destruct (Z.ltb_spec (1000 * Z.succ (Z.of_nat (List.length es)))
                  (remainingMs (Arena w))); [lia|].
      split; [|split; reflexivity].
      split; [reflexivity|]. split; [reflexivity|]. split; [reflexivity|].
      exists c. rewrite (ticksToZero_last (remainingMs (Arena w))) by lia.
      split; reflexivity.
Qed.

(** A one-minute session over an empty store: the 60th tick clears it,
    counts the first badge and records the session. *)
Lemma arena_countdown_to_victory_witness :
  let w := exec (run UtcBuild [ (atUtc 1710054000000, ArenaPreset 1);
                                (atUtc 1710054001000, ArenaStart) ])
                (loaded emptyStorage) in
  let c := atUtc 1710054002000 in
  let ticks := times 60 c ArenaTick in
  Forall (fun ce => ce.2 = ArenaTick) ticks
  /\ running (Arena w) = true
  /\ 0 < remainingMs (Arena w)
  /\ running (Arena (exec (run UtcBuild ticks) w)) = false
  /\ remainingMs (Arena (exec (run UtcBuild ticks) w)) = 0
  /\ yve_arena_badges (localStorage (exec (run UtcBuild ticks) w)) = Some "1"
  /\ yve_arena_history (localStorage (exec (run UtcBuild ticks) w))
     = HistoryArray [arenaEntry UtcBuild c 1 "cleared"].
Proof.
  intros w c ticks.
  assert (H60 : Forall (fun ce => ce.2 = ArenaTick) ticks).
  { apply List.Forall_forall. intros x Hx. apply List.repeat_spec in Hx. subst x. reflexivity. }
  assert (Hrun : running (Arena w) = true) by reflexivity.
  assert (Hpos : 0 < remainingMs (Arena w)) by reflexivity.
  split; [exact H60|]. split; [exact Hrun|]. split; [exact Hpos|].
  pose proof (proj1 (arena_countdown_to_victory UtcBuild ticks w H60 Hrun Hpos)) as B.
  destruct B as (B1 & B2 & _ & cv & Hnth & B4).
  split; [exact B1|]. split; [exact B2|].
  rewrite B4. injection Hnth as <-. split; reflexivity.
Defined.

(** * The stored count *)

(** X24.  The streak count survives the round trip through the store: for
    an integer [n] of magnitude below 2^53 (where the decimal text
    [String] writes is exact), after [setStreak n] the count read back is
    [n], or 0 for a negative [n]; the write touches no other key, no rule
    and no timer; and a store without the key reads as 0. *)
Theorem streak_round_trip (n : Z) (w : World) :
  JS.safeInteger n ->
  let w' := exec (setStreak n) w in
  eval getStreak w' = Z.max 0 n
  /\ 0 <= eval getStreak w'
  /\ localStorage w' = setItem_streak (Str.ofNumber (Z.max 0 n)) (localStorage w)
  /\ activeRule w' = activeRule w
  /\ timers w' = timers w
  /\ (yve_streak (localStorage w) = None -> eval getStreak w = 0).
Proof.
  intros _ w'.
  assert (E : eval getStreak w' = Z.max 0 n).
  { apply getStreak_stored; [reflexivity|lia]. }
  split; [exact E|]. split; [lia|]. repeat split.
  intros Hnone. unfold eval, getStreak, bind, getStorage, ret. cbn. rewrite Hnone. reflexivity.
Qed.

Lemma streak_round_trip_witness :
  JS.safeInteger 6
  /\ eval getStreak (exec (setStreak 6) (loaded (streakStore "5" "2024-03-09" None))) = 6
  /\ yve_streak (localStorage (exec (setStreak 6) (loaded (streakStore "5" "2024-03-09" None))))
     = Some "6".
Proof.
  assert (H : JS.safeInteger 6) by (vm_compute; split; reflexivity).
  destruct (streak_round_trip 6 (loaded (streakStore "5" "2024-03-09" None)) H)
    as (E & _ & Hst & _).
  split; [exact H|]. split; [exact E|]. rewrite Hst. reflexivity.
Defined.
